(** * CalendarUtils: approximate calendar conversions of shared-utils.js

    A shallow embedding of the [CalendarUtils] object of [src/shared-utils.js]
    and of the part of the JavaScript platform it runs on (numbers holding
    integers, array lookup, template literals, the ECMA-262 [Date] object),
    followed by the properties of the conversion engine, and the same for
    the controllers of the file that keep their state in localStorage.

    Conventions of the embedding:
    - a JavaScript number that holds an integer is a [Z]; [%] is the
      truncated remainder [Z.rem]; [Math.floor (x / n)] for a positive
      integer [n] is the floor division [x / n], which is what the doubles
      give while [x] is a safe integer (at most 2^53 - 1 in absolute value);
    - a number that may be [NaN] (a field of an invalid [Date]) is a
      [number];
    - [arr[i]] is [array_get], which is [undefined] ([None]) out of range;
    - a [Date] object is its time value in milliseconds, or [NaN]; local time
      is UTC shifted by the offset of the host, a [Host] having one offset
      and a [Zone] an offset that changes with daylight saving;
    - [Math.sin] and [Math.cos] are the real functions [sin] and [cos];
      the product with 1.030684 is rounded as a double, by [round53]. *)

From Stdlib Require Import ZArith List String Ascii Bool Lia.
From Stdlib Require Import DecimalString DecimalPos.
From Stdlib Require Import Reals Lra.
Import ListNotations.

Local Open Scope string_scope.
Local Open Scope Z_scope.

(** ** The JavaScript values the engine works with *)

Module JS.

(** A number that is an integer, or [NaN]. *)
Inductive number : Type :=
| Int (z : Z)
| NaN.

(** [ToString] on an integer: decimal digits, a leading minus sign. *)
Definition string_of_Z (z : Z) : string :=
  NilZero.string_of_int (Z.to_int z).

Definition ToString (n : number) : string :=
  match n with
  | Int z => string_of_Z z
  | NaN => "NaN"
  end.

(** [arr[i]]: the element, or [undefined] when [i] is no index of [arr]. *)
Definition array_get (arr : list string) (i : Z) : option string :=
  if i <? 0 then None else nth_error arr (Z.to_nat i).

Definition array_get_num (arr : list string) (i : number) : option string :=
  match i with
  | Int z => array_get arr z
  | NaN => None
  end.

(** An array element inside a template literal. *)
Definition show (v : option string) : string :=
  match v with
  | Some s => s
  | None => "undefined"
  end.

(** Lifting of integer arithmetic to numbers: [NaN] is absorbing. *)
Definition lift1 (f : Z -> Z) (a : number) : number :=
  match a with
  | Int x => Int (f x)
  | NaN => NaN
  end.

Definition lift2 (f : Z -> Z -> Z) (a b : number) : number :=
  match a, b with
  | Int x, Int y => Int (f x y)
  | _, _ => NaN
  end.

(** A comparison with [NaN] is false. *)
Definition geb (a : number) (k : Z) : bool :=
  match a with
  | Int x => k <=? x
  | NaN => false
  end.

Definition leb (a : number) (k : Z) : bool :=
  match a with
  | Int x => x <=? k
  | NaN => false
  end.

(** What a function can read from the host without being passed it: the
    offset of the local time zone in milliseconds, and the clock. *)
Record Host : Type := mkHost { LocalTZA : Z; now : Z }.

End JS.

Import JS.

(** ** The pure year functions of [CalendarUtils] *)

Definition monthNames : list string :=
  ["January"; "February"; "March"; "April"; "May"; "June";
   "July"; "August"; "September"; "October"; "November"; "December"].

Definition isGregorianLeapYear (year : Z) : bool :=
  (Z.rem year 400 =? 0) || ((Z.rem year 4 =? 0) && negb (Z.rem year 100 =? 0)).

Definition getDaysInGregorianYear (year : Z) : Z :=
  if isGregorianLeapYear year then 366 else 365.

(** On a safe integer [year]: the double [year / 100] is then within 1/128
    of the quotient, so that [Math.floor] gives the integer quotient, and
    the division by 4 and the subtractions are exact. *)
Definition getJulianGregorianOffset (year : Z) : Z :=
  let century := year / 100 in
  century - century / 4 - 2.

(** The integer sequence of [calculateEasterDate]: the pair [(month, day)]. *)
Definition easterMonthDay (year : Z) : Z * Z :=
  let a := Z.rem year 19 in
  let b := year / 100 in
  let c := Z.rem year 100 in
  let d := b / 4 in
  let e := Z.rem b 4 in
  let f := (b + 8) / 25 in
  let g := (b - f + 1) / 3 in
  let h := Z.rem (19 * a + b - d - g + 15) 30 in
  let i := c / 4 in
  let k := Z.rem c 4 in
  let l := Z.rem (32 + 2 * e + 2 * i - h - k) 7 in
  let m := (a + 11 * h + 22 * l) / 451 in
  let month := (h + l - 7 * m + 114) / 31 in
  let day := Z.rem (h + l - 7 * m + 114) 31 + 1 in
  (month, day).

Definition calculateEasterDate (year : Z) : string :=
  let '(month, day) := easterMonthDay year in
  show (array_get monthNames (month - 1)) ++ " " ++ string_of_Z day
    ++ ", " ++ string_of_Z year.

Definition includes (l : list Z) (x : Z) : bool :=
  existsb (Z.eqb x) l.

Definition isHebrewLeapYear (year : Z) : bool :=
  let cycleYear := Z.rem year 19 in
  includes [3; 6; 8; 11; 14; 17; 0] cycleYear.

Definition getMonthsInHebrewYear (year : Z) : Z :=
  if isHebrewLeapYear year then 13 else 12.

Definition isIslamicLeapYear (year : Z) : bool :=
  let cycleYear := Z.rem year 30 in
  includes [2; 5; 7; 10; 13; 16; 18; 21; 24; 26; 29] cycleYear.

Definition getDaysInIslamicYear (year : Z) : Z :=
  if isIslamicLeapYear year then 355 else 354.

(** ** The Date object (ECMA-262, Date Objects)

    Time values are integral milliseconds since 1 January 1970 UTC; [NaN] is
    the time value of an invalid Date. *)

Module Date.

Definition msPerDay : Z := 86400000.

(** Largest magnitude of a time value: 100,000,000 days. *)
Definition maxTimeValue : Z := 8640000000000000.

Definition Day (t : Z) : Z := t / msPerDay.

Definition TimeWithinDay (t : Z) : Z := t mod msPerDay.

Definition DaysInYear (y : Z) : Z :=
  if negb (y mod 4 =? 0) then 365
  else if negb (y mod 100 =? 0) then 366
  else if negb (y mod 400 =? 0) then 365
  else 366.

Definition DayFromYear (y : Z) : Z :=
  365 * (y - 1970) + (y - 1969) / 4 - (y - 1901) / 100 + (y - 1601) / 400.

Definition TimeFromYear (y : Z) : Z := msPerDay * DayFromYear y.

(** ECMA-262 defines [YearFromTime t] as the largest [y] with
    [TimeFromYear y <= t].  It is computed here from the mean year length
    146097/400 days, which is off by at most one year; lemma
    [YearFromTime_spec] below shows the result is the year of the
    definition. *)
Definition YearFromTime (t : Z) : Z :=
  let d := Day t in
  let e := 1970 + (400 * d) / 146097 in
  if DayFromYear (e + 1) <=? d then e + 1
  else if DayFromYear e <=? d then e
  else e - 1.

Definition InLeapYear (t : Z) : Z :=
  if DaysInYear (YearFromTime t) =? 366 then 1 else 0.

Definition DayWithinYear (t : Z) : Z := Day t - DayFromYear (YearFromTime t).

(** The month table, on the day within the year [w]. *)
Definition monthOfYearDay (w leap : Z) : Z :=
  if w <? 31 then 0
  else if w <? 59 + leap then 1
  else if w <? 90 + leap then 2
  else if w <? 120 + leap then 3
  else if w <? 151 + leap then 4
  else if w <? 181 + leap then 5
  else if w <? 212 + leap then 6
  else if w <? 243 + leap then 7
  else if w <? 273 + leap then 8
  else if w <? 304 + leap then 9
  else if w <? 334 + leap then 10
  else 11.

Definition MonthFromTime (t : Z) : Z :=
  monthOfYearDay (DayWithinYear t) (InLeapYear t).

(** The day-of-month table, on the day within the year [w]. *)
Definition dateOfYearDay (w leap : Z) : Z :=
  match monthOfYearDay w leap with
  | 0 => w + 1
  | 1 => w - 30
  | 2 => w - 58 - leap
  | 3 => w - 89 - leap
  | 4 => w - 119 - leap
  | 5 => w - 150 - leap
  | 6 => w - 180 - leap
  | 7 => w - 211 - leap
  | 8 => w - 242 - leap
  | 9 => w - 272 - leap
  | 10 => w - 303 - leap
  | _ => w - 333 - leap
  end.

Definition DateFromTime (t : Z) : Z :=
  dateOfYearDay (DayWithinYear t) (InLeapYear t).

(** Day within the year of the first day of month [mn]. *)
Definition monthStart (mn leap : Z) : Z :=
  match mn with
  | 0 => 0
  | 1 => 31
  | 2 => 59 + leap
  | 3 => 90 + leap
  | 4 => 120 + leap
  | 5 => 151 + leap
  | 6 => 181 + leap
  | 7 => 212 + leap
  | 8 => 243 + leap
  | 9 => 273 + leap
  | 10 => 304 + leap
  | _ => 334 + leap
  end.

(** [MakeDay]: the day number of the first day of month [mn] of year [ym],
    plus [date - 1]. *)
Definition MakeDay (year month date : Z) : Z :=
  let ym := year + month / 12 in
  let mn := month mod 12 in
  let leap := if DaysInYear ym =? 366 then 1 else 0 in
  DayFromYear ym + monthStart mn leap + date - 1.

Definition MakeDate (day time : Z) : Z := day * msPerDay + time.

Definition TimeClip (t : Z) : number :=
  if maxTimeValue <? Z.abs t then NaN else Int t.

(** Local time: the fixed offset [LocalTZA h] from UTC. *)
Definition LocalTime (h : Host) (t : Z) : Z := t + LocalTZA h.

Definition UTC (h : Host) (t : Z) : Z := t - LocalTZA h.

(** A host whose zone offset is less than a day. *)
Definition hostOk (h : Host) : Prop := Z.abs (LocalTZA h) < msPerDay.

(** A Date object, as its time value. *)
Definition t : Type := number.

Definition valid (d : t) : Prop :=
  exists tv, d = Int tv /\ Z.abs tv <= maxTimeValue.

(** [new Date(year, month, date)]; a year from 0 to 99 means 1900 + year. *)
Definition make (h : Host) (year : number) (month date : Z) : t :=
  match year with
  | Int y =>
      let yr := if (0 <=? y) && (y <=? 99) then 1900 + y else y in
      TimeClip (UTC h (MakeDate (MakeDay yr month date) 0))
  | NaN => NaN
  end.

Definition getFullYear (h : Host) (d : t) : number :=
  lift1 (fun tv => YearFromTime (LocalTime h tv)) d.

Definition getMonth (h : Host) (d : t) : number :=
  lift1 (fun tv => MonthFromTime (LocalTime h tv)) d.

Definition getDate (h : Host) (d : t) : number :=
  lift1 (fun tv => DateFromTime (LocalTime h tv)) d.

(** [d.setDate(dt)]: the new time value of [d]. *)
Definition setDate (h : Host) (d : t) (dt : number) : t :=
  match d, dt with
  | Int tv, Int dt =>
      let lt := LocalTime h tv in
      let newDate :=
        MakeDate (MakeDay (YearFromTime lt) (MonthFromTime lt) dt)
                 (TimeWithinDay lt) in
      TimeClip (UTC h newDate)
  | _, _ => NaN
  end.

(** [new Date()]: the current time of the host. *)
Definition current (h : Host) : t := TimeClip (now h).

(** [d1 - d2] on two Date objects: the difference of the time values. *)
Definition diff (d1 d2 : t) : number := lift2 Z.sub d1 d2.

End Date.

(** [Math.floor] on a real number. *)
Definition Math_floor (x : R) : Z := Int_part x.

(** ** Numbers that are not integers

    A number is an IEEE 754 double: 53 significant bits, the nearest value
    taken, the even one in a tie.  [round53 n] is that rounding on an
    integer [n]: the double nearest to [n / 2 ^ k] is [round53 n / 2 ^ k]
    (away from overflow and underflow). *)
Definition round53 (n : Z) : Z :=
  let a := Z.abs n in
  let s := Z.log2 a - 52 in
  if s <=? 0 then n
  else
    let q := Z.shiftr a s in
    let r := a mod 2 ^ s in
    let half := 2 ^ (s - 1) in
    let q := if (half <? r) || ((r =? half) && Z.odd q) then q + 1 else q in
    Z.sgn n * (q * 2 ^ s).

(** ** Daylight saving

    The offset of a host that keeps daylight saving time changes through
    the year (ECMA-262, LocalTZA): [TZA z t true] is the offset in force
    at the time value [t], which the local time of [t] adds, and
    [TZA z t false] the offset the host takes for the local time [t],
    which the constructor subtracts.  A [Host] is a zone of one offset. *)
Record Zone : Type := mkZone { TZA : Z -> bool -> Z }.

Definition fixedZone (h : Host) : Zone := mkZone (fun _ _ => LocalTZA h).

Coercion fixedZone : Host >-> Zone.

(** [d.getFullYear()] in a zone. *)
Definition getFullYearIn (z : Zone) (d : Date.t) : number :=
  lift1 (fun tv => Date.YearFromTime (tv + TZA z tv true)) d.

(** [new Date(year, month, date)] in a zone. *)
Definition makeIn (z : Zone) (year : number) (month date : Z) : Date.t :=
  match year with
  | Int y =>
      let yr := if (0 <=? y) && (y <=? 99) then 1900 + y else y in
      let lt := Date.MakeDate (Date.MakeDay yr month date) 0 in
      Date.TimeClip (lt - TZA z lt false)
  | NaN => NaN
  end.

(** ** The Date functions of [CalendarUtils]

    Each takes the host [h] it runs on; [gregorianToIslamic], which
    subtracts two dates months apart, takes the zone [z] of the host. *)

Definition hebrewMonths : list string :=
  ["Nisan"; "Iyar"; "Sivan"; "Tammuz"; "Av"; "Elul";
   "Tishrei"; "Heshvan"; "Kislev"; "Tevet"; "Shevat"; "Adar"].

Definition hebrewMonthIndex (h : Host) (date : Date.t) : number :=
  lift1 (fun m => Z.rem (m + 6) 12) (Date.getMonth h date).

Definition gregorianToHebrew (h : Host) (date : Date.t) : string :=
  let year := Date.getFullYear h date in
  let hebrewYear :=
    lift1 (fun y => y + 3760 + (if geb (Date.getMonth h date) 9 then 1 else 0))
          year in
  let monthIndex := hebrewMonthIndex h date in
  let month := array_get_num hebrewMonths monthIndex in
  let day := Date.getDate h date in
  ToString day ++ " " ++ show month ++ " " ++ ToString hebrewYear.

Definition islamicMonths : list string :=
  ["Muharram"; "Safar"; "Rabi' al-Awwal"; "Rabi' al-Thani";
   "Jumada al-Awwal"; "Jumada al-Thani"; "Rajab"; "Sha'ban";
   "Ramadan"; "Shawwal"; "Dhu al-Qi'dah"; "Dhu al-Hijjah"].

(** [Math.floor((date - new Date(year, 0, 0)) / (1000 * 60 * 60 * 24))]:
    the two time values are months apart, and the difference feels a
    change of the offset between them. *)
Definition islamicDayOfYear (z : Zone) (date : Date.t) : number :=
  let year := getFullYearIn z date in
  lift1 (fun ms => ms / (1000 * 60 * 60 * 24))
        (Date.diff date (makeIn z year 0 0)).

(** [Math.floor((dayOfYear % 354) / 29.5) % 12]; on an integer [x],
    [Math.floor(x / 29.5)] is [(2 * x) / 59]. *)
Definition islamicMonthIndex (z : Zone) (date : Date.t) : number :=
  lift1 (fun dayOfYear => Z.rem ((2 * Z.rem dayOfYear 354) / 59) 12)
        (islamicDayOfYear z date).

(** [Math.floor((year - 622) * 1.030684) + 1].  The double written
    1.030684 is 1160447019584183 / 2 ^ 50, and the product is rounded to a
    double before [Math.floor] sees it. *)
Definition islamicYear (year : Z) : Z :=
  round53 ((year - 622) * 1160447019584183) / 2 ^ 50 + 1.

(** [Math.floor(x % 29.5)] on an integer [x] is [Z.rem (2 * x) 59 / 2]. *)
Definition gregorianToIslamic (z : Zone) (date : Date.t) : string :=
  let year := getFullYearIn z date in
  let islamicYear := lift1 islamicYear year in
  let dayOfYear := islamicDayOfYear z date in
  let monthIndex := islamicMonthIndex z date in
  let month := array_get_num islamicMonths monthIndex in
  let day :=
    lift1 (fun doy => Z.rem (2 * Z.rem doy 354) 59 / 2 + 1) dayOfYear in
  ToString day ++ " " ++ show month ++ " " ++ ToString islamicYear ++ " AH".

Definition calculateRamadanStart (h : Host) (gregorianYear : Z) : string :=
  let baseYear := 2024 in
  let baseDate := Date.make h (Int 2024) 2 10 in
  let yearsDiff := gregorianYear - baseYear in
  let daysBack := yearsDiff * 11 in
  let ramadanStart := baseDate in
  let ramadanStart :=
    Date.setDate h ramadanStart
      (lift2 Z.sub (Date.getDate h ramadanStart) (Int daysBack)) in
  show (array_get_num monthNames (Date.getMonth h ramadanStart)) ++ " "
    ++ ToString (Date.getDate h ramadanStart) ++ ", "
    ++ string_of_Z gregorianYear.

(** [getSeason] on the Date that [new Date(dateString)] builds. *)
Definition getSeason (h : Host) (date : Date.t) : string :=
  let month := Date.getMonth h date in
  if geb month 2 && leb month 4 then "Spring"
  else if geb month 5 && leb month 7 then "Summer"
  else if geb month 8 && leb month 10 then "Fall"
  else "Winter".

Definition hinduMonths : list string :=
  ["Chaitra"; "Vaishakha"; "Jyeshtha"; "Ashadha";
   "Shravana"; "Bhadrapada"; "Ashwin"; "Kartik";
   "Margashirsha"; "Pausha"; "Magha"; "Phalguna"].

Definition hinduMonthIndex (h : Host) (date : Date.t) : number :=
  lift1 (fun m => Z.rem (m + 10) 12) (Date.getMonth h date).

Definition gregorianToHindu (h : Host) (date : Date.t) : string :=
  let year := Date.getFullYear h date in
  let vikramYear := lift1 (fun y => y + 57) year in
  let monthIndex := hinduMonthIndex h date in
  let month := array_get_num hinduMonths monthIndex in
  let day := Date.getDate h date in
  ToString day ++ " " ++ show month ++ " " ++ ToString vikramYear
    ++ " (Vikram Samvat)".

Definition calculateDiwali (h : Host) (year : Z) : string :=
  let base := Date.make h (Int year) 9 15 in
  let offset := Math_floor (sin (IZR year) * 15) in
  let base :=
    Date.setDate h base (lift2 Z.add (Date.getDate h base) (Int offset)) in
  show (array_get_num monthNames (Date.getMonth h base)) ++ " "
    ++ ToString (Date.getDate h base) ++ ", " ++ string_of_Z year.

Definition calculateHoli (h : Host) (year : Z) : string :=
  let base := Date.make h (Int year) 2 8 in
  let offset := Math_floor (cos (IZR year) * 12) in
  let base :=
    Date.setDate h base (lift2 Z.add (Date.getDate h base) (Int offset)) in
  show (array_get_num monthNames (Date.getMonth h base)) ++ " "
    ++ ToString (Date.getDate h base) ++ ", " ++ string_of_Z year.

Definition calculateNavratri (h : Host) (year : Z) : string :=
  let base := Date.make h (Int year) 8 20 in
  let offset := Math_floor (sin (IZR (year + 1)) * 10) in
  let base :=
    Date.setDate h base (lift2 Z.add (Date.getDate h base) (Int offset)) in
  show (array_get_num monthNames (Date.getMonth h base)) ++ " "
    ++ ToString (Date.getDate h base) ++ ", " ++ string_of_Z year.

(** ** Vocabulary of the statements *)

(** Local midnight of the calendar day that lies [days] days after day
    [date] of month [month] (0-indexed) of [year], as a local time value. *)
Definition shiftedDay (year month date days : Z) : Z :=
  Date.MakeDate (Date.MakeDay year month date + days) 0.

(** The string "<MonthName> <Day>, <Year>" for the calendar day of the local
    time value [lt] and the year number [year]. *)
Definition monthDayYear (lt : Z) (year : Z) : string :=
  show (array_get monthNames (Date.MonthFromTime lt)) ++ " "
    ++ string_of_Z (Date.DateFromTime lt) ++ ", " ++ string_of_Z year.

(** The date object the three festival estimators build: [new Date(year,
    month, date)] moved by [setDate(getDate() + offset)]. *)
Definition festivalDate (h : Host) (year month date offset : Z) : Date.t :=
  let base := Date.make h (Int year) month date in
  Date.setDate h base (lift2 Z.add (Date.getDate h base) (Int offset)).

(** The string the estimators print from a date object. *)
Definition printMonthDay (h : Host) (base : Date.t) (year : Z) : string :=
  show (array_get_num monthNames (Date.getMonth h base)) ++ " "
    ++ ToString (Date.getDate h base) ++ ", " ++ string_of_Z year.

(** The year the Date constructor reads a year argument as. *)
Definition constructorYear (y : Z) : Z :=
  if (0 <=? y) && (y <=? 99) then 1900 + y else y.

(** 1 for a leap year, 0 otherwise: the leap day that [MakeDay] and
    [InLeapYear] add to the months after February. *)
Definition leapOf (y : Z) : Z :=
  if Date.DaysInYear y =? 366 then 1 else 0.

(** Following the spec's words: Ramadan start as the anchor March 10, 2024
    shifted backward by [11 * (gregorianYear - 2024)] days. *)
Definition specRamadanStart (gregorianYear : Z) : string :=
  monthDayYear (shiftedDay 2024 2 10 (- (11 * (gregorianYear - 2024))))
               gregorianYear.

(** Following the spec's words: a festival as its base day shifted by
    [offset] days. *)
Definition specFestival (year month date offset : Z) : string :=
  monthDayYear (shiftedDay year month date offset) year.

(** The total of [f] over the [n] consecutive years from [start] on. *)
Fixpoint sumFrom (f : Z -> Z) (start : Z) (n : nat) : Z :=
  match n with
  | O => 0
  | S k => f start + sumFrom f (start + 1) k
  end.

(** The offsets of New York in 2024: five hours behind UTC, and four from
    10 March, 2:00 local time, to 3 November, 2:00 local time. *)
Definition newYork2024 : Zone :=
  mkZone (fun t isUTC =>
            if isUTC
            then if (1710054000000 <=? t) && (t <? 1730613600000)
                 then -14400000 else -18000000
            else if (1710039600000 <=? t) && (t <? 1730599200000)
                 then -14400000 else -18000000).

(** ** The page the controllers act on

    [localStorage] and the root element [document.documentElement], with the
    two media queries the controllers read.  Strings are sequences of
    characters below 256.  [getItem] never throws.  A [setItem] that
    throws is modelled where the code catches it, in the [save] of
    ProgressTracker; the other methods let the exception through, and
    their model is the call that returns. *)

Module Page.

(** [localStorage]: the string stored under a key, [None] for [null]. *)
Definition Storage : Type := string -> option string.

Definition getItem (s : Storage) (key : string) : option string := s key.

Definition setItem (s : Storage) (key value : string) : Storage :=
  fun k => if String.eqb k key then Some value else s k.

(** Whether [setItem(key, value)] stores the value on the storage as it
    is; where it does not, the call throws (the quota is exceeded, or the
    storage is blocked). *)
Definition Policy : Type := Storage -> string -> string -> bool.

(** [setItem] on a storage that may refuse: [None] is the exception. *)
Definition trySetItem (accepts : Policy) (s : Storage) (key value : string)
  : option Storage :=
  if accepts s key value then Some (setItem s key value) else None.

(** [classList]: an ordered set of tokens. *)
Definition contains (l : list string) (c : string) : bool :=
  existsb (String.eqb c) l.

Definition add (l : list string) (c : string) : list string :=
  if contains l c then l else (l ++ [c])%list.

Definition remove (l : list string) (c : string) : list string :=
  filter (fun x => negb (String.eqb x c)) l.

Record t : Type := mk {
  localStorage : Storage;
  (** [document.documentElement.classList] *)
  classList : list string;
  (** [document.documentElement.style.fontSize] *)
  fontSize : string;
  (** [matchMedia('(prefers-color-scheme: dark)').matches] *)
  prefersDark : bool;
  (** [matchMedia('(prefers-reduced-motion: reduce)').matches] *)
  prefersReducedMotion : bool
}.

Definition withStorage (p : t) (s : Storage) : t :=
  mk s (classList p) (fontSize p) (prefersDark p) (prefersReducedMotion p).

Definition withClasses (p : t) (l : list string) : t :=
  mk (localStorage p) l (fontSize p) (prefersDark p) (prefersReducedMotion p).

(** Assigning [style.fontSize]: a negative percentage is no valid font
    size, and the assignment is then ignored. *)
Definition setFontSizePercent (p : t) (size : Z) : t :=
  if size <? 0 then p
  else mk (localStorage p) (classList p) (string_of_Z size ++ "%")
          (prefersDark p) (prefersReducedMotion p).

(** A string or [null] as a condition: [null] and the empty string are
    falsy. *)
Definition truthy (v : option string) : bool :=
  match v with
  | Some s => negb (String.eqb s "")
  | None => false
  end.

End Page.

(** ** [parseInt] with no radix argument

    White space is skipped, then a sign, then the prefix 0x or 0X; the
    digits of the radix that follow are read up to the first other
    character, and no digit at all gives [NaN].  The value read is the
    number [parseInt] returns while it is a safe integer. *)

Definition isWhiteSpace (c : ascii) : bool :=
  let n := nat_of_ascii c in
  ((9 <=? n) && (n <=? 13))%nat || (n =? 32)%nat || (n =? 160)%nat.

Fixpoint trimStart (s : string) : string :=
  match s with
  | String c rest => if isWhiteSpace c then trimStart rest else s
  | EmptyString => s
  end.

Definition digitValue (c : ascii) : option Z :=
  let n := Z.of_nat (nat_of_ascii c) in
  if (48 <=? n) && (n <=? 57) then Some (n - 48)
  else if (97 <=? n) && (n <=? 122) then Some (n - 87)
  else if (65 <=? n) && (n <=? 90) then Some (n - 55)
  else None.

(** The value of the longest prefix of digits below [radix], from the
    digits [acc] read so far; [None] when there is none. *)
Fixpoint parseDigits (radix : Z) (acc : option Z) (s : string) : option Z :=
  match s with
  | String c rest =>
      match digitValue c with
      | Some v =>
          if v <? radix
          then parseDigits radix
                 (Some (match acc with Some a => a * radix + v | None => v end))
                 rest
          else acc
      | None => acc
      end
  | EmptyString => acc
  end.

Definition parseInt (input : string) : number :=
  let s := trimStart input in
  let '(sign, s) :=
    match s with
    | String "-" rest => (-1, rest)
    | String "+" rest => (1, rest)
    | _ => (1, s)
    end in
  let '(radix, s) :=
    match s with
    | String "0" (String "x" rest) => (16, rest)
    | String "0" (String "X" rest) => (16, rest)
    | _ => (10, s)
    end in
  match parseDigits radix None s with
  | Some v => Int (sign * v)
  | None => NaN
  end.

(** [ToString] of what [getItem] returns. *)
Definition stringOfItem (v : option string) : string :=
  match v with
  | Some s => s
  | None => "null"
  end.

(** ** ThemeManager *)

Record ThemeManager : Type := mkThemeManager { theme : string }.

Definition ThemeManager_apply (tm : ThemeManager) (p : Page.t) : Page.t :=
  if String.eqb (theme tm) "dark"
  then Page.withClasses p (Page.add (Page.classList p) "dark")
  else Page.withClasses p (Page.remove (Page.classList p) "dark").

(** The constructor; the listener it registers is [ThemeManager_onChange]. *)
Definition ThemeManager_new (p : Page.t) : ThemeManager * Page.t :=
  let stored := Page.getItem (Page.localStorage p) "calendar-theme" in
  let tm :=
    mkThemeManager
      (if Page.truthy stored then stringOfItem stored
       else if Page.prefersDark p then "dark" else "light") in
  (tm, ThemeManager_apply tm p).

(** The listener for a change of the system theme to [matches]. *)
Definition ThemeManager_onChange (matches : bool)
    (tm : ThemeManager) (p : Page.t) : ThemeManager * Page.t :=
  let p := Page.mk (Page.localStorage p) (Page.classList p) (Page.fontSize p)
                   matches (Page.prefersReducedMotion p) in
  if negb (Page.truthy (Page.getItem (Page.localStorage p) "calendar-theme"))
  then
    let tm := mkThemeManager (if matches then "dark" else "light") in
    (tm, ThemeManager_apply tm p)
  else (tm, p).

(** [toggle()]: the value returned, the manager and the page. *)
Definition ThemeManager_toggle (tm : ThemeManager) (p : Page.t)
  : string * ThemeManager * Page.t :=
  let tm :=
    mkThemeManager (if String.eqb (theme tm) "light" then "dark" else "light") in
  let p := ThemeManager_apply tm p in
  let p :=
    Page.withStorage p
      (Page.setItem (Page.localStorage p) "calendar-theme" (theme tm)) in
  (theme tm, tm, p).

Definition isDark (tm : ThemeManager) : bool := String.eqb (theme tm) "dark".

(** ** SoundManager: the constructor and [toggle] *)

Record SoundManager : Type := mkSoundManager {
  soundEnabled : bool;
  soundNames : list string;
  initialized : bool
}.

Definition SoundManager_new (p : Page.t) : SoundManager :=
  mkSoundManager
    (match Page.getItem (Page.localStorage p) "calendar-sound-enabled" with
     | Some s => negb (String.eqb s "false")
     | None => true
     end)
    [] false.

Definition string_of_bool (b : bool) : string :=
  if b then "true" else "false".

Definition SoundManager_toggle (sm : SoundManager) (p : Page.t)
  : bool * SoundManager * Page.t :=
  let sm :=
    mkSoundManager (negb (soundEnabled sm)) (soundNames sm) (initialized sm) in
  let p :=
    Page.withStorage p
      (Page.setItem (Page.localStorage p) "calendar-sound-enabled"
         (string_of_bool (soundEnabled sm))) in
  (soundEnabled sm, sm, p).

(** ** AnimationController *)

Record AnimationController : Type := mkAnimationController { enabled : bool }.

Definition AnimationController_loadPreference
    (ac : AnimationController) (p : Page.t) : AnimationController :=
  match Page.getItem (Page.localStorage p) "calendar-animations-enabled" with
  | Some saved => mkAnimationController (String.eqb saved "true")
  | None => ac
  end.

Definition AnimationController_apply
    (ac : AnimationController) (p : Page.t) : Page.t :=
  if negb (enabled ac)
  then Page.withClasses p (Page.add (Page.classList p) "reduce-motion")
  else Page.withClasses p (Page.remove (Page.classList p) "reduce-motion").

Definition AnimationController_new (p : Page.t) : AnimationController * Page.t :=
  let ac := mkAnimationController (negb (Page.prefersReducedMotion p)) in
  let ac := AnimationController_loadPreference ac p in
  (ac, AnimationController_apply ac p).

Definition AnimationController_toggle (ac : AnimationController) (p : Page.t)
  : bool * AnimationController * Page.t :=
  let ac := mkAnimationController (negb (enabled ac)) in
  let p := AnimationController_apply ac p in
  let p :=
    Page.withStorage p
      (Page.setItem (Page.localStorage p) "calendar-animations-enabled"
         (string_of_bool (enabled ac))) in
  (enabled ac, ac, p).

(** ** FontSizeController

    Sizes and amounts are integers: the model is of the calls with an
    integer amount, or none.  A call with another amount would leave a
    size with a fraction, which is outside it. *)

Record FontSizeController : Type := mkFontSizeController { size : Z }.

Definition FontSizeController_apply
    (fc : FontSizeController) (p : Page.t) : Page.t :=
  Page.setFontSizePercent p (size fc).

Definition FontSizeController_save
    (fc : FontSizeController) (p : Page.t) : Page.t :=
  Page.withStorage p
    (Page.setItem (Page.localStorage p) "calendar-font-size"
       (string_of_Z (size fc))).

(** [parseInt(...) || 100]: [NaN] and 0 give 100. *)
Definition FontSizeController_new (p : Page.t) : FontSizeController * Page.t :=
  let fc :=
    mkFontSizeController
      (match parseInt (stringOfItem
                         (Page.getItem (Page.localStorage p)
                            "calendar-font-size")) with
       | Int z => if z =? 0 then 100 else z
       | NaN => 100
       end) in
  (fc, FontSizeController_apply fc p).

(** The parameter [amount = 10]: [None] is a call without argument. *)
Definition amountOrDefault (amount : option Z) : Z :=
  match amount with
  | Some a => a
  | None => 10
  end.

Definition FontSizeController_increase (amount : option Z)
    (fc : FontSizeController) (p : Page.t) : Z * FontSizeController * Page.t :=
  let fc := mkFontSizeController (Z.min 150 (size fc + amountOrDefault amount)) in
  let p := FontSizeController_apply fc p in
  let p := FontSizeController_save fc p in
  (size fc, fc, p).

Definition FontSizeController_decrease (amount : option Z)
    (fc : FontSizeController) (p : Page.t) : Z * FontSizeController * Page.t :=
  let fc := mkFontSizeController (Z.max 75 (size fc - amountOrDefault amount)) in
  let p := FontSizeController_apply fc p in
  let p := FontSizeController_save fc p in
  (size fc, fc, p).

Definition FontSizeController_reset
    (fc : FontSizeController) (p : Page.t) : Z * FontSizeController * Page.t :=
  let fc := mkFontSizeController 100 in
  let p := FontSizeController_apply fc p in
  let p := FontSizeController_save fc p in
  (size fc, fc, p).

(** A call of one of the three methods that change the font size. *)
Inductive FontSizeCall : Type :=
| Increase (amount : option Z)
| Decrease (amount : option Z)
| Reset.

Definition FontSizeController_call (c : FontSizeCall)
    (fc : FontSizeController) (p : Page.t) : Z * FontSizeController * Page.t :=
  match c with
  | Increase amount => FontSizeController_increase amount fc p
  | Decrease amount => FontSizeController_decrease amount fc p
  | Reset => FontSizeController_reset fc p
  end.

(** The controller and the page after a list of calls, made in order. *)
Fixpoint FontSizeController_calls (cs : list FontSizeCall)
    (fc : FontSizeController) (p : Page.t) : FontSizeController * Page.t :=
  match cs with
  | [] => (fc, p)
  | c :: rest =>
      let '(_, fc, p) := FontSizeController_call c fc p in
      FontSizeController_calls rest fc p
  end.

(** The amount a call passes, 0 for [reset]. *)
Definition callAmount (c : FontSizeCall) : Z :=
  match c with
  | Increase amount => amountOrDefault amount
  | Decrease amount => amountOrDefault amount
  | Reset => 0
  end.
(** ** [Date.prototype.toISOString]

    "YYYY-MM-DDTHH:mm:ss.sssZ" in UTC, the year with four digits from 0 to
    9999 and otherwise with a sign and six digits; [None] is the RangeError
    on an invalid Date. *)

Fixpoint zeros (n : nat) : string :=
  match n with
  | O => ""
  | S k => String "0" (zeros k)
  end.

(** A number that is not negative, padded with zeros to [width] digits. *)
Definition padStart (width : nat) (n : Z) : string :=
  let s := string_of_Z n in
  zeros (width - String.length s) ++ s.

Definition isoYear (y : Z) : string :=
  if (0 <=? y) && (y <=? 9999) then padStart 4 y
  else if y <? 0 then "-" ++ padStart 6 (- y)
  else "+" ++ padStart 6 y.

Definition toISOString (d : Date.t) : option string :=
  match d with
  | Int tv =>
      Some (isoYear (Date.YearFromTime tv) ++ "-"
            ++ padStart 2 (Date.MonthFromTime tv + 1) ++ "-"
            ++ padStart 2 (Date.DateFromTime tv) ++ "T"
            ++ padStart 2 ((tv / 3600000) mod 24) ++ ":"
            ++ padStart 2 ((tv / 60000) mod 60) ++ ":"
            ++ padStart 2 ((tv / 1000) mod 60) ++ "."
            ++ padStart 3 (tv mod 1000) ++ "Z")
  | NaN => None
  end.

(** ** ProgressTracker

    The methods on a tracker whose [data] has the shape [getDefaultData]
    gives it; screen and quiz identifiers are strings and the scores
    passed are integers.  [quizScores] holds the own properties of the
    object; a property it does not have is looked up in [Object.prototype].
    [JSON.stringify] is a parameter [stringify] of the methods that save,
    as is [accepts], which says when localStorage takes a write; [load],
    which needs [JSON.parse], is left out. *)

Record ProgressData : Type := mkProgressData {
  screensVisited : list string;
  quizScores : string -> option number;
  lastVisit : option string;
  completedAt : option string;
  totalVisits : Z
}.

Record ProgressTracker : Type := mkProgressTracker {
  pageId : string;
  totalScreens : Z;
  key : string;
  data : ProgressData
}.

Definition getDefaultData : ProgressData :=
  mkProgressData [] (fun _ => None) None None 0.

Definition withData (t : ProgressTracker) (d : ProgressData) : ProgressTracker :=
  mkProgressTracker (pageId t) (totalScreens t) (key t) d.

(** [save()]: [lastVisit] is set first, then the data is written; a
    failure of [toISOString] or of [setItem] is caught, and nothing is
    written. *)
Definition ProgressTracker_save (stringify : ProgressData -> string)
    (accepts : Page.Policy)
    (h : Host) (t : ProgressTracker) (p : Page.t) : ProgressTracker * Page.t :=
  match toISOString (Date.current h) with
  | Some iso =>
      let d := data t in
      let d := mkProgressData (screensVisited d) (quizScores d) (Some iso)
                 (completedAt d) (totalVisits d) in
      match Page.trySetItem accepts (Page.localStorage p) (key t)
              (stringify d) with
      | Some s => (withData t d, Page.withStorage p s)
      | None => (withData t d, p)
      end
  | None => (t, p)
  end.

Definition ProgressTracker_visitScreen (stringify : ProgressData -> string)
    (accepts : Page.Policy)
    (h : Host) (screenId : string) (t : ProgressTracker) (p : Page.t)
  : ProgressTracker * Page.t :=
  let d := data t in
  if negb (existsb (String.eqb screenId) (screensVisited d))
  then
    let d := mkProgressData (screensVisited d ++ [screenId])%list
               (quizScores d) (lastVisit d) (completedAt d) (totalVisits d) in
    ProgressTracker_save stringify accepts h (withData t d) p
  else (t, p).

(** The properties every object inherits from [Object.prototype]. *)
Definition objectPrototypeNames : list string :=
  ["constructor"; "hasOwnProperty"; "isPrototypeOf"; "propertyIsEnumerable";
   "toLocaleString"; "toString"; "valueOf"; "__proto__";
   "__defineGetter__"; "__defineSetter__";
   "__lookupGetter__"; "__lookupSetter__"].

Definition inherited (name : string) : bool :=
  existsb (String.eqb name) objectPrototypeNames.

(** [this.data.quizScores[quizId] || 0], as the number [Math.max] makes of
    it: an own score, 0 for an own [NaN] or 0 and for no property, and
    [NaN] for a member of [Object.prototype], which is an object. *)
Definition scoreOrZero (d : ProgressData) (quizId : string) : number :=
  match quizScores d quizId with
  | Some (Int v) => Int v
  | Some NaN => Int 0
  | None => if inherited quizId then NaN else Int 0
  end.

(** [recordQuizScore]; assigning to the property [__proto__] calls the
    setter of [Object.prototype], which ignores a number, so that no own
    property arises. *)
Definition ProgressTracker_recordQuizScore (stringify : ProgressData -> string)
    (accepts : Page.Policy)
    (h : Host) (quizId : string) (score : Z)
    (t : ProgressTracker) (p : Page.t) : ProgressTracker * Page.t :=
  let d := data t in
  let best := lift1 (fun old => Z.max old score) (scoreOrZero d quizId) in
  let d :=
    mkProgressData (screensVisited d)
      (fun q =>
         if String.eqb q quizId && negb (String.eqb quizId "__proto__")
         then Some best else quizScores d q)
      (lastVisit d) (completedAt d) (totalVisits d) in
  ProgressTracker_save stringify accepts h (withData t d) p.

(** [markComplete()]; [None] is the RangeError of [toISOString], which
    this method does not catch. *)
Definition ProgressTracker_markComplete (stringify : ProgressData -> string)
    (accepts : Page.Policy)
    (h : Host) (t : ProgressTracker) (p : Page.t)
  : option (ProgressTracker * Page.t) :=
  let d := data t in
  if negb (Page.truthy (completedAt d))
  then
    match toISOString (Date.current h) with
    | Some iso =>
        let d := mkProgressData (screensVisited d) (quizScores d)
                   (lastVisit d) (Some iso) (totalVisits d) in
        Some (ProgressTracker_save stringify accepts h (withData t d) p)
    | None => None
    end
  else Some (t, p).

Definition ProgressTracker_incrementVisits (stringify : ProgressData -> string)
    (accepts : Page.Policy)
    (h : Host) (t : ProgressTracker) (p : Page.t) : ProgressTracker * Page.t :=
  let d := data t in
  let d := mkProgressData (screensVisited d) (quizScores d) (lastVisit d)
             (completedAt d) (totalVisits d + 1) in
  ProgressTracker_save stringify accepts h (withData t d) p.

Definition ProgressTracker_reset (stringify : ProgressData -> string)
    (accepts : Page.Policy)
    (h : Host) (t : ProgressTracker) (p : Page.t) : ProgressTracker * Page.t :=
  ProgressTracker_save stringify accepts h (withData t getDefaultData) p.

(** What [getProgress()] returns; the percentage is a real number. *)
Record Progress : Type := mkProgress {
  percentage : R;
  progressScreensVisited : Z;
  progressTotalScreens : Z;
  isComplete : bool;
  progressLastVisit : option string;
  progressTotalVisits : Z
}.

Definition ProgressTracker_getProgress (t : ProgressTracker) : Progress :=
  let visited := Z.of_nat (List.length (screensVisited (data t))) in
  let screensProgress :=
    if 0 <? totalScreens t
    then (IZR visited / IZR (totalScreens t) * 100)%R
    else 0%R in
  mkProgress (Rmin 100 screensProgress) visited (totalScreens t)
    (Page.truthy (completedAt (data t))) (lastVisit (data t))
    (totalVisits (data t)).

(** A call of a method of the tracker, with the host at the time of the
    call. *)
Inductive ProgressCall : Type :=
| VisitScreen (screenId : string)
| RecordQuizScore (quizId : string) (score : Z)
| MarkComplete
| IncrementVisits
| ResetProgress.

Definition ProgressTracker_call (stringify : ProgressData -> string)
    (accepts : Page.Policy)
    (h : Host) (c : ProgressCall) (t : ProgressTracker) (p : Page.t)
  : option (ProgressTracker * Page.t) :=
  match c with
  | VisitScreen screenId =>
      Some (ProgressTracker_visitScreen stringify accepts h screenId t p)
  | RecordQuizScore quizId score =>
      Some (ProgressTracker_recordQuizScore stringify accepts h quizId score t p)
  | MarkComplete => ProgressTracker_markComplete stringify accepts h t p
  | IncrementVisits => Some (ProgressTracker_incrementVisits stringify accepts h t p)
  | ResetProgress => Some (ProgressTracker_reset stringify accepts h t p)
  end.

(** A list of calls made in order; an exception ends it. *)
Fixpoint ProgressTracker_calls (stringify : ProgressData -> string)
    (accepts : Page.Policy)
    (cs : list (Host * ProgressCall)) (t : ProgressTracker) (p : Page.t)
  : option (ProgressTracker * Page.t) :=
  match cs with
  | [] => Some (t, p)
  | (h, c) :: rest =>
      match ProgressTracker_call stringify accepts h c t p with
      | Some (t, p) => ProgressTracker_calls stringify accepts rest t p
      | None => None
      end
  end.

(** The scores of a quiz recorded one after the other. *)
Fixpoint ProgressTracker_recordScores (stringify : ProgressData -> string)
    (accepts : Page.Policy)
    (quizId : string) (scores : list (Host * Z))
    (t : ProgressTracker) (p : Page.t) : ProgressTracker * Page.t :=
  match scores with
  | [] => (t, p)
  | (h, score) :: rest =>
      let '(t, p) :=
        ProgressTracker_recordQuizScore stringify accepts h quizId score t p in
      ProgressTracker_recordScores stringify accepts quizId rest t p
  end.

(** What the tracker keeps true of its data. *)
Definition dataOk (d : ProgressData) : Prop :=
  NoDup (screensVisited d) /\
  (forall q v, quizScores d q = Some (Int v) -> 0 <= v) /\
  0 <= totalVisits d.

(** A host whose clock is inside the time range of Date. *)
Definition clockOk (h : Host) : Prop := Z.abs (now h) <= Date.maxTimeValue.
(** The value of a decimal numeral read from the left, from [acc]. *)
Fixpoint hornerUint (acc : Z) (d : Decimal.uint) : Z :=
  match d with
  | Decimal.Nil => acc
  | Decimal.D0 l => hornerUint (acc * 10 + 0) l
  | Decimal.D1 l => hornerUint (acc * 10 + 1) l
  | Decimal.D2 l => hornerUint (acc * 10 + 2) l
  | Decimal.D3 l => hornerUint (acc * 10 + 3) l
  | Decimal.D4 l => hornerUint (acc * 10 + 4) l
  | Decimal.D5 l => hornerUint (acc * 10 + 5) l
  | Decimal.D6 l => hornerUint (acc * 10 + 6) l
  | Decimal.D7 l => hornerUint (acc * 10 + 7) l
  | Decimal.D8 l => hornerUint (acc * 10 + 8) l
  | Decimal.D9 l => hornerUint (acc * 10 + 9) l
  end.

(** ** The calendar arithmetic of Date *)

Section DateArithmetic.

Import Date.

Lemma Day_MakeDate (d : Z) : Day (MakeDate d 0) = d.
Proof.
  unfold Day, MakeDate, msPerDay. rewrite Z.add_0_r.
  apply Z.div_mul. discriminate.
Qed.

Lemma TimeWithinDay_MakeDate (d : Z) : TimeWithinDay (MakeDate d 0) = 0.
Proof.
  unfold TimeWithinDay, MakeDate, msPerDay. rewrite Z.add_0_r.
  apply Z.mod_mul. discriminate.
Qed.

Lemma Day_TimeWithinDay (t : Z) : t = MakeDate (Day t) (TimeWithinDay t).
Proof.
  unfold MakeDate, Day, TimeWithinDay, msPerDay.
  pose proof (Z.div_mod t 86400000). lia.
Qed.

Lemma step4 (y : Z) :
  (y + 1 - 1969) / 4 = (y - 1969) / 4 + (if y mod 4 =? 0 then 1 else 0).
Proof.
  destruct (Z.eqb_spec (y mod 4) 0);
    Z.to_euclidean_division_equations; lia.
Qed.

Lemma step100 (y : Z) :
  (y + 1 - 1901) / 100 = (y - 1901) / 100 + (if y mod 100 =? 0 then 1 else 0).
Proof.
  destruct (Z.eqb_spec (y mod 100) 0);
    Z.to_euclidean_division_equations; lia.
Qed.

Lemma step400 (y : Z) :
  (y + 1 - 1601) / 400 = (y - 1601) / 400 + (if y mod 400 =? 0 then 1 else 0).
Proof.
  destruct (Z.eqb_spec (y mod 400) 0);
    Z.to_euclidean_division_equations; lia.
Qed.

Lemma mod_100_4 (y : Z) : y mod 100 = 0 -> y mod 4 = 0.
Proof. intros; Z.to_euclidean_division_equations; lia. Qed.

Lemma mod_400_100 (y : Z) : y mod 400 = 0 -> y mod 100 = 0.
Proof. intros; Z.to_euclidean_division_equations; lia. Qed.

(** A year is as long as [DaysInYear] says. *)
Lemma DayFromYear_succ (y : Z) :
  DayFromYear (y + 1) = DayFromYear y + DaysInYear y.
Proof.
  unfold DayFromYear, DaysInYear.
  rewrite step4, step100, step400.
  pose proof (mod_100_4 y); pose proof (mod_400_100 y).
  destruct (Z.eqb_spec (y mod 4) 0); destruct (Z.eqb_spec (y mod 100) 0);
    destruct (Z.eqb_spec (y mod 400) 0); cbv [negb]; lia.
Qed.

Lemma DaysInYear_cases (y : Z) : DaysInYear y = 365 \/ DaysInYear y = 366.
Proof.
  unfold DaysInYear.
  destruct (y mod 4 =? 0), (y mod 100 =? 0), (y mod 400 =? 0); cbv [negb]; auto.
Qed.

Lemma DayFromYear_mono (a b : Z) : a <= b -> DayFromYear a <= DayFromYear b.
Proof.
  unfold DayFromYear. intros. Z.to_euclidean_division_equations. lia.
Qed.

Lemma DayFromYear_lt (a b : Z) : a < b -> DayFromYear (a + 1) <= DayFromYear b.
Proof. intros. apply DayFromYear_mono. lia. Qed.

Lemma year_estimate (d : Z) :
  DayFromYear (1970 + 400 * d / 146097 - 1) <= d
  < DayFromYear (1970 + 400 * d / 146097 + 2).
Proof.
  unfold DayFromYear. Z.to_euclidean_division_equations. lia.
Qed.

(** [YearFromTime] is the year of ECMA-262: the one that contains the day. *)
Lemma YearFromTime_spec (t : Z) :
  DayFromYear (YearFromTime t) <= Day t < DayFromYear (YearFromTime t + 1).
Proof.
  unfold YearFromTime. cbv zeta.
  pose proof (year_estimate (Day t)) as H.
  set (e := 1970 + 400 * Day t / 146097) in *.
  destruct (Z.leb_spec (DayFromYear (e + 1)) (Day t)).
  - replace (e + 1 + 1) with (e + 2) by lia. lia.
  - destruct (Z.leb_spec (DayFromYear e) (Day t)).
    + lia.
    + replace (e - 1 + 1) with e by lia. lia.
Qed.

Lemma YearFromTime_unique (t y : Z) :
  DayFromYear y <= Day t < DayFromYear (y + 1) -> YearFromTime t = y.
Proof.
  intros Hy. pose proof (YearFromTime_spec t) as Hs.
  destruct (Z.lt_trichotomy (YearFromTime t) y) as [Hlt | [Heq | Hgt]];
    [ | exact Heq | ].
  - pose proof (DayFromYear_lt _ _ Hlt). lia.
  - pose proof (DayFromYear_lt _ _ Hgt). lia.
Qed.

Lemma DayWithinYear_range (t : Z) :
  0 <= DayWithinYear t < DaysInYear (YearFromTime t).
Proof.
  unfold DayWithinYear. pose proof (YearFromTime_spec t).
  rewrite DayFromYear_succ in *. lia.
Qed.

Lemma InLeapYear_cases (t : Z) : InLeapYear t = 0 \/ InLeapYear t = 1.
Proof. unfold InLeapYear. destruct (_ =? _); auto. Qed.

Lemma monthOfYearDay_range (w leap : Z) : 0 <= monthOfYearDay w leap <= 11.
Proof.
  unfold monthOfYearDay.
  repeat match goal with |- context [if ?c then _ else _] => destruct c end;
    lia.
Qed.

Lemma MonthFromTime_range (t : Z) : 0 <= MonthFromTime t <= 11.
Proof. apply monthOfYearDay_range. Qed.

Lemma dateOfYearDay_monthStart (w leap : Z) :
  dateOfYearDay w leap = w - monthStart (monthOfYearDay w leap) leap + 1.
Proof.
  unfold dateOfYearDay, monthOfYearDay.
  repeat match goal with |- context [if ?c then _ else _] => destruct c end;
    cbn [monthStart]; lia.
Qed.

(** Rebuilding a day from its own year and month: [MakeDay] only moves it by
    the change of the day of the month. *)
Lemma MakeDay_fields (t dt : Z) :
  MakeDay (YearFromTime t) (MonthFromTime t) dt = Day t + (dt - DateFromTime t).
Proof.
  pose proof (MonthFromTime_range t) as Hm.
  unfold MakeDay. cbv zeta.
  rewrite (Z.div_small (MonthFromTime t) 12) by lia.
  rewrite (Z.mod_small (MonthFromTime t) 12) by lia.
  rewrite Z.add_0_r.
  change (if DaysInYear (YearFromTime t) =? 366 then 1 else 0)
    with (InLeapYear t).
  unfold DateFromTime. rewrite dateOfYearDay_monthStart.
  fold (MonthFromTime t). unfold DayWithinYear. lia.
Qed.

End DateArithmetic.

(** *** The Date model on known days *)

Example epoch_is_1_january_1970 :
  Date.YearFromTime 0 = 1970 /\ Date.MonthFromTime 0 = 0 /\
  Date.DateFromTime 0 = 1.
Proof. repeat split; reflexivity. Qed.

Example last_day_is_13_september_275760 :
  Date.YearFromTime Date.maxTimeValue = 275760 /\
  Date.MonthFromTime Date.maxTimeValue = 8 /\
  Date.DateFromTime Date.maxTimeValue = 13.
Proof. repeat split; vm_compute; reflexivity. Qed.

Example first_day_is_20_april_minus_271821 :
  Date.YearFromTime (- Date.maxTimeValue) = -271821 /\
  Date.MonthFromTime (- Date.maxTimeValue) = 3 /\
  Date.DateFromTime (- Date.maxTimeValue) = 20.
Proof. repeat split; vm_compute; reflexivity. Qed.

Example leap_day_2024 :
  Date.MakeDay 2024 1 29 = 19782 /\
  Date.MonthFromTime (Date.MakeDate 19782 0) = 1 /\
  Date.DateFromTime (Date.MakeDate 19782 0) = 29 /\
  Date.MakeDay 2024 2 10 = 19792.
Proof. repeat split; vm_compute; reflexivity. Qed.

Example two_digit_year_is_1900_based :
  Date.getFullYear (mkHost 0 0) (Date.make (mkHost 0 0) (Int 50) 0 1)
  = Int 1950.
Proof. vm_compute. reflexivity. Qed.

(** ** Date objects in the time range *)

Section DateObjects.

Import Date.

Variable h : Host.

Lemma TimeClip_in (tv : Z) : Z.abs tv <= maxTimeValue -> TimeClip tv = Int tv.
Proof.
  intros H. unfold TimeClip.
  destruct (Z.ltb_spec maxTimeValue (Z.abs tv)); [lia | reflexivity].
Qed.

Lemma TimeClip_out (tv : Z) : maxTimeValue < Z.abs tv -> TimeClip tv = NaN.
Proof.
  intros H. unfold TimeClip.
  destruct (Z.ltb_spec maxTimeValue (Z.abs tv)); [reflexivity | lia].
Qed.

(** A day number short of 100,000,000 is in range in every zone. *)
Lemma local_day_in_range (d : Z) :
  hostOk h -> Z.abs d < 100000000 ->
  Z.abs (UTC h (MakeDate d 0)) <= maxTimeValue.
Proof.
  unfold hostOk, UTC, MakeDate, msPerDay, maxTimeValue. lia.
Qed.

(** A day number beyond 100,000,000 is out of range in every zone. *)
Lemma local_day_out_of_range (d : Z) :
  hostOk h -> 100000000 < Z.abs d ->
  maxTimeValue < Z.abs (UTC h (MakeDate d 0)).
Proof.
  unfold hostOk, UTC, MakeDate, msPerDay, maxTimeValue. lia.
Qed.

Lemma LocalTime_UTC (lt : Z) : LocalTime h (UTC h lt) = lt.
Proof. unfold LocalTime, UTC. lia. Qed.

Lemma make_Int (y month date : Z) :
  make h (Int y) month date =
  TimeClip (UTC h (MakeDate (MakeDay (constructorYear y) month date) 0)).
Proof. reflexivity. Qed.

(** [setDate] moves a date by whole days. *)
Lemma setDate_Int (tv dt : Z) :
  setDate h (Int tv) (Int dt) =
  TimeClip (tv + (dt - DateFromTime (LocalTime h tv)) * msPerDay).
Proof.
  unfold setDate. cbv zeta. rewrite MakeDay_fields. f_equal.
  pose proof (Day_TimeWithinDay (LocalTime h tv)) as E.
  unfold UTC, MakeDate in *. unfold LocalTime in E at 1. lia.
Qed.

Lemma setDate_NaN (dt : number) : setDate h NaN dt = NaN.
Proof. reflexivity. Qed.

Lemma printMonthDay_Int (tv year : Z) :
  printMonthDay h (Int tv) year = monthDayYear (LocalTime h tv) year.
Proof. reflexivity. Qed.

Lemma printMonthDay_NaN (year : Z) :
  printMonthDay h NaN year = "undefined NaN, " ++ string_of_Z year.
Proof. reflexivity. Qed.

(** The festival date when both the base day and the shifted day are in the
    time range: the base day moved by [offset] days. *)
Lemma festivalDate_in_range (year month date offset : Z) :
  hostOk h ->
  Z.abs (MakeDay (constructorYear year) month date) < 100000000 ->
  Z.abs (MakeDay (constructorYear year) month date + offset) < 100000000 ->
  festivalDate h year month date offset =
  Int (UTC h (shiftedDay (constructorYear year) month date offset)).
Proof.
  intros Hh Hb Hs. unfold festivalDate. cbv zeta.
  rewrite make_Int, (TimeClip_in _ (local_day_in_range _ Hh Hb)).
  cbn [getDate lift1 lift2]. rewrite setDate_Int.
  pose proof (local_day_in_range _ Hh Hs) as Hr.
  fold (shiftedDay (constructorYear year) month date offset) in Hr.
  rewrite <- (TimeClip_in _ Hr). f_equal.
  unfold shiftedDay, UTC, MakeDate. lia.
Qed.

(** The festival date when the base day is out of the time range. *)
Lemma festivalDate_out_of_range (year month date offset : Z) :
  hostOk h ->
  100000000 < Z.abs (MakeDay (constructorYear year) month date) ->
  festivalDate h year month date offset = NaN.
Proof.
  intros Hh Hb. unfold festivalDate. cbv zeta.
  rewrite make_Int, (TimeClip_out _ (local_day_out_of_range _ Hh Hb)).
  reflexivity.
Qed.

End DateObjects.

(** ** The calendar day of a shifted day *)

Section ShiftedDays.

Import Date.

Lemma leapOf_cases (y : Z) : leapOf y = 0 \/ leapOf y = 1.
Proof. unfold leapOf. destruct (_ =? _); auto. Qed.

Lemma DaysInYear_leapOf (y : Z) : DaysInYear y = 365 + leapOf y.
Proof.
  unfold leapOf. destruct (DaysInYear_cases y) as [E | E]; rewrite E;
    reflexivity.
Qed.

Lemma MakeDay_month (y m d : Z) :
  0 <= m <= 11 ->
  MakeDay y m d = DayFromYear y + monthStart m (leapOf y) + d - 1.
Proof.
  intros Hm. unfold MakeDay. cbv zeta.
  rewrite (Z.div_small m 12), (Z.mod_small m 12), Z.add_0_r by lia.
  reflexivity.
Qed.

(** Year, month and day of a day that stays inside the year of its base. *)
Lemma shiftedDay_fields (y m d off : Z) :
  0 <= m <= 11 ->
  0 <= monthStart m (leapOf y) + d - 1 + off < DaysInYear y ->
  MonthFromTime (shiftedDay y m d off)
    = monthOfYearDay (monthStart m (leapOf y) + d - 1 + off) (leapOf y) /\
  DateFromTime (shiftedDay y m d off)
    = dateOfYearDay (monthStart m (leapOf y) + d - 1 + off) (leapOf y).
Proof.
  intros Hm Hw.
  assert (Hday : Day (shiftedDay y m d off)
                 = DayFromYear y + (monthStart m (leapOf y) + d - 1 + off)).
  { unfold shiftedDay. rewrite Day_MakeDate, MakeDay_month by exact Hm. lia. }
  assert (Hy : YearFromTime (shiftedDay y m d off) = y).
  { apply YearFromTime_unique. rewrite Hday, DayFromYear_succ. lia. }
  unfold MonthFromTime, DateFromTime, DayWithinYear, InLeapYear.
  rewrite Hy, Hday. fold (leapOf y).
  replace (DayFromYear y + (monthStart m (leapOf y) + d - 1 + off)
           - DayFromYear y)
    with (monthStart m (leapOf y) + d - 1 + off) by lia.
  split; reflexivity.
Qed.

(** From March on, the tables of a leap year are those of a common year one
    day later. *)
Lemma tables_after_february (w leap : Z) :
  leap = 0 \/ leap = 1 -> 59 <= w ->
  monthOfYearDay (w + leap) leap = monthOfYearDay w 0 /\
  dateOfYearDay (w + leap) leap = dateOfYearDay w 0.
Proof.
  intros Hl Hw. unfold dateOfYearDay, monthOfYearDay.
  repeat match goal with
         | |- context [?a <? ?b] => destruct (Z.ltb_spec a b)
         end; try lia; split; lia.
Qed.

Lemma monthStart_after_february (m leap : Z) :
  2 <= m <= 11 -> monthStart m leap = monthStart m 0 + leap.
Proof.
  intros Hm.
  assert (m = 2 \/ m = 3 \/ m = 4 \/ m = 5 \/ m = 6 \/ m = 7 \/ m = 8 \/
          m = 9 \/ m = 10 \/ m = 11) as Hc by lia.
  repeat (destruct Hc as [-> | Hc]; [cbn [monthStart]; lia | ]).
  subst m. cbn [monthStart]. lia.
Qed.

(** A day from March on reads the same in every year. *)
Lemma monthDayYear_after_february (y y' m d off year : Z) :
  2 <= m <= 11 ->
  59 <= monthStart m 0 + d - 1 + off < 365 ->
  monthDayYear (shiftedDay y m d off) year
  = monthDayYear (shiftedDay y' m d off) year.
Proof.
  intros Hm Hw.
  assert (forall z, monthDayYear (shiftedDay z m d off) year =
            show (array_get monthNames
                    (monthOfYearDay (monthStart m 0 + d - 1 + off) 0))
            ++ " " ++ string_of_Z
                 (dateOfYearDay (monthStart m 0 + d - 1 + off) 0)
            ++ ", " ++ string_of_Z year) as H.
  { intros z. unfold monthDayYear.
    destruct (shiftedDay_fields z m d off) as [E1 E2].
    - lia.
    - rewrite DaysInYear_leapOf, monthStart_after_february by exact Hm.
      destruct (leapOf_cases z); lia.
    - rewrite E1, E2, monthStart_after_february by exact Hm.
      replace (monthStart m 0 + leapOf z + d - 1 + off)
        with (monthStart m 0 + d - 1 + off + leapOf z) by lia.
      destruct (tables_after_february (monthStart m 0 + d - 1 + off)
                  (leapOf z) (leapOf_cases z) ltac:(lia)) as [-> ->].
      reflexivity. }
  rewrite (H y), (H y'). reflexivity.
Qed.

(** A day reads the same in two years that are both leap or both common. *)
Lemma monthDayYear_same_leap (y y' m d off year : Z) :
  leapOf y = leapOf y' ->
  0 <= m <= 11 ->
  0 <= monthStart m (leapOf y) + d - 1 + off < 365 ->
  monthDayYear (shiftedDay y m d off) year
  = monthDayYear (shiftedDay y' m d off) year.
Proof.
  intros Hl Hm Hw. unfold monthDayYear.
  destruct (shiftedDay_fields y m d off) as [E1 E2];
    [lia | rewrite DaysInYear_leapOf; destruct (leapOf_cases y); lia | ].
  destruct (shiftedDay_fields y' m d off) as [E1' E2'];
    [lia
    | rewrite <- Hl, DaysInYear_leapOf; destruct (leapOf_cases y'); lia | ].
  rewrite E1, E2, E1', E2', Hl. reflexivity.
Qed.

(** The years 1 to 99 are leap exactly when the years 1901 to 1999 the Date
    constructor reads them as are. *)
Lemma leapOf_two_digit (y : Z) : 1 <= y <= 99 -> leapOf (1900 + y) = leapOf y.
Proof.
  intros Hy. unfold leapOf, DaysInYear.
  assert ((1900 + y) mod 4 = y mod 4) as -> .
  { replace (1900 + y) with (y + 475 * 4) by lia. apply Z.mod_add. lia. }
  assert ((1900 + y) mod 100 = y mod 100) as ->.
  { replace (1900 + y) with (y + 19 * 100) by lia. apply Z.mod_add. lia. }
  assert (y mod 100 <> 0) as H100.
  { rewrite Z.mod_small by lia. lia. }
  destruct (Z.eqb_spec (y mod 100) 0); [contradiction | ].
  destruct (y mod 4 =? 0); reflexivity.
Qed.

End ShiftedDays.

(** ** The festival estimators inside and outside the time range *)

Section Estimators.

Import Date.

Lemma constructorYear_cases (y : Z) :
  (0 <= y <= 99 /\ constructorYear y = 1900 + y) \/
  ((y < 0 \/ 99 < y) /\ constructorYear y = y).
Proof.
  unfold constructorYear.
  destruct (Z.leb_spec 0 y), (Z.leb_spec y 99); cbn [andb]; lia.
Qed.

Lemma monthStart_leap_bounds (m leap : Z) :
  0 <= m <= 11 -> leap = 0 \/ leap = 1 ->
  monthStart m 0 <= monthStart m leap <= monthStart m 0 + 1.
Proof.
  intros Hm Hl.
  assert (m = 0 \/ m = 1 \/ m = 2 \/ m = 3 \/ m = 4 \/ m = 5 \/ m = 6 \/
          m = 7 \/ m = 8 \/ m = 9 \/ m = 10 \/ m = 11) as Hc by lia.
  repeat (destruct Hc as [-> | Hc]; [cbn [monthStart]; lia | ]).
  subst m. cbn [monthStart]. lia.
Qed.

Lemma MakeDay_bounds (y lo hi m d : Z) :
  0 <= m <= 11 -> lo <= y <= hi ->
  DayFromYear lo + monthStart m 0 + d - 1 <= MakeDay y m d
  <= DayFromYear hi + monthStart m 0 + d.
Proof.
  intros Hm Hy. rewrite MakeDay_month by exact Hm.
  pose proof (DayFromYear_mono lo y ltac:(lia)).
  pose proof (DayFromYear_mono y hi ltac:(lia)).
  pose proof (monthStart_leap_bounds m (leapOf y) Hm (leapOf_cases y)).
  lia.
Qed.

Lemma MakeDay_upto (y hi m d : Z) :
  0 <= m <= 11 -> y <= hi ->
  MakeDay y m d <= DayFromYear hi + monthStart m 0 + d.
Proof.
  intros Hm Hy. rewrite MakeDay_month by exact Hm.
  pose proof (DayFromYear_mono y hi ltac:(lia)).
  pose proof (monthStart_leap_bounds m (leapOf y) Hm (leapOf_cases y)).
  lia.
Qed.

Lemma MakeDay_from (y lo m d : Z) :
  0 <= m <= 11 -> lo <= y ->
  DayFromYear lo + monthStart m 0 + d - 1 <= MakeDay y m d.
Proof.
  intros Hm Hy. rewrite MakeDay_month by exact Hm.
  pose proof (DayFromYear_mono lo y ltac:(lia)).
  pose proof (monthStart_leap_bounds m (leapOf y) Hm (leapOf_cases y)).
  lia.
Qed.

Variable h : Host.
Hypothesis h_ok : hostOk h.

Lemma estimator_in_range (year m d off printed : Z) :
  Z.abs (MakeDay (constructorYear year) m d) < 100000000 ->
  Z.abs (MakeDay (constructorYear year) m d + off) < 100000000 ->
  printMonthDay h (festivalDate h year m d off) printed
  = monthDayYear (shiftedDay (constructorYear year) m d off) printed.
Proof.
  intros Hb Hs.
  rewrite (festivalDate_in_range h year m d off h_ok Hb Hs).
  rewrite printMonthDay_Int, LocalTime_UTC. reflexivity.
Qed.

Lemma estimator_out_of_range (year m d off printed : Z) :
  100000000 < Z.abs (MakeDay (constructorYear year) m d) ->
  printMonthDay h (festivalDate h year m d off) printed
  = "undefined NaN, " ++ string_of_Z printed.
Proof.
  intros Hb.
  rewrite (festivalDate_out_of_range h year m d off h_ok Hb).
  apply printMonthDay_NaN.
Qed.

(** The three base days over the years of the time range. *)
Lemma october_15_in_range (year off : Z) :
  -271821 <= year <= 275759 -> -15 <= off <= 15 ->
  Z.abs (MakeDay (constructorYear year) 9 15) < 100000000 /\
  Z.abs (MakeDay (constructorYear year) 9 15 + off) < 100000000.
Proof.
  intros Hy Ho.
  pose proof (MakeDay_bounds (constructorYear year) (-271821) 275759 9 15
                ltac:(lia)) as H.
  change (DayFromYear (-271821)) with (-100000109) in H.
  change (DayFromYear 275759) with 99999379 in H.
  cbn [monthStart] in H.
  destruct (constructorYear_cases year) as [[? E] | [? E]]; rewrite E in *;
    lia.
Qed.

Lemma october_15_out_of_range (year : Z) :
  year < -271821 \/ 275759 < year ->
  100000000 < Z.abs (MakeDay (constructorYear year) 9 15).
Proof.
  intros Hy.
  destruct (constructorYear_cases year) as [[? E] | [_ E]]; [lia | ].
  rewrite E. destruct Hy as [Hy | Hy].
  - pose proof (MakeDay_upto year (-271822) 9 15 ltac:(lia) ltac:(lia)) as H.
    change (DayFromYear (-271822)) with (-100000474) in H.
    cbn [monthStart] in H. lia.
  - pose proof (MakeDay_from year 275760 9 15 ltac:(lia) ltac:(lia)) as H.
    change (DayFromYear 275760) with 99999744 in H.
    cbn [monthStart] in H. lia.
Qed.

Lemma march_8_in_range (year off : Z) :
  -271820 <= year <= 275760 -> -12 <= off <= 12 ->
  Z.abs (MakeDay (constructorYear year) 2 8) < 100000000 /\
  Z.abs (MakeDay (constructorYear year) 2 8 + off) < 100000000.
Proof.
  intros Hy Ho.
  pose proof (MakeDay_bounds (constructorYear year) (-271820) 275760 2 8
                ltac:(lia)) as H.
  change (DayFromYear (-271820)) with (-99999744) in H.
  change (DayFromYear 275760) with 99999744 in H.
  cbn [monthStart] in H.
  destruct (constructorYear_cases year) as [[? E] | [? E]]; rewrite E in *;
    lia.
Qed.

Lemma march_8_out_of_range (year : Z) :
  year < -271820 \/ 275760 < year ->
  100000000 < Z.abs (MakeDay (constructorYear year) 2 8).
Proof.
  intros Hy.
  destruct (constructorYear_cases year) as [[? E] | [_ E]]; [lia | ].
  rewrite E. destruct Hy as [Hy | Hy].
  - pose proof (MakeDay_upto year (-271821) 2 8 ltac:(lia) ltac:(lia)) as H.
    change (DayFromYear (-271821)) with (-100000109) in H.
    cbn [monthStart] in H. lia.
  - pose proof (MakeDay_from year 275761 2 8 ltac:(lia) ltac:(lia)) as H.
    change (DayFromYear 275761) with 100000110 in H.
    cbn [monthStart] in H. lia.
Qed.

Lemma september_20_in_range (year off : Z) :
  -271821 <= year <= 275759 -> -10 <= off <= 10 ->
  Z.abs (MakeDay (constructorYear year) 8 20) < 100000000 /\
  Z.abs (MakeDay (constructorYear year) 8 20 + off) < 100000000.
Proof.
  intros Hy Ho.
  pose proof (MakeDay_bounds (constructorYear year) (-271821) 275759 8 20
                ltac:(lia)) as H.
  change (DayFromYear (-271821)) with (-100000109) in H.
  change (DayFromYear 275759) with 99999379 in H.
  cbn [monthStart] in H.
  destruct (constructorYear_cases year) as [[? E] | [? E]]; rewrite E in *;
    lia.
Qed.

Lemma september_20_out_of_range (year : Z) :
  year < -271821 \/ 275759 < year ->
  100000000 < Z.abs (MakeDay (constructorYear year) 8 20).
Proof.
  intros Hy.
  destruct (constructorYear_cases year) as [[? E] | [_ E]]; [lia | ].
  rewrite E. destruct Hy as [Hy | Hy].
  - pose proof (MakeDay_upto year (-271822) 8 20 ltac:(lia) ltac:(lia)) as H.
    change (DayFromYear (-271822)) with (-100000474) in H.
    cbn [monthStart] in H. lia.
  - pose proof (MakeDay_from year 275760 8 20 ltac:(lia) ltac:(lia)) as H.
    change (DayFromYear 275760) with 99999744 in H.
    cbn [monthStart] in H. lia.
Qed.

End Estimators.

(** ** The sinusoidal offsets *)

Section Offsets.

Local Open Scope R_scope.

Lemma Math_floor_spec (x : R) (z : Z) :
  IZR z <= x < IZR z + 1 -> Math_floor x = z.
Proof. intros [H1 H2]. symmetry. apply Int_part_spec. lra. Qed.

Lemma Math_floor_bounds (x : R) (k : Z) :
  - IZR k <= x <= IZR k -> (- k <= Math_floor x <= k)%Z.
Proof.
  intros [H1 H2]. unfold Math_floor.
  destruct (base_Int_part x) as [Ha Hb].
  split.
  - assert (IZR (- k - 1) < IZR (Int_part x)) as H.
    { rewrite minus_IZR, opp_IZR. lra. }
    apply lt_IZR in H. lia.
  - apply le_IZR. lra.
Qed.

Lemma floor_sin_bound (x : R) (k : Z) :
  (0 <= k)%Z -> (- k <= Math_floor (sin x * IZR k) <= k)%Z.
Proof.
  intros Hk. apply Math_floor_bounds.
  pose proof (SIN_bound x). apply IZR_le in Hk. nra.
Qed.

Lemma floor_cos_bound (x : R) (k : Z) :
  (0 <= k)%Z -> (- k <= Math_floor (cos x * IZR k) <= k)%Z.
Proof.
  intros Hk. apply Math_floor_bounds.
  pose proof (COS_bound x). apply IZR_le in Hk. nra.
Qed.

(** sin 1 = 0.8414..., between the partial sums 1 - 1/6 and
    1 - 1/6 + 1/120 of its series. *)
Lemma sin_1_bounds : 8 / 10 <= sin 1 < 9 / 10.
Proof.
  assert (Hpi : 1 <= PI) by (unfold PI; pose proof pi2_int; lra).
  destruct (sin_bound 1 0 ltac:(lra) Hpi) as [Hl Hu].
  unfold sin_approx, sin_term in Hl, Hu. simpl in Hl, Hu.
  lra.
Qed.

Lemma floor_sin_1_times_10 : Math_floor (sin 1 * 10) = 8%Z.
Proof. pose proof sin_1_bounds. apply Math_floor_spec. simpl. lra. Qed.

Lemma floor_sin_0_times_10 : Math_floor (sin 0 * 10) = 0%Z.
Proof. rewrite sin_0. apply Math_floor_spec. simpl. lra. Qed.

Lemma floor_cos_0_times_12 : Math_floor (cos 0 * 12) = 12%Z.
Proof. rewrite cos_0. apply Math_floor_spec. simpl. lra. Qed.

End Offsets.

(** ** Properties of the year functions *)

(** C1: for the reference years 2024, 2025 and 2023, [calculateEasterDate]
    returns the canonical Easter dates "March 31, 2024", "April 20, 2025" and
    "April 9, 2023". *)
Theorem calculateEasterDate_reference :
  calculateEasterDate 2024 = "March 31, 2024" /\
  calculateEasterDate 2025 = "April 20, 2025" /\
  calculateEasterDate 2023 = "April 9, 2023".
Proof. repeat split; vm_compute; reflexivity. Qed.

(** C6: for every integer year, [isGregorianLeapYear] is true exactly when
    the year is divisible by 400, or divisible by 4 and not by 100; so 2000
    and 2024 are leap, 1900 and 2023 are not. *)
Theorem isGregorianLeapYear_iff :
  (forall year : Z,
      isGregorianLeapYear year = true <->
      ((400 | year) \/ ((4 | year) /\ ~ (100 | year)))) /\
  isGregorianLeapYear 2000 = true /\
  isGregorianLeapYear 1900 = false /\
  isGregorianLeapYear 2024 = true /\
  isGregorianLeapYear 2023 = false.
Proof.
  split; [ | repeat split; reflexivity ].
  intros year. unfold isGregorianLeapYear.
  rewrite orb_true_iff, andb_true_iff, negb_true_iff.
  rewrite !Z.eqb_eq, Z.eqb_neq.
  rewrite !Z.rem_divide by discriminate.
  reflexivity.
Qed.

(** The remainder of [year + 19] by 19, away from the sign change. *)
Lemma rem_19_shift (year : Z) :
  year <= -19 \/ 0 <= year -> Z.rem (year + 19) 19 = Z.rem year 19.
Proof.
  intros H. Z.to_euclidean_division_equations. lia.
Qed.

(** Where the remainder is not negative, from the year 0 on, the code
    follows the 19-year cycle of its comment: [isHebrewLeapYear year]
    equals [isHebrewLeapYear (year + 19)]. *)
Lemma isHebrewLeapYear_period_19 (year : Z) :
  0 <= year ->
  isHebrewLeapYear year = isHebrewLeapYear (year + 19).
Proof.
  intros H. unfold isHebrewLeapYear. cbv zeta.
  rewrite (rem_19_shift year (or_intror H)). reflexivity.
Qed.

(** C3 on the code: [isHebrewLeapYear] is not periodic with period 19 on
    every integer year.  The year -16 is the third year of its cycle, as
    the year 3 = -16 + 19 is, and 3 is a leap year of the code; but
    [year % 19] is -16 on it, no position of the list, and the code
    answers false. *)
Theorem isHebrewLeapYear_negative_year :
  Z.rem (-16) 19 = -16 /\
  (-16) mod 19 = 3 /\
  isHebrewLeapYear (-16) = false /\
  isHebrewLeapYear (-16 + 19) = true /\
  isHebrewLeapYear (-16) <> isHebrewLeapYear (-16 + 19).
Proof. repeat split; try reflexivity. discriminate. Qed.

(** The Easter sequence on a non-negative year: the month is 3 or 4 and the
    day lies in 1..31. *)
Lemma easterMonthDay_range (year : Z) :
  0 <= year ->
  (fst (easterMonthDay year) = 3 \/ fst (easterMonthDay year) = 4) /\
  1 <= snd (easterMonthDay year) <= 31.
Proof.
  intros Hy. unfold easterMonthDay. cbv zeta. cbn [fst snd].
  set (a := Z.rem year 19).
  set (b := year / 100).
  set (c := Z.rem year 100).
  set (f := (b + 8) / 25).
  set (g := (b - f + 1) / 3).
  set (h := Z.rem (19 * a + b - b / 4 - g + 15) 30).
  set (l := Z.rem (32 + 2 * Z.rem b 4 + 2 * (c / 4) - h - Z.rem c 4) 7).
  set (m := (a + 11 * h + 22 * l) / 451).
  assert (Ha : 0 <= a <= 18) by (subst a; Z.to_euclidean_division_equations; lia).
  assert (Hb : 0 <= b) by (subst b; Z.to_euclidean_division_equations; lia).
  assert (Hc : 0 <= c <= 99) by (subst c; Z.to_euclidean_division_equations; lia).
  assert (Hg : b - b / 4 - g >= 0)
    by (subst g f; Z.to_euclidean_division_equations; lia).
  assert (Hh : 0 <= h <= 29) by (subst h; Z.to_euclidean_division_equations; lia).
  assert (Hl : 0 <= l <= 6).
  { assert (0 <= Z.rem b 4 <= 3) by (Z.to_euclidean_division_equations; lia).
    assert (0 <= c / 4) by (Z.to_euclidean_division_equations; lia).
    assert (0 <= Z.rem c 4 <= 3) by (Z.to_euclidean_division_equations; lia).
    subst l. Z.to_euclidean_division_equations. lia. }
  assert (Hm : (m = 0 /\ a + 11 * h + 22 * l < 451) \/
               (m = 1 /\ 451 <= a + 11 * h + 22 * l))
    by (subst m; Z.to_euclidean_division_equations; lia).
  clearbody a b c f g h l m.
  Z.to_euclidean_division_equations. lia.
Qed.

(** C10: for every non-negative year, the month computed by
    [calculateEasterDate] is 3 or 4 and the day is in 1..31, so the lookup
    [monthNames[month - 1]] is in bounds and the returned string names March
    or April. *)
Theorem calculateEasterDate_march_or_april (year : Z) :
  0 <= year ->
  let month := fst (easterMonthDay year) in
  let day := snd (easterMonthDay year) in
  (month = 3 \/ month = 4) /\
  1 <= day <= 31 /\
  exists name : string,
    array_get monthNames (month - 1) = Some name /\
    (name = "March" \/ name = "April") /\
    calculateEasterDate year
    = name ++ " " ++ string_of_Z day ++ ", " ++ string_of_Z year.
Proof.
  intros Hy month day.
  destruct (easterMonthDay_range year Hy) as [Hm Hd].
  fold month in Hm. fold day in Hd.
  split; [exact Hm | split; [exact Hd | ]].
  unfold calculateEasterDate.
  destruct (easterMonthDay year) as [mo da] eqn:E.
  cbn [fst snd] in month, day. subst month day.
  destruct Hm as [-> | ->].
  - exists "March". repeat split; auto.
  - exists "April". repeat split; auto.
Qed.

Lemma calculateEasterDate_march_or_april_witness :
  0 <= 2024 /\
  let month := fst (easterMonthDay 2024) in
  let day := snd (easterMonthDay 2024) in
  (month = 3 \/ month = 4) /\
  1 <= day <= 31 /\
  exists name : string,
    array_get monthNames (month - 1) = Some name /\
    (name = "March" \/ name = "April") /\
    calculateEasterDate 2024
    = name ++ " " ++ string_of_Z day ++ ", " ++ string_of_Z 2024.
Proof.
  split; [lia | apply (calculateEasterDate_march_or_april 2024); lia].
Defined.

(** ** Properties of the Date functions *)

Lemma getMonth_valid (h : Host) (date : Date.t) :
  Date.valid date ->
  exists m : Z, Date.getMonth h date = Int m /\ 0 <= m <= 11.
Proof.
  intros [tv [-> _]]. eexists. split; [reflexivity | ].
  apply MonthFromTime_range.
Qed.

(** C4: for a date with year [y], 0-indexed month [m] in 0..11 and day [d]
    in 1..31, [gregorianToHebrew] returns "<d> <monthName> <hy>" where
    [hy = y + 3760 + (1 if m >= 9 else 0)] and [monthName] is entry
    [(m + 6) mod 12] of the cycle Nisan, Iyar, Sivan, Tammuz, Av, Elul,
    Tishrei, Heshvan, Kislev, Tevet, Shevat, Adar; the day is passed
    through unchanged. *)
Theorem gregorianToHebrew_format (h : Host) (date : Date.t) (y m d : Z) :
  Date.getFullYear h date = Int y ->
  Date.getMonth h date = Int m ->
  Date.getDate h date = Int d ->
  0 <= m <= 11 ->
  1 <= d <= 31 ->
  exists monthName : string,
    nth_error ["Nisan"; "Iyar"; "Sivan"; "Tammuz"; "Av"; "Elul";
               "Tishrei"; "Heshvan"; "Kislev"; "Tevet"; "Shevat"; "Adar"]
              (Z.to_nat ((m + 6) mod 12)) = Some monthName /\
    gregorianToHebrew h date
    = string_of_Z d ++ " " ++ monthName ++ " "
        ++ string_of_Z (y + 3760 + (if 9 <=? m then 1 else 0)).
Proof.
  intros Hy Hm Hd Hmr Hdr.
  unfold gregorianToHebrew, hebrewMonthIndex. cbv zeta.
  rewrite Hy, Hm, Hd. cbn [lift1 geb ToString array_get_num].
  assert (m = 0 \/ m = 1 \/ m = 2 \/ m = 3 \/ m = 4 \/ m = 5 \/ m = 6 \/
          m = 7 \/ m = 8 \/ m = 9 \/ m = 10 \/ m = 11) as Hc by lia.
  repeat (destruct Hc as [-> | Hc];
          [eexists; split; [reflexivity | reflexivity] | ]).
  subst m. eexists; split; reflexivity.
Qed.

Lemma gregorianToHebrew_format_witness :
  let h := mkHost 3600000 0 in
  let date := Int 1729000000000 in
  Date.getFullYear h date = Int 2024 /\
  Date.getMonth h date = Int 9 /\
  Date.getDate h date = Int 15 /\
  0 <= 9 <= 11 /\ 1 <= 15 <= 31 /\
  gregorianToHebrew h date = "15 Tammuz 5785".
Proof.
  intros h date.
  assert (Hy : Date.getFullYear h date = Int 2024) by reflexivity.
  assert (Hm : Date.getMonth h date = Int 9) by reflexivity.
  assert (Hd : Date.getDate h date = Int 15) by reflexivity.
  split; [exact Hy | split; [exact Hm | split; [exact Hd | ]]].
  split; [lia | split; [lia | ]].
  destruct (gregorianToHebrew_format h date 2024 9 15 Hy Hm Hd
              ltac:(lia) ltac:(lia)) as [name [Hn Hs]].
  cbn in Hn. injection Hn as <-. rewrite Hs. reflexivity.
Defined.

(** C7: for every valid date, [getSeason] returns one of 'Spring', 'Summer',
    'Fall', 'Winter', decided by the 0-indexed month alone: Spring for 2..4,
    Summer for 5..7, Fall for 8..10, Winter for 0, 1 and 11; two dates of
    the same month, or two calls on one date, give the same season. *)
Theorem getSeason_by_month (h : Host) (date : Date.t) :
  Date.valid date ->
  exists m : Z,
    Date.getMonth h date = Int m /\ 0 <= m <= 11 /\
    getSeason h date
    = (if (2 <=? m) && (m <=? 4) then "Spring"
       else if (5 <=? m) && (m <=? 7) then "Summer"
       else if (8 <=? m) && (m <=? 10) then "Fall"
       else "Winter") /\
    In (getSeason h date) ["Spring"; "Summer"; "Fall"; "Winter"] /\
    (m = 0 \/ m = 1 \/ m = 11 -> getSeason h date = "Winter") /\
    (forall date' : Date.t,
        Date.getMonth h date' = Date.getMonth h date ->
        getSeason h date' = getSeason h date).
Proof.
  intros Hv. destruct (getMonth_valid h date Hv) as [m [Hm Hr]].
  exists m. split; [exact Hm | split; [exact Hr | ]].
  assert (E : getSeason h date
              = (if (2 <=? m) && (m <=? 4) then "Spring"
                 else if (5 <=? m) && (m <=? 7) then "Summer"
                 else if (8 <=? m) && (m <=? 10) then "Fall"
                 else "Winter")).
  { unfold getSeason. cbv zeta. rewrite Hm. reflexivity. }
  split; [exact E | ].
  split; [ | split ].
  - rewrite E.
    destruct ((2 <=? m) && (m <=? 4)); [cbn; auto | ].
    destruct ((5 <=? m) && (m <=? 7)); [cbn; auto | ].
    destruct ((8 <=? m) && (m <=? 10)); cbn; auto.
  - intros Hw. rewrite E.
    destruct Hw as [-> | [-> | ->]]; reflexivity.
  - intros date' Hd. unfold getSeason. cbv zeta. rewrite Hd. reflexivity.
Qed.

Lemma getSeason_by_month_witness :
  let h := mkHost 3600000 0 in
  let date := Int 1729000000000 in
  Date.valid date /\
  exists m : Z,
    Date.getMonth h date = Int m /\ 0 <= m <= 11 /\
    getSeason h date
    = (if (2 <=? m) && (m <=? 4) then "Spring"
       else if (5 <=? m) && (m <=? 7) then "Summer"
       else if (8 <=? m) && (m <=? 10) then "Fall"
       else "Winter") /\
    In (getSeason h date) ["Spring"; "Summer"; "Fall"; "Winter"] /\
    (m = 0 \/ m = 1 \/ m = 11 -> getSeason h date = "Winter") /\
    (forall date' : Date.t,
        Date.getMonth h date' = Date.getMonth h date ->
        getSeason h date' = getSeason h date).
Proof.
  intros h date.
  assert (Hv : Date.valid date).
  { exists 1729000000000. split; [reflexivity | ].
    unfold Date.maxTimeValue. lia. }
  split; [exact Hv | apply (getSeason_by_month h date Hv)].
Defined.

(** The Hebrew and Hindu month indices of a valid date are inside the
    twelve names. *)
Lemma hebrew_hindu_index_in_bounds (h : Host) (date : Date.t) :
  Date.valid date ->
  exists i j : Z,
    hebrewMonthIndex h date = Int i /\ 0 <= i <= 11 /\
    hinduMonthIndex h date = Int j /\ 0 <= j <= 11.
Proof.
  intros Hv. destruct (getMonth_valid h date Hv) as [m [Hm Hr]].
  unfold hebrewMonthIndex, hinduMonthIndex. rewrite Hm. cbn [lift1].
  exists (Z.rem (m + 6) 12), (Z.rem (m + 10) 12).
  repeat split; try reflexivity; Z.to_euclidean_division_equations; lia.
Qed.

(** The day of the year that [gregorianToIslamic] computes, when the year
    of the date is not one the Date constructor reads as 1900 + year and
    the last day of the year before is in the time range: the true day of
    the year, 1 for 1 January, moved by the whole days that the time of
    day makes with the change of the offset since the start of the year. *)
Lemma islamicDayOfYear_exact (z : Zone) (tv y : Z) :
  let off := TZA z tv true in
  let off0 := TZA z (Date.MakeDate (Date.MakeDay y 0 0) 0) false in
  Z.abs off < Date.msPerDay -> Z.abs off0 < Date.msPerDay ->
  Z.abs tv <= Date.maxTimeValue ->
  Date.YearFromTime (tv + off) = y ->
  y < 0 \/ 99 < y -> -271821 < y ->
  islamicDayOfYear z (Int tv)
  = Int (Date.DayWithinYear (tv + off) + 1
         + (Date.TimeWithinDay (tv + off) - (off - off0)) / Date.msPerDay).
Proof.
  intros off off0 Ho Ho0 Hv Hy Hq Hlo.
  pose proof (YearFromTime_spec (tv + off)) as Hs.
  rewrite Hy in Hs.
  pose proof (DayFromYear_mono (-271820) y ltac:(lia)) as Hm.
  change (Date.DayFromYear (-271820)) with (-99999744) in Hm.
  pose proof (Day_TimeWithinDay (tv + off)) as Hl.
  assert (Ht : 0 <= Date.TimeWithinDay (tv + off) < Date.msPerDay)
    by (apply Z.mod_pos_bound; reflexivity).
  unfold Date.MakeDate in Hl.
  unfold islamicDayOfYear, getFullYearIn, makeIn. cbv zeta.
  cbn [lift1]. fold off. rewrite Hy.
  assert (Ec : (0 <=? y) && (y <=? 99) = false).
  { destruct (Z.leb_spec 0 y), (Z.leb_spec y 99); try reflexivity; lia. }
  rewrite Ec. fold off0.
  assert (Es : Date.MakeDate (Date.MakeDay y 0 0) 0
               = (Date.DayFromYear y - 1) * Date.msPerDay).
  { rewrite MakeDay_month by lia. cbn [Date.monthStart].
    unfold Date.MakeDate. lia. }
  rewrite Es.
  rewrite TimeClip_in
    by (unfold Date.msPerDay, Date.maxTimeValue in *; lia).
  cbn [Date.diff lift2 lift1]. f_equal.
  unfold Date.DayWithinYear. rewrite Hy.
  change (1000 * 60 * 60 * 24) with Date.msPerDay.
  replace (tv - ((Date.DayFromYear y - 1) * Date.msPerDay - off0))
    with (Date.TimeWithinDay (tv + off) - (off - off0)
          + (Date.Day (tv + off) - Date.DayFromYear y + 1) * Date.msPerDay)
    by lia.
  rewrite Z.div_add by discriminate. lia.
Qed.

(** Under these conditions, and when the offset has changed by a day at
    most, the day of the year is off by one day at most, and is the true
    one in a zone of one offset. *)
Lemma islamicDayOfYear_in_year (z : Zone) (date : Date.t) (y : Z) :
  (forall t b, Z.abs (TZA z t b) < Date.msPerDay) ->
  (forall t t', Z.abs (TZA z t true - TZA z t' false) <= Date.msPerDay) ->
  Date.valid date ->
  getFullYearIn z date = Int y ->
  y < 0 \/ 99 < y -> -271821 < y ->
  exists n : Z, islamicDayOfYear z date = Int n /\ 0 <= n <= 367.
Proof.
  intros Ho Hd [tv [-> Hv]] Hy Hq Hlo.
  cbn [getFullYearIn lift1] in Hy. injection Hy as Hy.
  rewrite (islamicDayOfYear_exact z tv y (Ho _ _) (Ho _ _) Hv Hy Hq Hlo).
  eexists. split; [reflexivity | ].
  pose proof (DayWithinYear_range (tv + TZA z tv true)) as Hw.
  rewrite Hy in Hw. pose proof (DaysInYear_cases y) as Hc.
  assert (Ht : 0 <= Date.TimeWithinDay (tv + TZA z tv true) < Date.msPerDay)
    by (apply Z.mod_pos_bound; reflexivity).
  specialize (Hd tv (Date.MakeDate (Date.MakeDay y 0 0) 0)).
  unfold Date.msPerDay in *. Z.to_euclidean_division_equations. lia.
Qed.

(** The Islamic month index is then inside the twelve names. *)
Lemma islamicMonthIndex_in_bounds (z : Zone) (date : Date.t) (y : Z) :
  (forall t b, Z.abs (TZA z t b) < Date.msPerDay) ->
  (forall t t', Z.abs (TZA z t true - TZA z t' false) <= Date.msPerDay) ->
  Date.valid date ->
  getFullYearIn z date = Int y ->
  y < 0 \/ 99 < y -> -271821 < y ->
  exists k : Z, islamicMonthIndex z date = Int k /\ 0 <= k <= 11.
Proof.
  intros Ho Hd Hv Hy Hq Hlo.
  destruct (islamicDayOfYear_in_year z date y Ho Hd Hv Hy Hq Hlo)
    as [n [Hn Hr]].
  unfold islamicMonthIndex. rewrite Hn. cbn [lift1].
  eexists. split; [reflexivity | ].
  Z.to_euclidean_division_equations. lia.
Qed.

(** C8 on the code: for 1 June of the year 50, a valid date of month 5, the
    Hebrew and Hindu indices are in bounds, but [gregorianToIslamic] measures
    the day of the year from 31 December 1949, gets -693808, and indexes its
    twelve month names at -11: the lookup is out of range and the month
    prints as "undefined". *)
Theorem gregorianToIslamic_two_digit_year :
  let h := mkHost 0 0 in
  let date := Int (-60576249600000) in
  Date.valid date /\
  Date.getFullYear h date = Int 50 /\
  Date.getMonth h date = Int 5 /\
  Date.getDate h date = Int 1 /\
  hebrewMonthIndex h date = Int 11 /\
  hinduMonthIndex h date = Int 3 /\
  Date.make h (Date.getFullYear h date) 0 0 = Date.make h (Int 1950) 0 0 /\
  islamicDayOfYear h date = Int (-693808) /\
  islamicMonthIndex h date = Int (-11) /\
  array_get_num islamicMonths (islamicMonthIndex h date) = None /\
  gregorianToIslamic h date = "-26 undefined -589 AH".
Proof.
  intros h date. split.
  - exists (-60576249600000). split; [reflexivity | ].
    unfold Date.maxTimeValue. lia.
  - repeat split; vm_compute; reflexivity.
Qed.

(** ** Ramadan start *)

Lemma lift2_sub_Int (a : number) (k : Z) :
  lift2 Z.sub a (Int k) = lift2 Z.add a (Int (- k)).
Proof. destruct a; cbn [lift2]; [f_equal; lia | reflexivity]. Qed.

Lemma calculateRamadanStart_festivalDate (h : Host) (gregorianYear : Z) :
  calculateRamadanStart h gregorianYear
  = printMonthDay h
      (festivalDate h 2024 2 10 (- ((gregorianYear - 2024) * 11)))
      gregorianYear.
Proof.
  unfold calculateRamadanStart, festivalDate. cbv zeta.
  rewrite lift2_sub_Int. reflexivity.
Qed.

(** C5, as the code has it: for every gregorianYear from -9087085 to
    9094732, the years whose shifted day is inside the time range of Date,
    [calculateRamadanStart] returns "<MonthName> <Day>, <gregorianYear>"
    with the month name and day of the month of the calendar day that lies
    [11 * (gregorianYear - 2024)] days before March 10, 2024. *)
Theorem calculateRamadanStart_shift (h : Host) (gregorianYear : Z) :
  Date.hostOk h ->
  -9087085 <= gregorianYear <= 9094732 ->
  calculateRamadanStart h gregorianYear = specRamadanStart gregorianYear.
Proof.
  intros Hh Hy. rewrite calculateRamadanStart_festivalDate.
  rewrite (estimator_in_range h Hh).
  - unfold specRamadanStart. f_equal. f_equal. lia.
  - change (Date.MakeDay (constructorYear 2024) 2 10) with 19792. lia.
  - change (Date.MakeDay (constructorYear 2024) 2 10) with 19792. lia.
Qed.

Lemma calculateRamadanStart_shift_witness :
  let h := mkHost 3600000 0 in
  Date.hostOk h /\
  -9087085 <= 2025 <= 9094732 /\
  calculateRamadanStart h 2025 = specRamadanStart 2025.
Proof.
  intros h.
  assert (Hh : Date.hostOk h) by (unfold Date.hostOk, Date.msPerDay; cbn; lia).
  split; [exact Hh | split; [lia | ]].
  apply (calculateRamadanStart_shift h 2025 Hh). lia.
Defined.

(** The range of years is exact: one year further on either side the date
    object is invalid. *)
Example calculateRamadanStart_range_is_exact :
  calculateRamadanStart (mkHost 0 0) 9094733 = "undefined NaN, 9094733" /\
  calculateRamadanStart (mkHost 0 0) (-9087086) = "undefined NaN, -9087086".
Proof. split; vm_compute; reflexivity. Qed.

(** C5 as stated fails on a year whose shifted day is outside the time range
    of Date: for the year 10000000 the date object is invalid and the code
    prints "undefined NaN", where the shifted calendar day is May 18. *)
Lemma calculateRamadanStart_out_of_range :
  calculateRamadanStart (mkHost 0 0) 10000000 = "undefined NaN, 10000000" /\
  specRamadanStart 10000000 = "May 18, 10000000" /\
  calculateRamadanStart (mkHost 0 0) 10000000 <> specRamadanStart 10000000.
Proof.
  assert (E1 : calculateRamadanStart (mkHost 0 0) 10000000
               = "undefined NaN, 10000000") by (vm_compute; reflexivity).
  assert (E2 : specRamadanStart 10000000 = "May 18, 10000000")
    by (vm_compute; reflexivity).
  split; [exact E1 | split; [exact E2 | ]].
  rewrite E1, E2. discriminate.
Qed.

(** ** The festival estimators *)

Section Festivals.

Variable h : Host.
Hypothesis h_ok : Date.hostOk h.

Lemma calculateDiwali_in_range (year : Z) :
  -271821 <= year <= 275759 ->
  calculateDiwali h year
  = specFestival year 9 15 (Math_floor (sin (IZR year) * 15)).
Proof.
  intros Hy.
  pose proof (floor_sin_bound (IZR year) 15 ltac:(lia)) as Ho.
  destruct (october_15_in_range year _ Hy Ho) as [Hb Hs].
  change (calculateDiwali h year)
    with (printMonthDay h
            (festivalDate h year 9 15 (Math_floor (sin (IZR year) * 15)))
            year).
  rewrite (estimator_in_range h h_ok _ _ _ _ _ Hb Hs).
  apply monthDayYear_after_february; cbn [Date.monthStart]; lia.
Qed.

Lemma calculateDiwali_out_of_range (year : Z) :
  year < -271821 \/ 275759 < year ->
  calculateDiwali h year = "undefined NaN, " ++ string_of_Z year.
Proof.
  intros Hy.
  apply (estimator_out_of_range h h_ok year 9 15).
  apply october_15_out_of_range. exact Hy.
Qed.

Lemma calculateNavratri_in_range (year : Z) :
  -271821 <= year <= 275759 ->
  calculateNavratri h year
  = specFestival year 8 20 (Math_floor (sin (IZR (year + 1)) * 10)).
Proof.
  intros Hy.
  pose proof (floor_sin_bound (IZR (year + 1)) 10 ltac:(lia)) as Ho.
  destruct (september_20_in_range year _ Hy Ho) as [Hb Hs].
  change (calculateNavratri h year)
    with (printMonthDay h
            (festivalDate h year 8 20
               (Math_floor (sin (IZR (year + 1)) * 10)))
            year).
  rewrite (estimator_in_range h h_ok _ _ _ _ _ Hb Hs).
  apply monthDayYear_after_february; cbn [Date.monthStart]; lia.
Qed.

Lemma calculateNavratri_out_of_range (year : Z) :
  year < -271821 \/ 275759 < year ->
  calculateNavratri h year = "undefined NaN, " ++ string_of_Z year.
Proof.
  intros Hy.
  apply (estimator_out_of_range h h_ok year 8 20).
  apply september_20_out_of_range. exact Hy.
Qed.

(** March 8 moved by up to 12 days can fall in February, where the day
    depends on the leap day; the years 0 to 99, which the Date constructor
    reads as 1900 to 1999, still print the day of their own calendar. *)
Lemma calculateHoli_in_range (year : Z) :
  -271820 <= year <= 275760 ->
  calculateHoli h year
  = specFestival year 2 8 (Math_floor (cos (IZR year) * 12)).
Proof.
  intros Hy.
  pose proof (floor_cos_bound (IZR year) 12 ltac:(lia)) as Ho.
  destruct (march_8_in_range year _ Hy Ho) as [Hb Hs].
  change (calculateHoli h year)
    with (printMonthDay h
            (festivalDate h year 2 8 (Math_floor (cos (IZR year) * 12)))
            year).
  rewrite (estimator_in_range h h_ok _ _ _ _ _ Hb Hs).
  unfold specFestival.
  destruct (constructorYear_cases year) as [[Hq E] | [_ E]]; rewrite E;
    [ | reflexivity ].
  destruct (Z.eq_dec year 0) as [-> | Hn].
  - rewrite floor_cos_0_times_12.
    apply monthDayYear_after_february; cbn [Date.monthStart]; lia.
  - apply monthDayYear_same_leap.
    + apply leapOf_two_digit. lia.
    + lia.
    + cbn [Date.monthStart]. destruct (leapOf_cases (1900 + year)); lia.
Qed.

Lemma calculateHoli_out_of_range (year : Z) :
  year < -271820 \/ 275760 < year ->
  calculateHoli h year = "undefined NaN, " ++ string_of_Z year.
Proof.
  intros Hy.
  apply (estimator_out_of_range h h_ok year 2 8).
  apply march_8_out_of_range. exact Hy.
Qed.

End Festivals.

(** Outside the time range the estimators print an invalid date. *)
Example calculateDiwali_year_300000 :
  calculateDiwali (mkHost 0 0) 300000 = "undefined NaN, 300000".
Proof.
  rewrite calculateDiwali_out_of_range.
  - reflexivity.
  - unfold Date.hostOk, Date.msPerDay. cbn. lia.
  - lia.
Qed.

(** C2, as the code has it: for every year from -271820 to 275759, the
    years whose base days are inside the time range of Date, [calculateDiwali]
    shifts October 15 of that year by [floor(sin(year) * 15)] days and
    [calculateHoli] shifts March 8 by [floor(cos(year) * 12)] days, while
    [calculateNavratri] shifts September 20 by [floor(sin(year + 1) * 10)]
    days; each prints the month name and day of the shifted day and the
    year. *)
Theorem festival_offsets (h : Host) (year : Z) :
  Date.hostOk h ->
  -271820 <= year <= 275759 ->
  calculateDiwali h year
  = specFestival year 9 15 (Math_floor (sin (IZR year) * 15)) /\
  calculateHoli h year
  = specFestival year 2 8 (Math_floor (cos (IZR year) * 12)) /\
  calculateNavratri h year
  = specFestival year 8 20 (Math_floor (sin (IZR (year + 1)) * 10)).
Proof.
  intros Hh Hy. split; [ | split ].
  - apply calculateDiwali_in_range; [exact Hh | lia].
  - apply calculateHoli_in_range; [exact Hh | lia].
  - apply calculateNavratri_in_range; [exact Hh | lia].
Qed.

Lemma festival_offsets_witness :
  let h := mkHost 3600000 0 in
  Date.hostOk h /\
  -271820 <= 2024 <= 275759 /\
  calculateDiwali h 2024
  = specFestival 2024 9 15 (Math_floor (sin (IZR 2024) * 15)) /\
  calculateHoli h 2024
  = specFestival 2024 2 8 (Math_floor (cos (IZR 2024) * 12)) /\
  calculateNavratri h 2024
  = specFestival 2024 8 20 (Math_floor (sin (IZR (2024 + 1)) * 10)).
Proof.
  intros h.
  assert (Hh : Date.hostOk h) by (unfold Date.hostOk, Date.msPerDay; cbn; lia).
  split; [exact Hh | split; [lia | ]].
  apply (festival_offsets h 2024 Hh). lia.
Defined.

(** C2 as stated fails for Navratri: in the year 0 the offset of the code is
    [floor(sin(1) * 10) = 8] and it prints September 28, where the offset
    [floor(sin(0) * 10) = 0] of the claim gives September 20. *)
Lemma calculateNavratri_year_0 :
  calculateNavratri (mkHost 0 0) 0 = "September 28, 0" /\
  specFestival 0 8 20 (Math_floor (sin (IZR 0) * 10)) = "September 20, 0" /\
  calculateNavratri (mkHost 0 0) 0
  <> specFestival 0 8 20 (Math_floor (sin (IZR 0) * 10)).
Proof.
  assert (E1 : calculateNavratri (mkHost 0 0) 0 = "September 28, 0").
  { change (calculateNavratri (mkHost 0 0) 0)
      with (printMonthDay (mkHost 0 0)
              (festivalDate (mkHost 0 0) 0 8 20
                 (Math_floor (sin (IZR 1) * 10)))
              0).
    rewrite floor_sin_1_times_10. vm_compute. reflexivity. }
  assert (E2 : specFestival 0 8 20 (Math_floor (sin (IZR 0) * 10))
               = "September 20, 0").
  { rewrite floor_sin_0_times_10. vm_compute. reflexivity. }
  split; [exact E1 | split; [exact E2 | ]].
  rewrite E1, E2. discriminate.
Qed.

(** C9: the three festival estimators depend on the year alone: on any two
    hosts, whatever their clocks and time zones, a call with the same year
    returns the same string. *)
Theorem festivals_deterministic (h1 h2 : Host) (year : Z) :
  Date.hostOk h1 -> Date.hostOk h2 ->
  calculateDiwali h1 year = calculateDiwali h2 year /\
  calculateHoli h1 year = calculateHoli h2 year /\
  calculateNavratri h1 year = calculateNavratri h2 year.
Proof.
  intros H1 H2. split; [ | split ].
  - destruct (Z_lt_le_dec year (-271821)) as [Hlo | Hlo];
      [ | destruct (Z_lt_le_dec 275759 year) as [Hhi | Hhi] ].
    + rewrite !calculateDiwali_out_of_range by (assumption || lia).
      reflexivity.
    + rewrite !calculateDiwali_out_of_range by (assumption || lia).
      reflexivity.
    + rewrite !calculateDiwali_in_range by (assumption || lia).
      reflexivity.
  - destruct (Z_lt_le_dec year (-271820)) as [Hlo | Hlo];
      [ | destruct (Z_lt_le_dec 275760 year) as [Hhi | Hhi] ].
    + rewrite !calculateHoli_out_of_range by (assumption || lia).
      reflexivity.
    + rewrite !calculateHoli_out_of_range by (assumption || lia).
      reflexivity.
    + rewrite !calculateHoli_in_range by (assumption || lia).
      reflexivity.
  - destruct (Z_lt_le_dec year (-271821)) as [Hlo | Hlo];
      [ | destruct (Z_lt_le_dec 275759 year) as [Hhi | Hhi] ].
    + rewrite !calculateNavratri_out_of_range by (assumption || lia).
      reflexivity.
    + rewrite !calculateNavratri_out_of_range by (assumption || lia).
      reflexivity.
    + rewrite !calculateNavratri_in_range by (assumption || lia).
      reflexivity.
Qed.

Lemma festivals_deterministic_witness :
  let h1 := mkHost 3600000 0 in
  let h2 := mkHost (-18000000) 1729000000000 in
  Date.hostOk h1 /\ Date.hostOk h2 /\
  calculateDiwali h1 2024 = calculateDiwali h2 2024 /\
  calculateHoli h1 2024 = calculateHoli h2 2024 /\
  calculateNavratri h1 2024 = calculateNavratri h2 2024.
Proof.
  intros h1 h2.
  assert (H1 : Date.hostOk h1) by (unfold Date.hostOk, Date.msPerDay; cbn; lia).
  assert (H2 : Date.hostOk h2) by (unfold Date.hostOk, Date.msPerDay; cbn; lia).
  split; [exact H1 | split; [exact H2 | ]].
  apply (festivals_deterministic h1 h2 2024 H1 H2).
Defined.

(** ** Cycles of the leap-year rules *)

Lemma sumFrom_succ (f : Z -> Z) (start : Z) (n : nat) :
  sumFrom f (start + 1) n = sumFrom f start n - f start + f (start + Z.of_nat n).
Proof.
  revert start. induction n as [ | n IH]; intros start.
  - cbn [sumFrom]. rewrite Z.add_0_r. lia.
  - cbn [sumFrom]. rewrite IH.
    replace (start + 1 + Z.of_nat n) with (start + Z.of_nat (S n)) by lia.
    lia.
Qed.

(** A total over one period does not depend on where a periodic function is
    summed from. *)
Lemma sumFrom_periodic (f : Z -> Z) (n : nat) (year : Z) :
  (forall y, 0 <= y -> f (y + Z.of_nat n) = f y) ->
  0 <= year -> sumFrom f year n = sumFrom f 0 n.
Proof.
  intros Hp. revert year. apply natlike_ind; [reflexivity | ].
  intros y Hy IH. unfold Z.succ. rewrite sumFrom_succ, Hp, IH by exact Hy.
  lia.
Qed.

Lemma rem_30_shift (year : Z) :
  year <= -30 \/ 0 <= year -> Z.rem (year + 30) 30 = Z.rem year 30.
Proof. intros H. Z.to_euclidean_division_equations. lia. Qed.

(** [isIslamicLeapYear] has period 30 on the years from 0 on and on the
    years up to -30. *)
Theorem isIslamicLeapYear_period_30 (year : Z) :
  year <= -30 \/ 0 <= year ->
  isIslamicLeapYear year = isIslamicLeapYear (year + 30).
Proof.
  intros H. unfold isIslamicLeapYear. cbv zeta.
  rewrite (rem_30_shift year H). reflexivity.
Qed.

Lemma isIslamicLeapYear_period_30_witness :
  (1446 <= -30 \/ 0 <= 1446) /\
  isIslamicLeapYear 1446 = isIslamicLeapYear (1446 + 30).
Proof.
  split; [right; lia | apply (isIslamicLeapYear_period_30 1446); right; lia].
Defined.

(** Any 30 consecutive years from a year 0 or later hold 11 leap years:
    10631 days in all. *)
Theorem islamic_cycle_days (year : Z) :
  0 <= year -> sumFrom getDaysInIslamicYear year 30 = 10631.
Proof.
  intros Hy. rewrite sumFrom_periodic; [reflexivity | | exact Hy].
  intros y Hy0. unfold getDaysInIslamicYear, isIslamicLeapYear. cbv zeta.
  change (Z.of_nat 30) with 30.
  rewrite rem_30_shift by (right; exact Hy0). reflexivity.
Qed.

Lemma islamic_cycle_days_witness :
  0 <= 1446 /\ sumFrom getDaysInIslamicYear 1446 30 = 10631.
Proof. split; [lia | apply (islamic_cycle_days 1446); lia]. Defined.

(** Any 19 consecutive years from a year 0 or later hold 7 leap years: 235
    months in all, the Metonic cycle. *)
Theorem hebrew_cycle_months (year : Z) :
  0 <= year -> sumFrom getMonthsInHebrewYear year 19 = 235.
Proof.
  intros Hy. rewrite sumFrom_periodic; [reflexivity | | exact Hy].
  intros y Hy0. unfold getMonthsInHebrewYear, isHebrewLeapYear. cbv zeta.
  change (Z.of_nat 19) with 19.
  rewrite rem_19_shift by (right; exact Hy0). reflexivity.
Qed.

Lemma hebrew_cycle_months_witness :
  0 <= 5785 /\ sumFrom getMonthsInHebrewYear 5785 19 = 235.
Proof. split; [lia | apply (hebrew_cycle_months 5785); lia]. Defined.

(** Below zero the cycle is lost: the 19 years from -19 on hold a single
    leap year for the code. *)
Example hebrew_cycle_below_zero :
  sumFrom getMonthsInHebrewYear (-19) 19 = 229.
Proof. reflexivity. Qed.

Lemma isGregorianLeapYear_DaysInYear (year : Z) :
  isGregorianLeapYear year = (Date.DaysInYear year =? 366).
Proof.
  unfold isGregorianLeapYear, Date.DaysInYear.
  assert (E4 : (Z.rem year 4 =? 0) = (year mod 4 =? 0)).
  { destruct (Z.eqb_spec (Z.rem year 4) 0), (Z.eqb_spec (year mod 4) 0);
      try reflexivity; exfalso; Z.to_euclidean_division_equations; lia. }
  assert (E100 : (Z.rem year 100 =? 0) = (year mod 100 =? 0)).
  { destruct (Z.eqb_spec (Z.rem year 100) 0), (Z.eqb_spec (year mod 100) 0);
      try reflexivity; exfalso; Z.to_euclidean_division_equations; lia. }
  assert (E400 : (Z.rem year 400 =? 0) = (year mod 400 =? 0)).
  { destruct (Z.eqb_spec (Z.rem year 400) 0), (Z.eqb_spec (year mod 400) 0);
      try reflexivity; exfalso; Z.to_euclidean_division_equations; lia. }
  rewrite E4, E100, E400.
  pose proof (mod_100_4 year); pose proof (mod_400_100 year).
  destruct (Z.eqb_spec (year mod 4) 0), (Z.eqb_spec (year mod 100) 0),
    (Z.eqb_spec (year mod 400) 0); cbn; try reflexivity; exfalso; auto.
Qed.

Lemma getDaysInGregorianYear_DaysInYear (year : Z) :
  getDaysInGregorianYear year = Date.DaysInYear year.
Proof.
  unfold getDaysInGregorianYear. rewrite isGregorianLeapYear_DaysInYear.
  destruct (DaysInYear_cases year) as [E | E]; rewrite E; reflexivity.
Qed.

(** [getDaysInGregorianYear] agrees with the calendar of the Date object on
    every integer year, negative years included: it is the number of days
    from 1 January of the year to 1 January of the next. *)
Theorem getDaysInGregorianYear_Date (year : Z) :
  getDaysInGregorianYear year
  = Date.MakeDay (year + 1) 0 1 - Date.MakeDay year 0 1.
Proof.
  rewrite !MakeDay_month by lia. cbn [Date.monthStart].
  rewrite DayFromYear_succ, getDaysInGregorianYear_DaysInYear. lia.
Qed.

Lemma sumFrom_DaysInYear (year : Z) (n : nat) :
  sumFrom getDaysInGregorianYear year n
  = Date.DayFromYear (year + Z.of_nat n) - Date.DayFromYear year.
Proof.
  revert year. induction n as [ | n IH]; intros year.
  - cbn [sumFrom]. rewrite Z.add_0_r. lia.
  - cbn [sumFrom]. rewrite IH.
    replace (year + 1 + Z.of_nat n) with (year + Z.of_nat (S n)) by lia.
    rewrite (DayFromYear_succ year), getDaysInGregorianYear_DaysInYear.
    lia.
Qed.

(** Any 400 consecutive years, wherever they start, hold 146097 days. *)
Theorem gregorian_cycle_days (year : Z) :
  sumFrom getDaysInGregorianYear year 400 = 146097.
Proof.
  rewrite sumFrom_DaysInYear. change (Z.of_nat 400) with 400.
  unfold Date.DayFromYear. Z.to_euclidean_division_equations. lia.
Qed.

(** On safe integers, where the doubles of the code compute the integer
    quotients (years from -9007199254740000 to 9007199254740000, so that
    the first year of the century and the year 400 later are safe too):
    the gap between the Julian and the Gregorian calendar is the same for
    the hundred years of a century, never shrinks as the years go by, and
    grows by 3 days every 400 years. *)
Theorem getJulianGregorianOffset_growth (year later : Z) :
  -9007199254740000 <= year -> year <= later -> later <= 9007199254740000 ->
  getJulianGregorianOffset (100 * (year / 100)) = getJulianGregorianOffset year
  /\ getJulianGregorianOffset year <= getJulianGregorianOffset later
  /\ getJulianGregorianOffset (year + 400) = getJulianGregorianOffset year + 3.
Proof.
  intros _ Hl _. unfold getJulianGregorianOffset. cbv zeta. repeat split.
  - rewrite (Z.mul_comm 100), Z.div_mul by discriminate. reflexivity.
  - assert (Hc : year / 100 <= later / 100)
      by (apply Z.div_le_mono; lia).
    destruct (Z.eq_dec (year / 100) (later / 100)) as [-> | Hne]; [lia | ].
    Z.to_euclidean_division_equations. lia.
  - Z.to_euclidean_division_equations. lia.
Qed.

Lemma getJulianGregorianOffset_growth_witness :
  -9007199254740000 <= 1582 /\ 1582 <= 2024 /\ 2024 <= 9007199254740000 /\
  getJulianGregorianOffset (100 * (1582 / 100)) = getJulianGregorianOffset 1582
  /\ getJulianGregorianOffset 1582 <= getJulianGregorianOffset 2024
  /\ getJulianGregorianOffset (1582 + 400) = getJulianGregorianOffset 1582 + 3.
Proof.
  split; [lia | split; [lia | split; [lia | ]]].
  apply (getJulianGregorianOffset_growth 1582 2024); lia.
Defined.

Example getJulianGregorianOffset_known :
  getJulianGregorianOffset 1582 = 10 /\ getJulianGregorianOffset 1900 = 13 /\
  getJulianGregorianOffset 2024 = 13 /\ getJulianGregorianOffset 2100 = 14.
Proof. repeat split; reflexivity. Qed.

(** ** Easter on any integer year *)

(** The Easter sequence on any integer year: the month is 2, 3 or 4 and the
    day lies in 1..31; month 2 only comes with day 31. *)
Lemma easterMonthDay_any_year (year : Z) :
  (fst (easterMonthDay year) = 2 /\ snd (easterMonthDay year) = 31 /\ year < 0
   \/ fst (easterMonthDay year) = 3 \/ fst (easterMonthDay year) = 4) /\
  1 <= snd (easterMonthDay year) <= 31.
Proof.
  destruct (Z_lt_le_dec year 0) as [Hneg | Hpos];
    [ | destruct (easterMonthDay_range year Hpos); tauto ].
  unfold easterMonthDay. cbv zeta. cbn [fst snd].
  set (a := Z.rem year 19).
  set (b := year / 100).
  set (c := Z.rem year 100).
  set (f := (b + 8) / 25).
  set (g := (b - f + 1) / 3).
  set (h := Z.rem (19 * a + b - b / 4 - g + 15) 30).
  set (e := Z.rem b 4).
  set (i := c / 4).
  set (k := Z.rem c 4).
  set (l := Z.rem (32 + 2 * e + 2 * i - h - k) 7).
  set (m := (a + 11 * h + 22 * l) / 451).
  assert (Ha : -18 <= a <= 0) by (subst a; Z.to_euclidean_division_equations; lia).
  assert (Hb : b < 0) by (subst b; Z.to_euclidean_division_equations; lia).
  assert (Hc : -99 <= c <= 0) by (subst c; Z.to_euclidean_division_equations; lia).
  assert (He : -3 <= e <= 0) by (subst e; Z.to_euclidean_division_equations; lia).
  assert (Hi : -25 <= i <= 0) by (subst i; Z.to_euclidean_division_equations; lia).
  assert (Hk : -3 <= k <= 0) by (subst k; Z.to_euclidean_division_equations; lia).
  assert (Hh : -29 <= h <= 29) by (subst h; Z.to_euclidean_division_equations; lia).
  assert (Hl : -6 <= l <= 6 /\ (l < 0 -> -23 <= h))
    by (subst l; Z.to_euclidean_division_equations; lia).
  assert (Hm : -2 <= m <= 1 /\ 451 * m <= a + 11 * h + 22 * l < 451 * m + 451)
    by (subst m; Z.to_euclidean_division_equations; lia).
  clearbody a b c f g h e i k l m.
  assert (HN : 92 <= h + l - 7 * m + 114 <= 154) by lia.
  Z.to_euclidean_division_equations. lia.
Qed.

(** For every integer year, negative years included, the lookup
    [monthNames[month - 1]] of [calculateEasterDate] is in bounds and the
    day is in 1..31.  The month is March or April, or, for some negative
    years only, February, and then the string is the impossible
    "February 31, <year>". *)
Theorem calculateEasterDate_any_year (year : Z) :
  exists (name : string) (day : Z),
    array_get monthNames (fst (easterMonthDay year) - 1) = Some name /\
    day = snd (easterMonthDay year) /\
    1 <= day <= 31 /\
    (name = "February" /\ day = 31 /\ year < 0
     \/ name = "March" \/ name = "April") /\
    calculateEasterDate year
    = name ++ " " ++ string_of_Z day ++ ", " ++ string_of_Z year.
Proof.
  destruct (easterMonthDay_any_year year) as [Hm Hd].
  unfold calculateEasterDate.
  destruct (easterMonthDay year) as [mo da] eqn:E. cbn [fst snd] in *.
  destruct Hm as [[-> [-> Hy]] | [-> | ->]].
  - exists "February", 31. repeat split; auto; lia.
  - exists "March", da. repeat split; auto; lia.
  - exists "April", da. repeat split; auto; lia.
Qed.

Example calculateEasterDate_february_31 :
  calculateEasterDate (-1552) = "February 31, -1552".
Proof. vm_compute. reflexivity. Qed.

(** ** The Hindu and Islamic conversions *)

(** For a date with year [y], 0-indexed month [m] in 0..11 and day [d],
    [gregorianToHindu] returns "<d> <monthName> <y + 57> (Vikram Samvat)"
    where [monthName] is entry [(m + 10) mod 12], an index inside the
    cycle, of the twelve Hindu month names. *)
Theorem gregorianToHindu_format (h : Host) (date : Date.t) (y m d : Z) :
  Date.getFullYear h date = Int y ->
  Date.getMonth h date = Int m ->
  Date.getDate h date = Int d ->
  0 <= m <= 11 ->
  (Z.to_nat ((m + 10) mod 12) < List.length hinduMonths)%nat /\
  gregorianToHindu h date
  = string_of_Z d ++ " "
      ++ nth (Z.to_nat ((m + 10) mod 12)) hinduMonths "undefined" ++ " "
      ++ string_of_Z (y + 57) ++ " (Vikram Samvat)".
Proof.
  intros Hy Hm Hd Hmr.
  unfold gregorianToHindu, hinduMonthIndex. cbv zeta.
  rewrite Hy, Hm, Hd. cbn [lift1 ToString array_get_num].
  assert (m = 0 \/ m = 1 \/ m = 2 \/ m = 3 \/ m = 4 \/ m = 5 \/ m = 6 \/
          m = 7 \/ m = 8 \/ m = 9 \/ m = 10 \/ m = 11) as Hc by lia.
  repeat (destruct Hc as [-> | Hc]; [split; [cbn; lia | reflexivity] | ]).
  subst m. split; [cbn; lia | reflexivity].
Qed.

Lemma gregorianToHindu_format_witness :
  let h := mkHost 3600000 0 in
  let date := Int 1729000000000 in
  Date.getFullYear h date = Int 2024 /\
  Date.getMonth h date = Int 9 /\
  Date.getDate h date = Int 15 /\
  0 <= 9 <= 11 /\
  gregorianToHindu h date
  = string_of_Z 15 ++ " "
      ++ nth (Z.to_nat ((9 + 10) mod 12)) hinduMonths "undefined" ++ " "
      ++ string_of_Z (2024 + 57) ++ " (Vikram Samvat)".
Proof.
  intros h date.
  assert (Hy : Date.getFullYear h date = Int 2024) by reflexivity.
  assert (Hm : Date.getMonth h date = Int 9) by reflexivity.
  assert (Hd : Date.getDate h date = Int 15) by reflexivity.
  split; [exact Hy | split; [exact Hm | split; [exact Hd | split; [lia | ]]]].
  apply (gregorianToHindu_format h date 2024 9 15 Hy Hm Hd); lia.
Defined.

(** On an invalid Date no function fails: [getSeason] answers 'Winter' and
    the three conversions print "NaN" for the numbers and "undefined" for
    the month. *)
Theorem invalid_date_results (h : Host) :
  getSeason h NaN = "Winter" /\
  gregorianToHebrew h NaN = "NaN undefined NaN" /\
  gregorianToHindu h NaN = "NaN undefined NaN (Vikram Samvat)" /\
  gregorianToIslamic h NaN = "NaN undefined NaN AH".
Proof. repeat split; reflexivity. Qed.

(** Rounding to 53 bits moves an integer below 2^70 by 2^16 at most. *)
Lemma round53_near (n : Z) :
  Z.abs n < 2 ^ 70 -> Z.abs (round53 n - n) <= 2 ^ 16.
Proof.
  intros Hn. unfold round53. cbv zeta.
  set (a := Z.abs n) in *. set (s := Z.log2 a - 52).
  destruct (Z.leb_spec s 0) as [Hs | Hs].
  - rewrite Z.sub_diag. cbn. lia.
  - assert (Ha : 0 < a).
    { destruct (Z.eq_dec a 0) as [E | ]; [ | unfold a in *; lia].
      unfold s in Hs. rewrite E in Hs. cbn in Hs. lia. }
    assert (Hl : Z.log2 a < 70) by (apply Z.log2_lt_pow2; assumption).
    assert (Hp : 0 < 2 ^ (s - 1) <= 2 ^ 16).
    { split; [apply Z.pow_pos_nonneg; lia | ].
      apply Z.pow_le_mono_r; unfold s; lia. }
    assert (E2 : 2 ^ s = 2 * 2 ^ (s - 1)).
    { rewrite <- Z.pow_succ_r by lia. f_equal. lia. }
    rewrite Z.shiftr_div_pow2 by lia.
    pose proof (Z.div_mod a (2 ^ s) ltac:(lia)) as Hd.
    pose proof (Z.mod_pos_bound a (2 ^ s) ltac:(lia)) as Hr.
    set (q := a / 2 ^ s) in *. set (r := a mod 2 ^ s) in *.
    set (half := 2 ^ (s - 1)) in *. set (X := 2 ^ s) in *.
    assert (Hq : Z.abs ((if (half <? r) || ((r =? half) && Z.odd q)
                         then q + 1 else q) * X - a) <= half).
    { destruct (Z.ltb_spec half r); cbn [orb]; [lia | ].
      destruct (Z.eqb_spec r half); cbn [andb]; [ | lia].
      destruct (Z.odd q); lia. }
    set (q' := if (half <? r) || ((r =? half) && Z.odd q) then q + 1 else q)
      in *.
    change (2 ^ 16) with 65536 in *.
    unfold a in Hq.
    destruct (Z.sgn_spec n) as [[H0 E] | [[H0 E] | [H0 E]]]; rewrite E; lia.
Qed.

(** The year of [gregorianToIslamic] on the years a Date can have: the
    integer part of (year - 622) * 1.030684, plus one, except at 250622,
    where the product is the integer 257671 and the double falls below
    it.  The double 1.030684 is 18704 / (250000 * 2^50) below 257671 /
    250000, and any other product is 1/250000 away from an integer. *)
Lemma islamicYear_closed_form (y : Z) :
  -271821 <= y <= 275760 ->
  islamicYear y
  = if y =? 250622 then 257671 else (y - 622) * 1030684 / 1000000 + 1.
Proof.
  intros Hy.
  destruct (Z.eq_dec y 250622) as [-> | H1]; [reflexivity | ].
  destruct (Z.eq_dec y 622) as [-> | H2]; [reflexivity | ].
  destruct (Z.eq_dec y (-249378)) as [-> | H3]; [reflexivity | ].
  destruct (Z.eqb_spec y 250622); [contradiction | ].
  unfold islamicYear. f_equal.
  set (k := y - 622) in *.
  pose proof (round53_near (k * 1160447019584183)
                ltac:(change (2 ^ 70) with 1180591620717411303424; lia))
    as Hr.
  change (2 ^ 16) with 65536 in Hr.
  set (r := round53 (k * 1160447019584183)) in *.
  pose proof (Z.div_mod (k * 257671) 250000 ltac:(lia)) as Hd.
  pose proof (Z.mod_pos_bound (k * 257671) 250000 ltac:(lia)) as Hm.
  assert (Hne : (k * 257671) mod 250000 <> 0).
  { intros E. apply Z.mod_divide in E; [ | lia].
    rewrite Z.mul_comm in E.
    destruct (Z.gauss _ _ _ E eq_refl) as [c Hc].
    unfold k in *. lia. }
  set (q := k * 257671 / 250000) in *.
  set (m := (k * 257671) mod 250000) in *.
  change (2 ^ 50) with 1125899906842624.
  assert (Eq1 : k * 1030684 / 1000000 = q).
  { symmetry. apply (Z.div_unique _ _ _ (4 * m)); lia. }
  rewrite Eq1.
  symmetry. apply (Z.div_unique _ _ q (r - q * 1125899906842624)); lia.
Qed.

Example islamicYear_known :
  islamicYear 2024 = 1446 /\ islamicYear 622 = 1 /\ islamicYear 50 = -589 /\
  islamicYear 250622 = 257671.
Proof. repeat split; reflexivity. Qed.

(** The year of a time value in the time range, moved by less than a
    day. *)
Lemma YearFromTime_in_range (t : Z) :
  Z.abs t < Date.maxTimeValue + Date.msPerDay ->
  -271821 <= Date.YearFromTime t <= 275760.
Proof.
  intros Ht. pose proof (YearFromTime_spec t) as Hs.
  assert (Hd : -100000001 <= Date.Day t <= 100000000).
  { unfold Date.Day, Date.maxTimeValue, Date.msPerDay in *.
    Z.to_euclidean_division_equations. lia. }
  split.
  - destruct (Z_lt_le_dec (Date.YearFromTime t) (-271821)) as [Hlt | ];
      [ | assumption].
    pose proof (DayFromYear_mono (Date.YearFromTime t + 1) (-271821)
                  ltac:(lia)) as Hm.
    change (Date.DayFromYear (-271821)) with (-100000109) in Hm. lia.
  - destruct (Z_lt_le_dec 275760 (Date.YearFromTime t)) as [Hlt | ];
      [ | assumption].
    pose proof (DayFromYear_mono 275761 (Date.YearFromTime t) ltac:(lia))
      as Hm.
    change (Date.DayFromYear 275761) with 100000110 in Hm. lia.
Qed.

(** The month index and the day that a day of the year from 0 to 367
    gives. *)
Lemma islamic_fields (n : Z) :
  0 <= n <= 367 ->
  0 <= n mod 354 /\
  0 <= (2 * (n mod 354)) mod 59 /\
  0 <= (2 * (n mod 354)) / 59 <= 11 /\
  1 <= (2 * (n mod 354)) mod 59 / 2 + 1 <= 30 /\
  (354 <= n ->
   (2 * (n mod 354)) / 59 = 0 /\ (2 * (n mod 354)) mod 59 / 2 + 1 = n - 353).
Proof.
  intros Hn. Z.to_euclidean_division_equations. lia.
Qed.

Lemma islamicMonths_get (k : Z) :
  0 <= k <= 11 ->
  exists name,
    array_get islamicMonths k = Some name /\
    array_get ["Muharram"; "Safar"; "Rabi' al-Awwal"; "Rabi' al-Thani";
               "Jumada al-Awwal"; "Jumada al-Thani"; "Rajab"; "Sha'ban";
               "Ramadan"; "Shawwal"; "Dhu al-Qi'dah"; "Dhu al-Hijjah"] k
    = Some name.
Proof.
  intros Hk.
  assert (k = 0 \/ k = 1 \/ k = 2 \/ k = 3 \/ k = 4 \/ k = 5 \/ k = 6 \/
          k = 7 \/ k = 8 \/ k = 9 \/ k = 10 \/ k = 11) as Hc by lia.
  repeat (destruct Hc as [-> | Hc];
          [eexists; split; reflexivity | ]).
  subst k. eexists; split; reflexivity.
Qed.

(** For a valid date of a year after -271821 and outside 0..99, in a zone
    with or without daylight saving whose offsets are below a day and
    differ by a day at most: [gregorianToIslamic] works from the day of
    the year [n], which is the true one (1 for 1 January) when the offset
    at the date is the one at the start of the year, one less in the first
    [shift] milliseconds of a day when the offset has grown by [shift]
    (summer time), and one more in the last [- shift] milliseconds when it
    has shrunk.  It prints "<day> <month> <year> AH" with a day from 1 to
    30, entry [(2 * (n mod 354)) / 59] of the twelve Islamic month names,
    and the year [islamicYear]; the days of the year from the 354th on
    start again at 1 Muharram. *)
Theorem gregorianToIslamic_well_formed (z : Zone) (tv y : Z) :
  let off := TZA z tv true in
  let off0 := TZA z (Date.MakeDate (Date.MakeDay y 0 0) 0) false in
  let shift := off - off0 in
  Z.abs off < Date.msPerDay -> Z.abs off0 < Date.msPerDay ->
  Z.abs shift <= Date.msPerDay ->
  Z.abs tv <= Date.maxTimeValue ->
  getFullYearIn z (Int tv) = Int y ->
  y < 0 \/ 99 < y -> -271821 < y ->
  let time := Date.TimeWithinDay (tv + off) in
  let trueDay := Date.Day (tv + off) - Date.MakeDay y 0 1 + 1 in
  let n := trueDay + (time - shift) / Date.msPerDay in
  let day := (2 * (n mod 354)) mod 59 / 2 + 1 in
  1 <= trueDay <= 366 /\
  islamicDayOfYear z (Int tv) = Int n /\
  (shift = 0 -> n = trueDay) /\
  (0 < shift -> n = if time <? shift then trueDay - 1 else trueDay) /\
  (shift < 0 ->
   n = if time <? Date.msPerDay + shift then trueDay else trueDay + 1) /\
  1 <= day <= 30 /\
  islamicYear y
  = (if y =? 250622 then 257671 else (y - 622) * 1030684 / 1000000 + 1) /\
  exists name : string,
    array_get ["Muharram"; "Safar"; "Rabi' al-Awwal"; "Rabi' al-Thani";
               "Jumada al-Awwal"; "Jumada al-Thani"; "Rajab"; "Sha'ban";
               "Ramadan"; "Shawwal"; "Dhu al-Qi'dah"; "Dhu al-Hijjah"]
      ((2 * (n mod 354)) / 59) = Some name /\
    (354 <= n -> name = "Muharram" /\ day = n - 353) /\
    gregorianToIslamic z (Int tv)
    = string_of_Z day ++ " " ++ name ++ " "
        ++ string_of_Z (islamicYear y) ++ " AH".
Proof.
  intros off off0 shift Ho Ho0 Hsh Hv Hy Hq Hlo time trueDay n day.
  cbn [getFullYearIn lift1] in Hy. injection Hy as Hy. fold off in Hy.
  pose proof (islamicDayOfYear_exact z tv y Ho Ho0 Hv Hy Hq Hlo) as Hn.
  cbv zeta in Hn. fold off off0 in Hn. fold shift time in Hn.
  pose proof (DayWithinYear_range (tv + off)) as Hw.
  rewrite Hy in Hw. pose proof (DaysInYear_cases y) as Hd.
  assert (Ht : 0 <= time < Date.msPerDay)
    by (apply Z.mod_pos_bound; reflexivity).
  assert (En : Date.DayWithinYear (tv + off) + 1 = trueDay).
  { unfold trueDay, Date.DayWithinYear. rewrite Hy, MakeDay_month by lia.
    cbn [Date.monthStart]. lia. }
  rewrite En in Hn. fold n in Hn.
  assert (Hr : 1 <= trueDay <= 366) by lia.
  assert (Hyr : -271821 <= y <= 275760).
  { rewrite <- Hy. apply YearFromTime_in_range.
    unfold Date.msPerDay, Date.maxTimeValue in *. lia. }
  assert (Hcases :
            (shift = 0 -> (time - shift) / Date.msPerDay = 0) /\
            (0 < shift ->
             (time - shift) / Date.msPerDay
             = if time <? shift then -1 else 0) /\
            (shift < 0 ->
             (time - shift) / Date.msPerDay
             = if time <? Date.msPerDay + shift then 0 else 1)).
  { clear - Ht Hsh. unfold Date.msPerDay in *.
    split; [ | split ]; intros H.
    - apply Z.div_small. lia.
    - destruct (Z.ltb_spec time shift).
      + symmetry. apply (Z.div_unique _ _ _ (time - shift + 86400000)); lia.
      + apply Z.div_small. lia.
    - destruct (Z.ltb_spec time (86400000 + shift)).
      + apply Z.div_small. lia.
      + symmetry. apply (Z.div_unique _ _ _ (time - shift - 86400000)); lia. }
  destruct Hcases as [C0 [C1 C2]].
  assert (Hn0 : 0 <= n <= 367).
  { unfold n. destruct (Z.lt_trichotomy shift 0) as [H | [H | H]].
    - rewrite (C2 H). destruct (time <? Date.msPerDay + shift); lia.
    - rewrite (C0 H). lia.
    - rewrite (C1 H). destruct (time <? shift); lia. }
  destruct (islamic_fields n Hn0) as [F0 [F1 [Hk [Hday Hlate]]]].
  destruct (islamicMonths_get _ Hk) as [name [Hget Hlit]].
  split; [exact Hr | split; [exact Hn | ]].
  split; [ | split; [ | split ]].
  - intros E. unfold n. rewrite (C0 E). lia.
  - intros Hpos. unfold n. rewrite (C1 Hpos).
    destruct (time <? shift); lia.
  - intros Hneg. unfold n. rewrite (C2 Hneg).
    destruct (time <? Date.msPerDay + shift); lia.
  - split; [exact Hday | split; [apply islamicYear_closed_form; exact Hyr | ]].
    exists name. split; [exact Hlit | split].
    + intros H354. destruct (Hlate H354) as [E0 E1].
      rewrite E0 in Hlit. cbn in Hlit. injection Hlit as <-.
      split; [reflexivity | exact E1].
    + unfold gregorianToIslamic, islamicMonthIndex, getFullYearIn.
      cbv zeta. rewrite Hn. cbn [lift1 array_get_num ToString].
      fold off. rewrite Hy.
      rewrite (Z.rem_mod_nonneg n 354) by lia.
      rewrite (Z.rem_mod_nonneg (2 * (n mod 354)) 59) by lia.
      rewrite (Z.rem_small ((2 * (n mod 354)) / 59) 12) by lia.
      rewrite Hget. reflexivity.
Qed.

Lemma gregorianToIslamic_well_formed_witness :
  let z := newYork2024 in
  let tv := 1719806400000 in
  Z.abs (-14400000) < Date.msPerDay /\ Z.abs (-18000000) < Date.msPerDay /\
  Z.abs (-14400000 - -18000000) <= Date.msPerDay /\
  Z.abs tv <= Date.maxTimeValue /\
  getFullYearIn z (Int tv) = Int 2024 /\
  Date.MonthFromTime (tv + TZA z tv true) = 6 /\
  Date.DateFromTime (tv + TZA z tv true) = 1 /\
  Date.Day (tv + TZA z tv true) - Date.MakeDay 2024 0 1 + 1 = 183 /\
  islamicDayOfYear z (Int tv) = Int 182 /\
  gregorianToIslamic z (Int tv) = "6 Rajab 1446 AH".
Proof.
  intros z tv.
  assert (Ho : Z.abs (-14400000) < Date.msPerDay)
    by (unfold Date.msPerDay; lia).
  assert (Ho0 : Z.abs (-18000000) < Date.msPerDay)
    by (unfold Date.msPerDay; lia).
  assert (Hsh : Z.abs (-14400000 - -18000000) <= Date.msPerDay)
    by (unfold Date.msPerDay; lia).
  assert (Hv : Z.abs tv <= Date.maxTimeValue)
    by (unfold tv, Date.maxTimeValue; lia).
  assert (Hy : getFullYearIn z (Int tv) = Int 2024) by reflexivity.
  split; [exact Ho | split; [exact Ho0 | split; [exact Hsh | ]]].
  split; [exact Hv | split; [exact Hy | ]].
  split; [reflexivity | split; [reflexivity | split; [reflexivity | ]]].
  destruct (gregorianToIslamic_well_formed z tv 2024 Ho Ho0 Hsh Hv Hy
              ltac:(lia) ltac:(lia)) as [_ [Hn _]].
  split; [exact Hn | reflexivity].
Defined.

(** ** The windows of the estimators *)

(** A day from March on, read off the tables of a common year. *)
Lemma specFestival_after_february (year m d off : Z) :
  2 <= m <= 11 ->
  59 <= Date.monthStart m 0 + d - 1 + off < 365 ->
  specFestival year m d off
  = show (array_get monthNames
            (Date.monthOfYearDay (Date.monthStart m 0 + d - 1 + off) 0))
      ++ " "
      ++ string_of_Z (Date.dateOfYearDay (Date.monthStart m 0 + d - 1 + off) 0)
      ++ ", " ++ string_of_Z year.
Proof.
  intros Hm Hw. unfold specFestival, monthDayYear.
  destruct (shiftedDay_fields year m d off) as [E1 E2].
  - lia.
  - rewrite DaysInYear_leapOf, monthStart_after_february by exact Hm.
    destruct (leapOf_cases year); lia.
  - rewrite E1, E2, monthStart_after_february by exact Hm.
    replace (Date.monthStart m 0 + leapOf year + d - 1 + off)
      with (Date.monthStart m 0 + d - 1 + off + leapOf year) by lia.
    destruct (tables_after_february (Date.monthStart m 0 + d - 1 + off)
                (leapOf year) (leapOf_cases year) ltac:(lia)) as [-> ->].
    reflexivity.
Qed.

Lemma month_8_table (w : Z) :
  243 <= w < 273 ->
  Date.monthOfYearDay w 0 = 8 /\ Date.dateOfYearDay w 0 = w - 242.
Proof.
  intros Hw. unfold Date.dateOfYearDay, Date.monthOfYearDay.
  repeat match goal with
         | |- context [?a <? ?b] => destruct (Z.ltb_spec a b); try lia
         end.
Qed.

Lemma month_9_table (w : Z) :
  273 <= w < 304 ->
  Date.monthOfYearDay w 0 = 9 /\ Date.dateOfYearDay w 0 = w - 272.
Proof.
  intros Hw. unfold Date.dateOfYearDay, Date.monthOfYearDay.
  repeat match goal with
         | |- context [?a <? ?b] => destruct (Z.ltb_spec a b); try lia
         end.
Qed.

Lemma month_2_table (w : Z) :
  59 <= w < 90 ->
  Date.monthOfYearDay w 0 = 2 /\ Date.dateOfYearDay w 0 = w - 58.
Proof.
  intros Hw. unfold Date.dateOfYearDay, Date.monthOfYearDay.
  repeat match goal with
         | |- context [?a <? ?b] => destruct (Z.ltb_spec a b); try lia
         end.
Qed.

Lemma month_1_table (w leap : Z) :
  31 <= w < 59 + leap ->
  Date.monthOfYearDay w leap = 1 /\ Date.dateOfYearDay w leap = w - 30.
Proof.
  intros Hw. unfold Date.dateOfYearDay, Date.monthOfYearDay.
  repeat match goal with
         | |- context [?a <? ?b] => destruct (Z.ltb_spec a b); try lia
         end.
Qed.

(** In the time range [calculateDiwali] lands from 30 September to
    30 October: "October <15 + offset>", or "September 30" for the offset
    -15; it never names November. *)
Theorem calculateDiwali_window (h : Host) (year : Z) :
  Date.hostOk h -> -271821 <= year <= 275759 ->
  let offset := Math_floor (sin (IZR year) * 15) in
  -15 <= offset <= 15 /\
  calculateDiwali h year
  = (if offset =? -15 then "September 30"
     else "October " ++ string_of_Z (15 + offset))
      ++ ", " ++ string_of_Z year.
Proof.
  intros Hh Hy offset.
  pose proof (floor_sin_bound (IZR year) 15 ltac:(lia)) as Ho.
  fold offset in Ho. split; [exact Ho | ].
  rewrite (calculateDiwali_in_range h Hh year Hy). fold offset.
  rewrite specFestival_after_february by (cbn [Date.monthStart]; lia).
  cbn [Date.monthStart].
  destruct (Z.eqb_spec offset (-15)) as [-> | Hne].
  - reflexivity.
  - destruct (month_9_table (273 + 0 + 15 - 1 + offset) ltac:(lia))
      as [-> ->].
    replace (273 + 0 + 15 - 1 + offset - 272) with (15 + offset) by lia.
    reflexivity.
Qed.

Lemma calculateDiwali_window_witness :
  let h := mkHost 3600000 0 in
  Date.hostOk h /\ -271821 <= 2024 <= 275759 /\
  let offset := Math_floor (sin (IZR 2024) * 15) in
  -15 <= offset <= 15 /\
  calculateDiwali h 2024
  = (if offset =? -15 then "September 30"
     else "October " ++ string_of_Z (15 + offset))
      ++ ", " ++ string_of_Z 2024.
Proof.
  intros h.
  assert (Hh : Date.hostOk h) by (unfold Date.hostOk, Date.msPerDay; cbn; lia).
  split; [exact Hh | split; [lia | ]].
  apply (calculateDiwali_window h 2024 Hh). lia.
Defined.

(** In the time range [calculateNavratri] always lands in September:
    "September <20 + offset>", from the 10th to the 30th. *)
Theorem calculateNavratri_window (h : Host) (year : Z) :
  Date.hostOk h -> -271821 <= year <= 275759 ->
  let offset := Math_floor (sin (IZR (year + 1)) * 10) in
  -10 <= offset <= 10 /\
  calculateNavratri h year
  = "September " ++ string_of_Z (20 + offset) ++ ", " ++ string_of_Z year.
Proof.
  intros Hh Hy offset.
  pose proof (floor_sin_bound (IZR (year + 1)) 10 ltac:(lia)) as Ho.
  fold offset in Ho. split; [exact Ho | ].
  rewrite (calculateNavratri_in_range h Hh year Hy). fold offset.
  rewrite specFestival_after_february by (cbn [Date.monthStart]; lia).
  cbn [Date.monthStart].
  destruct (month_8_table (243 + 0 + 20 - 1 + offset) ltac:(lia))
    as [-> ->].
  replace (243 + 0 + 20 - 1 + offset - 242) with (20 + offset) by lia.
  reflexivity.
Qed.

Lemma calculateNavratri_window_witness :
  let h := mkHost 3600000 0 in
  Date.hostOk h /\ -271821 <= 2024 <= 275759 /\
  let offset := Math_floor (sin (IZR (2024 + 1)) * 10) in
  -10 <= offset <= 10 /\
  calculateNavratri h 2024
  = "September " ++ string_of_Z (20 + offset) ++ ", " ++ string_of_Z 2024.
Proof.
  intros h.
  assert (Hh : Date.hostOk h) by (unfold Date.hostOk, Date.msPerDay; cbn; lia).
  split; [exact Hh | split; [lia | ]].
  apply (calculateNavratri_window h 2024 Hh). lia.
Defined.

Lemma leapOf_isGregorianLeapYear (year : Z) :
  leapOf year = if isGregorianLeapYear year then 1 else 0.
Proof. unfold leapOf. rewrite isGregorianLeapYear_DaysInYear. reflexivity. Qed.

(** In the time range [calculateHoli] lands from late February to
    20 March: "March <8 + offset>" for an offset from -7 on, and for the
    offsets -12 to -8 a day of February that counts the leap day of
    [isGregorianLeapYear]: 29 February is "February 29" in a leap year,
    "February 28" otherwise. *)
Theorem calculateHoli_window (h : Host) (year : Z) :
  Date.hostOk h -> -271820 <= year <= 275760 ->
  let offset := Math_floor (cos (IZR year) * 12) in
  let leap := if isGregorianLeapYear year then 1 else 0 in
  -12 <= offset <= 12 /\
  calculateHoli h year
  = (if offset <? -7 then "February " ++ string_of_Z (36 + leap + offset)
     else "March " ++ string_of_Z (8 + offset))
      ++ ", " ++ string_of_Z year.
Proof.
  intros Hh Hy offset leap.
  pose proof (floor_cos_bound (IZR year) 12 ltac:(lia)) as Ho.
  fold offset in Ho. split; [exact Ho | ].
  rewrite (calculateHoli_in_range h Hh year Hy). fold offset.
  destruct (Z.ltb_spec offset (-7)) as [Hlt | Hge].
  - unfold specFestival, monthDayYear.
    pose proof (leapOf_cases year) as Hl.
    destruct (shiftedDay_fields year 2 8 offset ltac:(lia)) as [E1 E2].
    { rewrite DaysInYear_leapOf. cbn [Date.monthStart]. lia. }
    rewrite E1, E2. cbn [Date.monthStart].
    destruct (month_1_table (59 + leapOf year + 8 - 1 + offset) (leapOf year)
                ltac:(lia)) as [-> ->].
    unfold leap. rewrite <- leapOf_isGregorianLeapYear.
    replace (59 + leapOf year + 8 - 1 + offset - 30)
      with (36 + leapOf year + offset) by lia.
    reflexivity.
  - rewrite specFestival_after_february by (cbn [Date.monthStart]; lia).
    cbn [Date.monthStart].
    destruct (month_2_table (59 + 0 + 8 - 1 + offset) ltac:(lia))
      as [-> ->].
    replace (59 + 0 + 8 - 1 + offset - 58) with (8 + offset) by lia.
    reflexivity.
Qed.

Lemma calculateHoli_window_witness :
  let h := mkHost 3600000 0 in
  Date.hostOk h /\ -271820 <= 2024 <= 275760 /\
  let offset := Math_floor (cos (IZR 2024) * 12) in
  let leap := if isGregorianLeapYear 2024 then 1 else 0 in
  -12 <= offset <= 12 /\
  calculateHoli h 2024
  = (if offset <? -7 then "February " ++ string_of_Z (36 + leap + offset)
     else "March " ++ string_of_Z (8 + offset))
      ++ ", " ++ string_of_Z 2024.
Proof.
  intros h.
  assert (Hh : Date.hostOk h) by (unfold Date.hostOk, Date.msPerDay; cbn; lia).
  split; [exact Hh | split; [lia | ]].
  apply (calculateHoli_window h 2024 Hh). lia.
Defined.

(** Outside the time range of Date every estimator prints an invalid date:
    "undefined NaN, <year>". *)
Theorem estimators_out_of_range (h : Host) (year : Z) :
  Date.hostOk h ->
  (year < -271821 \/ 275759 < year ->
   calculateDiwali h year = "undefined NaN, " ++ string_of_Z year) /\
  (year < -271820 \/ 275760 < year ->
   calculateHoli h year = "undefined NaN, " ++ string_of_Z year) /\
  (year < -271821 \/ 275759 < year ->
   calculateNavratri h year = "undefined NaN, " ++ string_of_Z year).
Proof.
  intros Hh. repeat split; intros Hy.
  - apply calculateDiwali_out_of_range; assumption.
  - apply calculateHoli_out_of_range; assumption.
  - apply calculateNavratri_out_of_range; assumption.
Qed.

Lemma estimators_out_of_range_witness :
  let h := mkHost 3600000 0 in
  Date.hostOk h /\
  calculateDiwali h 275760 = "undefined NaN, 275760" /\
  calculateHoli h 275761 = "undefined NaN, 275761" /\
  calculateNavratri h (-271822) = "undefined NaN, -271822".
Proof.
  intros h.
  assert (Hh : Date.hostOk h) by (unfold Date.hostOk, Date.msPerDay; cbn; lia).
  split; [exact Hh | ].
  destruct (estimators_out_of_range h 275760 Hh) as [H1 _].
  destruct (estimators_out_of_range h 275761 Hh) as [_ [H2 _]].
  destruct (estimators_out_of_range h (-271822) Hh) as [_ [_ H3]].
  split; [apply H1; lia | split; [apply H2; lia | apply H3; lia]].
Defined.

(** The festival date when the base day is in the time range and the
    shifted day is not. *)
Lemma festivalDate_shift_out_of_range (h : Host) (year month date offset : Z) :
  Date.hostOk h ->
  Z.abs (Date.MakeDay (constructorYear year) month date) < 100000000 ->
  100000000 < Z.abs (Date.MakeDay (constructorYear year) month date + offset) ->
  festivalDate h year month date offset = NaN.
Proof.
  intros Hh Hb Hs. unfold festivalDate. cbv zeta.
  rewrite make_Int, (TimeClip_in _ (local_day_in_range h _ Hh Hb)).
  cbn [Date.getDate lift1 lift2]. rewrite setDate_Int.
  apply TimeClip_out.
  pose proof (local_day_out_of_range h _ Hh Hs) as Hr.
  unfold Date.UTC, Date.MakeDate in *. lia.
Qed.

(** Outside the years -9087085 to 9094732 the shifted day leaves the time
    range of Date and [calculateRamadanStart] prints an invalid date:
    "undefined NaN, <gregorianYear>". *)
Theorem calculateRamadanStart_invalid (h : Host) (gregorianYear : Z) :
  Date.hostOk h ->
  gregorianYear < -9087085 \/ 9094732 < gregorianYear ->
  calculateRamadanStart h gregorianYear
  = "undefined NaN, " ++ string_of_Z gregorianYear.
Proof.
  intros Hh Hy. rewrite calculateRamadanStart_festivalDate.
  rewrite festivalDate_shift_out_of_range.
  - apply printMonthDay_NaN.
  - exact Hh.
  - change (Date.MakeDay (constructorYear 2024) 2 10) with 19792. lia.
  - change (Date.MakeDay (constructorYear 2024) 2 10) with 19792. lia.
Qed.

Lemma calculateRamadanStart_invalid_witness :
  let h := mkHost (-18000000) 0 in
  Date.hostOk h /\
  (20000000 < -9087085 \/ 9094732 < 20000000) /\
  calculateRamadanStart h 20000000 = "undefined NaN, " ++ string_of_Z 20000000.
Proof.
  intros h.
  assert (Hh : Date.hostOk h) by (unfold Date.hostOk, Date.msPerDay; cbn; lia).
  split; [exact Hh | split; [right; lia | ]].
  apply (calculateRamadanStart_invalid h 20000000 Hh). right. lia.
Defined.

(** ** Reading back a printed integer *)

Lemma parseDigits_uint (acc : Z) (d : Decimal.uint) :
  parseDigits 10 (Some acc) (NilEmpty.string_of_uint d)
  = Some (hornerUint acc d).
Proof.
  revert acc. induction d; intros acc; cbn [NilEmpty.string_of_uint hornerUint];
    [reflexivity | .. ]; apply IHd.
Qed.

Lemma hornerUint_of_uint_acc (d : Decimal.uint) (acc : positive) :
  hornerUint (Z.pos acc) d = Z.pos (Pos.of_uint_acc d acc).
Proof.
  revert acc. induction d; intros acc; cbn [hornerUint Pos.of_uint_acc];
    [reflexivity | .. ];
    rewrite <- IHd; f_equal; lia.
Qed.

Lemma hornerUint_of_uint (d : Decimal.uint) :
  hornerUint 0 d = Z.of_N (Pos.of_uint d).
Proof.
  induction d; cbn [hornerUint Pos.of_uint];
    [reflexivity | exact IHd | .. ];
    apply hornerUint_of_uint_acc.
Qed.

Ltac eval_chars :=
  repeat match goal with
         | |- context [isWhiteSpace ?c] =>
             let b := eval vm_compute in (isWhiteSpace c) in
             change (isWhiteSpace c) with b
         | |- context [digitValue ?c] =>
             let b := eval vm_compute in (digitValue c) in
             change (digitValue c) with b
         end.

Lemma parseDigits_uint_dot (acc : Z) (d : Decimal.uint) (rest : string) :
  parseDigits 10 (Some acc) (NilEmpty.string_of_uint d ++ String "." rest)
  = Some (hornerUint acc d).
Proof.
  revert acc. induction d; intros acc;
    cbn [NilEmpty.string_of_uint hornerUint append];
    [reflexivity | .. ]; apply IHd.
Qed.

(** [parseInt] on the digits of a numeral, after the case analysis on
    the first digit and, behind a 0, on the second. *)
Ltac parseInt_digits :=
  unfold parseInt;
  cbn [NilEmpty.string_of_uint append trimStart parseDigits hornerUint];
  eval_chars; cbn [parseDigits]; eval_chars;
  cbv beta iota zeta;
  rewrite ?parseDigits_uint, ?parseDigits_uint_dot;
  cbn [hornerUint Z.ltb Z.compare Pos.compare Pos.compare_cont];
  repeat match goal with
         | |- context [hornerUint ?a ?l] =>
             let v := eval vm_compute in a in
             progress change (hornerUint a l) with (hornerUint v l)
         end;
  split; f_equal; lia.

(** The digits of a numeral that is not empty, read by [parseInt]. *)
Lemma parseInt_uint (d : Decimal.uint) :
  d <> Decimal.Nil ->
  parseInt (NilEmpty.string_of_uint d) = Int (hornerUint 0 d) /\
  parseInt (String "-" (NilEmpty.string_of_uint d)) = Int (- hornerUint 0 d).
Proof.
  intros Hd.
  destruct d as [ | d | d | d | d | d | d | d | d | d | d ];
    [contradiction | destruct d | .. ]; parseInt_digits.
Qed.

(** The same followed by a fraction: [parseInt] stops at the point. *)
Lemma parseInt_uint_dot (d : Decimal.uint) (rest : string) :
  d <> Decimal.Nil ->
  parseInt (NilEmpty.string_of_uint d ++ String "." rest)
  = Int (hornerUint 0 d) /\
  parseInt (String "-" (NilEmpty.string_of_uint d ++ String "." rest))
  = Int (- hornerUint 0 d).
Proof.
  intros Hd.
  destruct d as [ | d | d | d | d | d | d | d | d | d | d ];
    [contradiction | destruct d | .. ]; parseInt_digits.
Qed.

Lemma NilZero_string_of_uint (d : Decimal.uint) :
  d <> Decimal.Nil ->
  NilZero.string_of_uint d = NilEmpty.string_of_uint d.
Proof. destruct d; [contradiction | reflexivity ..]. Qed.

(** [parseInt] reads back every integer that [ToString] prints. *)
Lemma parseInt_string_of_Z (z : Z) : parseInt (string_of_Z z) = Int z.
Proof.
  unfold string_of_Z. destruct z as [ | p | p ].
  - reflexivity.
  - cbn [Z.to_int NilZero.string_of_int].
    pose proof (DecimalPos.Unsigned.to_uint_nonnil p) as Hn.
    rewrite (NilZero_string_of_uint _ Hn), (proj1 (parseInt_uint _ Hn)).
    rewrite hornerUint_of_uint, DecimalPos.Unsigned.of_to. reflexivity.
  - cbn [Z.to_int NilZero.string_of_int].
    pose proof (DecimalPos.Unsigned.to_uint_nonnil p) as Hn.
    rewrite (NilZero_string_of_uint _ Hn), (proj2 (parseInt_uint _ Hn)).
    rewrite hornerUint_of_uint, DecimalPos.Unsigned.of_to. reflexivity.
Qed.

(** [parseInt] cuts the fraction off a printed number: of "<z>.<digits>"
    it reads [z]. *)
Lemma parseInt_fraction (z : Z) (fraction : string) :
  parseInt (string_of_Z z ++ "." ++ fraction) = Int z.
Proof.
  unfold string_of_Z. cbn [append]. destruct z as [ | p | p ].
  - reflexivity.
  - cbn [Z.to_int NilZero.string_of_int].
    pose proof (DecimalPos.Unsigned.to_uint_nonnil p) as Hn.
    rewrite (NilZero_string_of_uint _ Hn), (proj1 (parseInt_uint_dot _ _ Hn)).
    rewrite hornerUint_of_uint, DecimalPos.Unsigned.of_to. reflexivity.
  - cbn [Z.to_int NilZero.string_of_int append].
    pose proof (DecimalPos.Unsigned.to_uint_nonnil p) as Hn.
    rewrite (NilZero_string_of_uint _ Hn), (proj2 (parseInt_uint_dot _ _ Hn)).
    rewrite hornerUint_of_uint, DecimalPos.Unsigned.of_to. reflexivity.
Qed.

(** ** localStorage and classList *)

Lemma getItem_setItem (s : Page.Storage) (key value : string) :
  Page.getItem (Page.setItem s key value) key = Some value.
Proof. unfold Page.getItem, Page.setItem. rewrite String.eqb_refl. reflexivity. Qed.

Lemma getItem_setItem_other (s : Page.Storage) (key value k : string) :
  k <> key -> Page.getItem (Page.setItem s key value) k = Page.getItem s k.
Proof.
  intros Hk. unfold Page.getItem, Page.setItem.
  destruct (String.eqb_spec k key); [contradiction | reflexivity].
Qed.

Lemma contains_app (l1 l2 : list string) (c : string) :
  Page.contains (l1 ++ l2)%list c = Page.contains l1 c || Page.contains l2 c.
Proof. unfold Page.contains. apply existsb_app. Qed.

Lemma contains_add (l : list string) (c c' : string) :
  Page.contains (Page.add l c) c'
  = if String.eqb c' c then true else Page.contains l c'.
Proof.
  unfold Page.add. destruct (Page.contains l c) eqn:E.
  - destruct (String.eqb_spec c' c) as [Ec | _];
      [rewrite Ec; exact E | reflexivity].
  - rewrite contains_app. cbn [Page.contains existsb].
    destruct (String.eqb c' c); [apply orb_true_r | ].
    rewrite !orb_false_r. reflexivity.
Qed.

Lemma contains_remove (l : list string) (c c' : string) :
  Page.contains (Page.remove l c) c'
  = if String.eqb c' c then false else Page.contains l c'.
Proof.
  unfold Page.remove, Page.contains.
  induction l as [ | x l IH]; cbn [filter existsb].
  - destruct (String.eqb c' c); reflexivity.
  - destruct (String.eqb_spec x c) as [Ex | Hx]; cbn [negb existsb].
    + rewrite IH, Ex. destruct (String.eqb c' c); reflexivity.
    + rewrite IH. destruct (String.eqb_spec c' c) as [Ec | Hc];
        [ | reflexivity ].
      destruct (String.eqb_spec c' x) as [Ex | _];
        [congruence | reflexivity].
Qed.

(** ** ThemeManager *)

Lemma ThemeManager_apply_dark (tm : ThemeManager) (p : Page.t) (c : string) :
  Page.contains (Page.classList (ThemeManager_apply tm p)) c
  = if String.eqb c "dark" then isDark tm
    else Page.contains (Page.classList p) c.
Proof.
  unfold ThemeManager_apply, isDark.
  destruct (String.eqb (theme tm) "dark");
    cbn [Page.withClasses Page.classList];
    [rewrite contains_add | rewrite contains_remove];
    destruct (String.eqb c "dark"); reflexivity.
Qed.

Lemma ThemeManager_apply_storage (tm : ThemeManager) (p : Page.t) :
  Page.localStorage (ThemeManager_apply tm p) = Page.localStorage p /\
  Page.fontSize (ThemeManager_apply tm p) = Page.fontSize p.
Proof.
  unfold ThemeManager_apply. destruct (String.eqb (theme tm) "dark");
    split; reflexivity.
Qed.

(** What [toggle()] leaves behind. *)
Lemma ThemeManager_toggle_spec (tm : ThemeManager) (p : Page.t) :
  let result := ThemeManager_toggle tm p in
  let returned := fst (fst result) in
  let tm' := snd (fst result) in
  let p' := snd result in
  returned = theme tm' /\
  (theme tm' = "light" \/ theme tm' = "dark") /\
  Page.getItem (Page.localStorage p') "calendar-theme" = Some (theme tm') /\
  Page.contains (Page.classList p') "dark" = isDark tm' /\
  (forall c, c <> "dark" ->
     Page.contains (Page.classList p') c = Page.contains (Page.classList p) c) /\
  (forall k, k <> "calendar-theme" ->
     Page.getItem (Page.localStorage p') k = Page.getItem (Page.localStorage p) k) /\
  Page.fontSize p' = Page.fontSize p.
Proof.
  cbv zeta. unfold ThemeManager_toggle. cbv zeta. cbn [fst snd].
  set (tm' := mkThemeManager
                (if String.eqb (theme tm) "light" then "dark" else "light")).
  cbn [Page.withStorage Page.localStorage Page.classList Page.fontSize].
  destruct (ThemeManager_apply_storage tm' p) as [Es Ef].
  split; [reflexivity | ].
  split.
  { unfold tm'. cbn [theme]. destruct (String.eqb (theme tm) "light"); auto. }
  split; [apply getItem_setItem | ].
  split; [rewrite ThemeManager_apply_dark; reflexivity | ].
  split.
  { intros c Hc. rewrite ThemeManager_apply_dark.
    destruct (String.eqb_spec c "dark"); [contradiction | reflexivity]. }
  split; [ | exact Ef].
  intros k Hk. rewrite getItem_setItem_other by exact Hk.
  rewrite Es. reflexivity.
Qed.

(** After [toggle()] the theme is 'light' or 'dark', it is the value
    returned and the value stored under 'calendar-theme', and the root
    element carries the class 'dark' exactly when the theme is dark; no
    other class, no other key and not the font size are touched. *)
Theorem ThemeManager_toggle_result (tm : ThemeManager) (p : Page.t) :
  let result := ThemeManager_toggle tm p in
  let returned := fst (fst result) in
  let tm' := snd (fst result) in
  let p' := snd result in
  returned = theme tm' /\
  (theme tm' = "light" \/ theme tm' = "dark") /\
  Page.getItem (Page.localStorage p') "calendar-theme" = Some (theme tm') /\
  Page.contains (Page.classList p') "dark" = isDark tm' /\
  (forall c, c <> "dark" ->
     Page.contains (Page.classList p') c = Page.contains (Page.classList p) c) /\
  (forall k, k <> "calendar-theme" ->
     Page.getItem (Page.localStorage p') k = Page.getItem (Page.localStorage p) k) /\
  Page.fontSize p' = Page.fontSize p.
Proof. exact (ThemeManager_toggle_spec tm p). Qed.

(** The theme survives a reload: on any page whose localStorage is the one
    [toggle()] left, whatever the system theme, the constructor comes back
    with the toggled theme and sets the class 'dark' to match. *)
Theorem ThemeManager_toggle_persists (tm : ThemeManager) (p q : Page.t) :
  Page.localStorage q = Page.localStorage (snd (ThemeManager_toggle tm p)) ->
  theme (fst (ThemeManager_new q)) = theme (snd (fst (ThemeManager_toggle tm p)))
  /\ Page.contains (Page.classList (snd (ThemeManager_new q))) "dark"
     = isDark (snd (fst (ThemeManager_toggle tm p))).
Proof.
  intros Hq.
  destruct (ThemeManager_toggle_spec tm p) as [_ [Ht [Hs _]]].
  cbv zeta in Ht, Hs. rewrite <- Hq in Hs.
  unfold ThemeManager_new. cbv zeta. cbn [fst snd].
  rewrite Hs. cbn [Page.truthy stringOfItem].
  assert (Hne : String.eqb (theme (snd (fst (ThemeManager_toggle tm p)))) ""
                = false) by (destruct Ht as [-> | ->]; reflexivity).
  rewrite Hne. cbn [negb]. split; [reflexivity | ].
  rewrite ThemeManager_apply_dark. reflexivity.
Qed.

Lemma ThemeManager_toggle_persists_witness :
  let tm := mkThemeManager "light" in
  let p := Page.mk (fun _ => None) ["no-js"] "" false false in
  let q := Page.mk (Page.localStorage (snd (ThemeManager_toggle tm p)))
                   [] "" false true in
  Page.localStorage q = Page.localStorage (snd (ThemeManager_toggle tm p)) /\
  theme (fst (ThemeManager_new q)) = "dark" /\
  Page.contains (Page.classList (snd (ThemeManager_new q))) "dark" = true.
Proof.
  intros tm p q.
  assert (Hq : Page.localStorage q
               = Page.localStorage (snd (ThemeManager_toggle tm p)))
    by reflexivity.
  split; [exact Hq | ].
  exact (ThemeManager_toggle_persists tm p q Hq).
Defined.

(** From 'light' or 'dark', two calls of [toggle()] come back to the theme
    they started from. *)
Theorem ThemeManager_toggle_twice (tm : ThemeManager) (p : Page.t) :
  theme tm = "light" \/ theme tm = "dark" ->
  let first := ThemeManager_toggle tm p in
  let second := ThemeManager_toggle (snd (fst first)) (snd first) in
  theme (snd (fst second)) = theme tm /\
  Page.contains (Page.classList (snd second)) "dark" = isDark tm /\
  Page.getItem (Page.localStorage (snd second)) "calendar-theme"
  = Some (theme tm).
Proof.
  intros Ht first second.
  destruct (ThemeManager_toggle_spec (snd (fst first)) (snd first))
    as [_ [_ [Hs [Hc _]]]].
  cbv zeta in Hs, Hc. fold second in Hs, Hc.
  assert (E : theme (snd (fst second)) = theme tm).
  { unfold second, first, ThemeManager_toggle. cbn [fst snd theme].
    destruct Ht as [-> | ->]; reflexivity. }
  rewrite Hs, Hc. unfold isDark. rewrite E. auto.
Qed.

Lemma ThemeManager_toggle_twice_witness :
  let tm := mkThemeManager "dark" in
  let p := Page.mk (fun _ => None) ["dark"] "" true false in
  (theme tm = "light" \/ theme tm = "dark") /\
  let first := ThemeManager_toggle tm p in
  let second := ThemeManager_toggle (snd (fst first)) (snd first) in
  theme (snd (fst second)) = theme tm /\
  Page.contains (Page.classList (snd second)) "dark" = isDark tm /\
  Page.getItem (Page.localStorage (snd second)) "calendar-theme"
  = Some (theme tm).
Proof.
  intros tm p.
  split; [right; reflexivity | ].
  apply (ThemeManager_toggle_twice tm p). right. reflexivity.
Defined.

(** A stored theme is taken as it is: with a stored string that is neither
    empty, 'light' nor 'dark', the constructor keeps that string as theme
    and shows the light page, and the first [toggle()] goes to 'light', so
    the page stays as it was. *)
Theorem ThemeManager_unknown_theme (p : Page.t) (s : string) :
  Page.getItem (Page.localStorage p) "calendar-theme" = Some s ->
  s <> "" -> s <> "light" -> s <> "dark" ->
  let created := ThemeManager_new p in
  let toggled := ThemeManager_toggle (fst created) (snd created) in
  theme (fst created) = s /\
  Page.contains (Page.classList (snd created)) "dark" = false /\
  fst (fst toggled) = "light" /\
  Page.contains (Page.classList (snd toggled)) "dark" = false.
Proof.
  intros Hs He Hl Hd created toggled.
  assert (E : theme (fst created) = s).
  { unfold created, ThemeManager_new. cbv zeta. cbn [fst theme].
    rewrite Hs. cbn [Page.truthy stringOfItem].
    destruct (String.eqb_spec s ""); [contradiction | reflexivity]. }
  assert (Hnd : isDark (fst created) = false).
  { unfold isDark. rewrite E.
    destruct (String.eqb_spec s "dark"); [contradiction | reflexivity]. }
  destruct (ThemeManager_toggle_spec (fst created) (snd created))
    as [Hr [_ [_ [Hc _]]]].
  cbv zeta in Hr, Hc. fold toggled in Hr, Hc.
  assert (Et : theme (snd (fst toggled)) = "light").
  { unfold toggled, ThemeManager_toggle. cbn [fst snd theme]. rewrite E.
    destruct (String.eqb_spec s "light"); [contradiction | reflexivity]. }
  split; [exact E | split; [ | split ]].
  - unfold created, ThemeManager_new. cbv zeta. cbn [snd].
    rewrite ThemeManager_apply_dark. exact Hnd.
  - rewrite Hr. exact Et.
  - rewrite Hc. unfold isDark. rewrite Et. reflexivity.
Qed.

Lemma ThemeManager_unknown_theme_witness :
  let p := Page.mk (Page.setItem (fun _ => None) "calendar-theme" "blue")
                   ["dark"] "" true false in
  Page.getItem (Page.localStorage p) "calendar-theme" = Some "blue" /\
  let created := ThemeManager_new p in
  let toggled := ThemeManager_toggle (fst created) (snd created) in
  theme (fst created) = "blue" /\
  Page.contains (Page.classList (snd created)) "dark" = false /\
  fst (fst toggled) = "light" /\
  Page.contains (Page.classList (snd toggled)) "dark" = false.
Proof.
  intros p.
  assert (Hs : Page.getItem (Page.localStorage p) "calendar-theme"
               = Some "blue") by reflexivity.
  split; [exact Hs | ].
  apply (ThemeManager_unknown_theme p "blue" Hs); discriminate.
Defined.

(** With no theme stored the theme follows the system: the constructor
    takes the system theme, and so does every later change of it; once
    [toggle()] has been called, a change of the system theme changes
    neither the theme nor the classes. *)
Theorem ThemeManager_system_theme (p : Page.t) (matches : bool) :
  Page.truthy (Page.getItem (Page.localStorage p) "calendar-theme") = false ->
  let created := ThemeManager_new p in
  let changed := ThemeManager_onChange matches (fst created) (snd created) in
  let toggled := ThemeManager_toggle (fst changed) (snd changed) in
  let later :=
    ThemeManager_onChange (negb matches) (snd (fst toggled)) (snd toggled) in
  theme (fst created) = (if Page.prefersDark p then "dark" else "light") /\
  theme (fst changed) = (if matches then "dark" else "light") /\
  Page.contains (Page.classList (snd changed)) "dark" = matches /\
  theme (fst later) = (if matches then "light" else "dark") /\
  Page.classList (snd later) = Page.classList (snd toggled).
Proof.
  intros Hs created changed toggled later.
  assert (Ec : theme (fst created)
               = (if Page.prefersDark p then "dark" else "light")).
  { unfold created, ThemeManager_new. cbv zeta. cbn [fst theme].
    rewrite Hs. reflexivity. }
  assert (Hsc : Page.localStorage (snd created) = Page.localStorage p).
  { unfold created, ThemeManager_new. cbv zeta. cbn [snd].
    apply ThemeManager_apply_storage. }
  assert (Ech : changed
                = (mkThemeManager (if matches then "dark" else "light"),
                   ThemeManager_apply
                     (mkThemeManager (if matches then "dark" else "light"))
                     (Page.mk (Page.localStorage (snd created))
                        (Page.classList (snd created))
                        (Page.fontSize (snd created)) matches
                        (Page.prefersReducedMotion (snd created))))).
  { unfold changed, ThemeManager_onChange. cbv zeta.
    cbn [Page.localStorage]. rewrite Hsc, Hs. reflexivity. }
  destruct (ThemeManager_toggle_spec (fst changed) (snd changed))
    as [_ [Ht [Hst _]]].
  cbv zeta in Ht, Hst. fold toggled in Ht, Hst.
  assert (Etg : theme (snd (fst toggled))
                = (if matches then "light" else "dark")).
  { unfold toggled, ThemeManager_toggle. cbn [fst snd theme].
    rewrite Ech. cbn [fst theme]. destruct matches; reflexivity. }
  assert (El : later
               = (snd (fst toggled),
                  Page.mk (Page.localStorage (snd toggled))
                    (Page.classList (snd toggled))
                    (Page.fontSize (snd toggled)) (negb matches)
                    (Page.prefersReducedMotion (snd toggled)))).
  { unfold later, ThemeManager_onChange. cbv zeta.
    cbn [Page.localStorage]. rewrite Hst. cbn [Page.truthy].
    rewrite Etg. destruct matches; reflexivity. }
  split; [exact Ec | split; [ | split; [ | split ]]].
  - rewrite Ech. reflexivity.
  - rewrite Ech. cbn [snd]. rewrite ThemeManager_apply_dark.
    destruct matches; reflexivity.
  - rewrite El. exact Etg.
  - rewrite El. reflexivity.
Qed.

Lemma ThemeManager_system_theme_witness :
  let p := Page.mk (fun _ => None) [] "" false false in
  Page.truthy (Page.getItem (Page.localStorage p) "calendar-theme") = false /\
  let created := ThemeManager_new p in
  let changed := ThemeManager_onChange true (fst created) (snd created) in
  let toggled := ThemeManager_toggle (fst changed) (snd changed) in
  let later :=
    ThemeManager_onChange (negb true) (snd (fst toggled)) (snd toggled) in
  theme (fst created) = (if Page.prefersDark p then "dark" else "light") /\
  theme (fst changed) = (if true then "dark" else "light") /\
  Page.contains (Page.classList (snd changed)) "dark" = true /\
  theme (fst later) = (if true then "light" else "dark") /\
  Page.classList (snd later) = Page.classList (snd toggled).
Proof.
  intros p.
  assert (Hs : Page.truthy
                 (Page.getItem (Page.localStorage p) "calendar-theme")
               = false) by reflexivity.
  split; [exact Hs | ].
  apply (ThemeManager_system_theme p true Hs).
Defined.

(** ** AnimationController and SoundManager *)

Lemma AnimationController_apply_class
    (ac : AnimationController) (p : Page.t) (c : string) :
  Page.contains (Page.classList (AnimationController_apply ac p)) c
  = if String.eqb c "reduce-motion" then negb (enabled ac)
    else Page.contains (Page.classList p) c.
Proof.
  unfold AnimationController_apply.
  destruct (enabled ac); cbn [negb Page.withClasses Page.classList];
    [rewrite contains_remove | rewrite contains_add];
    destruct (String.eqb c "reduce-motion"); reflexivity.
Qed.

Lemma AnimationController_apply_storage
    (ac : AnimationController) (p : Page.t) :
  Page.localStorage (AnimationController_apply ac p) = Page.localStorage p.
Proof. unfold AnimationController_apply. destruct (enabled ac); reflexivity. Qed.

Lemma string_of_bool_true (b : bool) :
  String.eqb (string_of_bool b) "true" = b.
Proof. destruct b; reflexivity. Qed.

(** [toggle()] flips the animations, returns the new setting and sets the
    class 'reduce-motion' exactly when they are off; the setting survives
    a reload: on any page whose localStorage is the one [toggle()] left,
    whatever the system asks for, the constructor comes back with the
    same setting and the same class. *)
Theorem AnimationController_toggle_persists
    (ac : AnimationController) (p q : Page.t) :
  let result := AnimationController_toggle ac p in
  let ac' := snd (fst result) in
  Page.localStorage q = Page.localStorage (snd result) ->
  fst (fst result) = enabled ac' /\
  enabled ac' = negb (enabled ac) /\
  Page.contains (Page.classList (snd result)) "reduce-motion"
  = negb (enabled ac') /\
  enabled (fst (AnimationController_new q)) = enabled ac' /\
  Page.contains (Page.classList (snd (AnimationController_new q)))
    "reduce-motion" = negb (enabled ac').
Proof.
  intros result ac' Hq.
  assert (Hs : Page.getItem (Page.localStorage q)
                 "calendar-animations-enabled"
               = Some (string_of_bool (enabled ac'))).
  { rewrite Hq. unfold result, AnimationController_toggle. cbv zeta.
    cbn [snd Page.withStorage Page.localStorage]. apply getItem_setItem. }
  assert (En : fst (AnimationController_new q) = mkAnimationController (enabled ac')).
  { unfold AnimationController_new, AnimationController_loadPreference.
    cbv zeta. cbn [fst]. rewrite Hs, string_of_bool_true. reflexivity. }
  split; [reflexivity | split; [reflexivity | split; [ | split ]]].
  - unfold result, AnimationController_toggle. cbv zeta.
    cbn [snd Page.withStorage Page.classList].
    rewrite AnimationController_apply_class. reflexivity.
  - rewrite En. reflexivity.
  - assert (Ep : snd (AnimationController_new q)
                 = AnimationController_apply (fst (AnimationController_new q)) q)
      by reflexivity.
    rewrite Ep, En, AnimationController_apply_class. reflexivity.
Qed.

Lemma AnimationController_toggle_persists_witness :
  let ac := mkAnimationController true in
  let p := Page.mk (fun _ => None) [] "" false false in
  let result := AnimationController_toggle ac p in
  let q := Page.mk (Page.localStorage (snd result)) ["dark"] "" true false in
  Page.localStorage q = Page.localStorage (snd result) /\
  enabled (fst (AnimationController_new q)) = false /\
  Page.contains (Page.classList (snd (AnimationController_new q)))
    "reduce-motion" = true.
Proof.
  intros ac p result q.
  assert (Hq : Page.localStorage q = Page.localStorage (snd result))
    by reflexivity.
  split; [exact Hq | ].
  destruct (AnimationController_toggle_persists ac p q Hq)
    as [_ [_ [_ [H1 H2]]]].
  split; [exact H1 | exact H2].
Defined.

(** The sound setting survives a reload: [toggle()] flips it and returns
    it, and on any page whose localStorage is the one [toggle()] left the
    constructor comes back with the same setting, not yet initialized and
    with no sound. *)
Theorem SoundManager_toggle_persists (sm : SoundManager) (p q : Page.t) :
  let result := SoundManager_toggle sm p in
  let sm' := snd (fst result) in
  Page.localStorage q = Page.localStorage (snd result) ->
  fst (fst result) = soundEnabled sm' /\
  soundEnabled sm' = negb (soundEnabled sm) /\
  SoundManager_new q = mkSoundManager (soundEnabled sm') [] false.
Proof.
  intros result sm' Hq.
  split; [reflexivity | split; [reflexivity | ]].
  unfold SoundManager_new. rewrite Hq.
  unfold sm', result, SoundManager_toggle. cbv zeta.
  cbn [snd fst Page.withStorage Page.localStorage soundEnabled].
  rewrite getItem_setItem.
  destruct (soundEnabled sm); reflexivity.
Qed.

Lemma SoundManager_toggle_persists_witness :
  let sm := mkSoundManager true ["click"] true in
  let p := Page.mk (fun _ => None) [] "" false false in
  let result := SoundManager_toggle sm p in
  Page.localStorage (snd result) = Page.localStorage (snd result) /\
  SoundManager_new (snd result) = mkSoundManager false [] false.
Proof.
  intros sm p result.
  split; [reflexivity | ].
  apply (SoundManager_toggle_persists sm p (snd result) eq_refl).
Defined.

(** ** FontSizeController *)

Lemma FontSizeController_call_page (c : FontSizeCall)
    (fc : FontSizeController) (p : Page.t) :
  let result := FontSizeController_call c fc p in
  let fc' := snd (fst result) in
  fst (fst result) = size fc' /\
  snd result = FontSizeController_save fc' (FontSizeController_apply fc' p) /\
  size fc' = match c with
             | Increase _ => Z.min 150 (size fc + callAmount c)
             | Decrease _ => Z.max 75 (size fc - callAmount c)
             | Reset => 100
             end.
Proof. destruct c; repeat split; reflexivity. Qed.

Lemma FontSizeController_new_stored (q : Page.t) (n : Z) :
  Page.getItem (Page.localStorage q) "calendar-font-size"
  = Some (string_of_Z n) ->
  size (fst (FontSizeController_new q)) = (if n =? 0 then 100 else n).
Proof.
  intros Hs. unfold FontSizeController_new. cbv zeta. cbn [fst size].
  rewrite Hs. cbn [stringOfItem]. rewrite parseInt_string_of_Z. reflexivity.
Qed.

Lemma FontSizeController_saved (fc : FontSizeController) (p : Page.t) :
  Page.getItem (Page.localStorage (FontSizeController_save fc p))
    "calendar-font-size" = Some (string_of_Z (size fc)) /\
  Page.fontSize (FontSizeController_save fc p) = Page.fontSize p.
Proof.
  unfold FontSizeController_save.
  cbn [Page.withStorage Page.localStorage Page.fontSize].
  split; [apply getItem_setItem | reflexivity].
Qed.

Lemma FontSizeController_applied (fc : FontSizeController) (p : Page.t) :
  0 <= size fc ->
  Page.fontSize (FontSizeController_apply fc p) = string_of_Z (size fc) ++ "%".
Proof.
  intros Hs. unfold FontSizeController_apply, Page.setFontSizePercent.
  destruct (Z.ltb_spec (size fc) 0); [lia | reflexivity].
Qed.

(** One call keeps the size between 75 and 150 when it was there and the
    amount is not negative. *)
Lemma FontSizeController_call_range (c : FontSizeCall)
    (fc : FontSizeController) (p : Page.t) :
  0 <= callAmount c -> 75 <= size fc <= 150 ->
  75 <= size (snd (fst (FontSizeController_call c fc p))) <= 150.
Proof.
  intros Ha Hs.
  destruct (FontSizeController_call_page c fc p) as [_ [_ E]].
  cbv zeta in E. rewrite E. destruct c; lia.
Qed.

Lemma FontSizeController_calls_range (cs : list FontSizeCall)
    (fc : FontSizeController) (p : Page.t) :
  Forall (fun c => 0 <= callAmount c) cs -> 75 <= size fc <= 150 ->
  75 <= size (fst (FontSizeController_calls cs fc p)) <= 150.
Proof.
  intros Hcs. revert fc p.
  induction Hcs as [ | c cs Hc _ IH]; intros fc p Hs.
  - exact Hs.
  - cbn [FontSizeController_calls].
    pose proof (FontSizeController_call_range c fc p Hc Hs) as Hr.
    destruct (FontSizeController_call c fc p) as [[r fc'] p'].
    cbn [fst snd] in Hr. apply IH. exact Hr.
Qed.

(** After a list of calls that is not empty, the page shows and stores the
    size of the controller (when that is not negative). *)
Lemma FontSizeController_calls_page (cs : list FontSizeCall)
    (fc : FontSizeController) (p : Page.t) :
  cs <> [] ->
  let result := FontSizeController_calls cs fc p in
  Page.getItem (Page.localStorage (snd result)) "calendar-font-size"
  = Some (string_of_Z (size (fst result))) /\
  (0 <= size (fst result) ->
   Page.fontSize (snd result) = string_of_Z (size (fst result)) ++ "%").
Proof.
  revert fc p. induction cs as [ | c cs IH]; intros fc p Hne;
    [contradiction | ].
  cbn [FontSizeController_calls].
  destruct (FontSizeController_call_page c fc p) as [_ [Ep _]].
  cbv zeta in Ep.
  destruct (FontSizeController_call c fc p) as [[r fc'] p'].
  cbn [fst snd] in Ep.
  destruct cs as [ | c2 cs2].
  - cbn [FontSizeController_calls fst snd]. rewrite Ep.
    destruct (FontSizeController_saved fc' (FontSizeController_apply fc' p))
      as [E1 E2].
    split; [exact E1 | ].
    intros Hs. rewrite E2. apply FontSizeController_applied. exact Hs.
  - apply IH. discriminate.
Qed.

(** The font size under any use with integer amounts: from a page with
    nothing stored, the constructor starts at 100, and after any list of
    calls of [increase], [decrease] and [reset] whose amounts are integers
    that are not negative the size is between 75 and 150; when at least
    one call was made the root element shows "<size>%", and on any page
    whose localStorage is the one the calls left the constructor comes
    back with the same size.  That the sizes are integers matters:
    [parseInt] stops at a point, so that a stored size with a fraction,
    "<n>.<digits>" as an amount with a fraction would leave it, comes back
    as [n] (a safe integer), and as 100 for [n = 0]. *)
Theorem FontSizeController_sessions
    (cs : list FontSizeCall) (p q : Page.t) :
  Page.getItem (Page.localStorage p) "calendar-font-size" = None ->
  Forall (fun c => 0 <= callAmount c) cs ->
  let created := FontSizeController_new p in
  let result := FontSizeController_calls cs (fst created) (snd created) in
  size (fst created) = 100 /\
  75 <= size (fst result) <= 150 /\
  (cs <> [] ->
   Page.fontSize (snd result) = string_of_Z (size (fst result)) ++ "%" /\
   (Page.localStorage q = Page.localStorage (snd result) ->
    size (fst (FontSizeController_new q)) = size (fst result))) /\
  (forall (n : Z) (fraction : string),
     Z.abs n <= 9007199254740991 ->
     Page.getItem (Page.localStorage q) "calendar-font-size"
     = Some (string_of_Z n ++ "." ++ fraction) ->
     size (fst (FontSizeController_new q)) = if n =? 0 then 100 else n).
Proof.
  intros Hs Hcs created result.
  assert (Ec : size (fst created) = 100).
  { unfold created, FontSizeController_new. cbv zeta. cbn [fst size].
    rewrite Hs. reflexivity. }
  assert (Hr : 75 <= size (fst result) <= 150).
  { apply FontSizeController_calls_range; [exact Hcs | lia]. }
  split; [exact Ec | split; [exact Hr | split ]].
  - intros Hne.
    destruct (FontSizeController_calls_page cs (fst created) (snd created) Hne)
      as [Hst Hfs].
    cbv zeta in Hst, Hfs. fold result in Hst, Hfs.
    split; [apply Hfs; lia | ].
    intros Hq. rewrite <- Hq in Hst.
    rewrite (FontSizeController_new_stored q _ Hst).
    destruct (Z.eqb_spec (size (fst result)) 0); [lia | reflexivity].
  - intros n fraction _ Hq.
    unfold FontSizeController_new. cbv zeta. cbn [fst size].
    rewrite Hq. cbn [stringOfItem]. rewrite parseInt_fraction. reflexivity.
Qed.

Lemma FontSizeController_sessions_witness :
  let p := Page.mk (fun _ => None) [] "" false false in
  let cs := [Increase None; Increase (Some 100); Decrease None] in
  let created := FontSizeController_new p in
  let result := FontSizeController_calls cs (fst created) (snd created) in
  let q := Page.mk (Page.setItem (fun _ => None) "calendar-font-size" "102.5")
                   [] "" false false in
  Page.getItem (Page.localStorage p) "calendar-font-size" = None /\
  Forall (fun c => 0 <= callAmount c) cs /\
  size (fst result) = 140 /\
  Page.fontSize (snd result) = "140%" /\
  size (fst (FontSizeController_new (snd result))) = 140 /\
  size (fst (FontSizeController_new q)) = 102.
Proof.
  intros p cs created result q.
  assert (Hs : Page.getItem (Page.localStorage p) "calendar-font-size" = None)
    by reflexivity.
  assert (Hcs : Forall (fun c => 0 <= callAmount c) cs)
    by (repeat constructor; cbn; lia).
  split; [exact Hs | split; [exact Hcs | ]].
  destruct (FontSizeController_sessions cs p (snd result) Hs Hcs)
    as [_ [_ [H _]]].
  destruct (H ltac:(discriminate)) as [Hf Hq].
  split; [reflexivity | split; [exact Hf | split; [exact (Hq eq_refl) | ]]].
  destruct (FontSizeController_sessions cs p q Hs Hcs) as [_ [_ [_ H4]]].
  exact (H4 102 "5" ltac:(lia) eq_refl).
Defined.

(** The constructor does not clamp: whatever integer (in the range where
    numbers are exact) is stored, printed in decimal, becomes the size,
    except 0, which counts as no value and gives
    100; so a stored 500 shows "500%", which [decrease] then brings down by
    its amount and [increase] cuts to 150. *)
Theorem FontSizeController_new_unclamped (p : Page.t) (n : Z) :
  Z.abs n <= 9007199254740991 ->
  Page.getItem (Page.localStorage p) "calendar-font-size"
  = Some (string_of_Z n) ->
  let created := FontSizeController_new p in
  size (fst created) = (if n =? 0 then 100 else n) /\
  (0 < n -> Page.fontSize (snd created) = string_of_Z n ++ "%") /\
  (n < 0 -> Page.fontSize (snd created) = Page.fontSize p) /\
  (150 < n ->
   fst (fst (FontSizeController_increase None (fst created) (snd created)))
   = 150).
Proof.
  intros _ Hs created.
  pose proof (FontSizeController_new_stored p n Hs) as E. fold created in E.
  assert (Ep : snd created = FontSizeController_apply (fst created) p)
    by reflexivity.
  split; [exact E | split; [ | split ]].
  - intros Hn. rewrite Ep, FontSizeController_applied; rewrite E;
      destruct (Z.eqb_spec n 0); try lia; reflexivity.
  - intros Hn. rewrite Ep.
    unfold FontSizeController_apply, Page.setFontSizePercent. rewrite E.
    destruct (Z.eqb_spec n 0); [lia | ].
    destruct (Z.ltb_spec n 0); [reflexivity | lia].
  - intros Hn.
    unfold FontSizeController_increase. cbv zeta. cbn [fst size amountOrDefault].
    rewrite E. destruct (Z.eqb_spec n 0); lia.
Qed.

Lemma FontSizeController_new_unclamped_witness :
  let p := Page.mk (Page.setItem (fun _ => None) "calendar-font-size" "500")
                   [] "" false false in
  Z.abs 500 <= 9007199254740991 /\
  Page.getItem (Page.localStorage p) "calendar-font-size"
  = Some (string_of_Z 500) /\
  size (fst (FontSizeController_new p)) = 500 /\
  Page.fontSize (snd (FontSizeController_new p)) = "500%".
Proof.
  intros p.
  assert (Hs : Page.getItem (Page.localStorage p) "calendar-font-size"
               = Some (string_of_Z 500)) by reflexivity.
  split; [lia | split; [exact Hs | ]].
  destruct (FontSizeController_new_unclamped p 500 ltac:(lia) Hs)
    as [H1 [H2 _]].
  split; [exact H1 | exact (H2 ltac:(lia))].
Defined.

Example parseInt_examples :
  parseInt "42" = Int 42 /\ parseInt "  -17px" = Int (-17) /\
  parseInt "+8" = Int 8 /\ parseInt "12.5" = Int 12 /\
  parseInt "0x1F" = Int 31 /\ parseInt "0x" = NaN /\
  parseInt "" = NaN /\ parseInt "null" = NaN /\ parseInt "abc" = NaN /\
  parseInt "-0" = Int 0.
Proof. repeat split; reflexivity. Qed.

(** ** ProgressTracker *)

Lemma truthy_dashed (a b : string) : Page.truthy (Some (a ++ "-" ++ b)) = true.
Proof. destruct a; reflexivity. Qed.

(** With the clock in range, [new Date().toISOString()] is a string that
    is not empty. *)
Lemma toISOString_current (h : Host) :
  clockOk h ->
  exists iso, toISOString (Date.current h) = Some iso /\
              Page.truthy (Some iso) = true.
Proof.
  intros Hc. unfold Date.current. rewrite TimeClip_in by exact Hc.
  eexists. split; [reflexivity | apply truthy_dashed].
Qed.

Lemma ProgressTracker_save_data (stringify : ProgressData -> string)
    (accepts : Page.Policy)
    (h : Host) (t : ProgressTracker) (p : Page.t) :
  let r := ProgressTracker_save stringify accepts h t p in
  screensVisited (data (fst r)) = screensVisited (data t) /\
  quizScores (data (fst r)) = quizScores (data t) /\
  completedAt (data (fst r)) = completedAt (data t) /\
  totalVisits (data (fst r)) = totalVisits (data t) /\
  key (fst r) = key t /\ totalScreens (fst r) = totalScreens t /\
  pageId (fst r) = pageId t.
Proof.
  cbv zeta. unfold ProgressTracker_save.
  destruct (toISOString (Date.current h)); [ | repeat split; reflexivity].
  cbv zeta. destruct (Page.trySetItem _ _ _ _); repeat split; reflexivity.
Qed.

(** With the clock in range [save] stamps the data, and then either the
    write is accepted and the data is stored under the key, or it is not
    and the page is as before. *)
Lemma ProgressTracker_save_stamp (stringify : ProgressData -> string)
    (accepts : Page.Policy)
    (h : Host) (t : ProgressTracker) (p : Page.t) (iso : string) :
  toISOString (Date.current h) = Some iso ->
  let r := ProgressTracker_save stringify accepts h t p in
  lastVisit (data (fst r)) = Some iso /\
  (accepts (Page.localStorage p) (key t) (stringify (data (fst r))) = true ->
   Page.getItem (Page.localStorage (snd r)) (key t)
   = Some (stringify (data (fst r)))) /\
  (accepts (Page.localStorage p) (key t) (stringify (data (fst r))) = false ->
   snd r = p).
Proof.
  intros Hi. cbv zeta. unfold ProgressTracker_save, Page.trySetItem.
  rewrite Hi. cbv zeta.
  destruct (accepts _ _ _) eqn:Ea;
    cbn [fst snd data withData lastVisit Page.withStorage Page.localStorage];
    rewrite Ea.
  - split; [reflexivity | split; [ | discriminate ]].
    intros _. apply getItem_setItem.
  - split; [reflexivity | split; [discriminate | reflexivity]].
Qed.

(** [save] writes under the key of the tracker only, and leaves the rest
    of the page alone. *)
Lemma ProgressTracker_save_frame (stringify : ProgressData -> string)
    (accepts : Page.Policy)
    (h : Host) (t : ProgressTracker) (p : Page.t) :
  let r := ProgressTracker_save stringify accepts h t p in
  (forall k, k <> key t ->
     Page.getItem (Page.localStorage (snd r)) k
     = Page.getItem (Page.localStorage p) k) /\
  Page.classList (snd r) = Page.classList p /\
  Page.fontSize (snd r) = Page.fontSize p.
Proof.
  cbv zeta. unfold ProgressTracker_save, Page.trySetItem.
  destruct (toISOString (Date.current h)); [ | repeat split; reflexivity].
  cbv zeta. destruct (accepts _ _ _); [ | repeat split; reflexivity].
  cbn [snd Page.withStorage Page.localStorage Page.classList Page.fontSize].
  split; [ | split; reflexivity].
  intros k Hk. apply getItem_setItem_other. exact Hk.
Qed.

Lemma existsb_eqb_In (s : string) (l : list string) :
  existsb (String.eqb s) l = true <-> In s l.
Proof.
  rewrite existsb_exists. split.
  - intros [x [Hx E]]. apply String.eqb_eq in E. subst. exact Hx.
  - intros Hs. exists s. split; [exact Hs | apply String.eqb_refl].
Qed.

Lemma visitScreen_screens (stringify : ProgressData -> string)
    (accepts : Page.Policy)
    (h : Host) (screenId : string) (t : ProgressTracker) (p : Page.t) :
  screensVisited
    (data (fst (ProgressTracker_visitScreen stringify accepts h screenId t p)))
  = if existsb (String.eqb screenId) (screensVisited (data t))
    then screensVisited (data t)
    else (screensVisited (data t) ++ [screenId])%list.
Proof.
  unfold ProgressTracker_visitScreen. cbv zeta.
  destruct (existsb (String.eqb screenId) (screensVisited (data t)));
    cbn [negb]; [reflexivity | ].
  destruct (ProgressTracker_save_data stringify accepts h
              (withData t
                 (mkProgressData (screensVisited (data t) ++ [screenId])%list
                    (quizScores (data t)) (lastVisit (data t))
                    (completedAt (data t)) (totalVisits (data t)))) p)
    as [E _].
  cbv zeta in E. rewrite E. reflexivity.
Qed.

Lemma NoDup_snoc (l : list string) (s : string) :
  NoDup l -> ~ In s l -> NoDup (l ++ [s])%list.
Proof.
  intros Hl Hs. induction Hl as [ | x l Hx Hl IH]; cbn [app].
  - constructor; [intros [] | constructor].
  - constructor.
    + rewrite in_app_iff. cbn [In]. intros [H | [H | []]];
        [contradiction | subst; apply Hs; left; reflexivity].
    + apply IH. intros H. apply Hs. right. exact H.
Qed.

(** [visitScreen] records a screen once: afterwards the screen is in
    [screensVisited], which has grown by one entry or, for a screen already
    visited, not at all; duplicates never arise; and a second visit of the
    same screen, at any later time, changes nothing at all, neither the
    data nor localStorage. *)
Theorem ProgressTracker_visitScreen_once (stringify : ProgressData -> string)
    (accepts : Page.Policy)
    (h h2 : Host) (screenId : string) (t : ProgressTracker) (p : Page.t) :
  let r := ProgressTracker_visitScreen stringify accepts h screenId t p in
  let before := screensVisited (data t) in
  let after := screensVisited (data (fst r)) in
  In screenId after /\
  (List.length after
   = if existsb (String.eqb screenId) before
     then List.length before else S (List.length before)) /\
  (NoDup before -> NoDup after) /\
  ProgressTracker_visitScreen stringify accepts h2 screenId (fst r) (snd r) = r.
Proof.
  intros r before after.
  pose proof (visitScreen_screens stringify accepts h screenId t p) as E.
  fold r in E. fold after in E. fold before in E.
  destruct (existsb (String.eqb screenId) before) eqn:Hex.
  - assert (Hin : In screenId after)
      by (rewrite E; apply existsb_eqb_In; exact Hex).
    split; [exact Hin | split; [rewrite E; reflexivity | split ]].
    + intros Hn. rewrite E. exact Hn.
    + unfold ProgressTracker_visitScreen at 1. cbv zeta.
      fold after. rewrite (proj2 (existsb_eqb_In screenId after) Hin).
      cbn [negb]. destruct r; reflexivity.
  - assert (Hin : In screenId after)
      by (rewrite E, in_app_iff; right; left; reflexivity).
    split; [exact Hin | split; [ | split ]].
    + rewrite E, length_app. cbn [List.length]. lia.
    + intros Hn. rewrite E. apply NoDup_snoc; [exact Hn | ].
      intros H. apply existsb_eqb_In in H. rewrite Hex in H. discriminate.
    + unfold ProgressTracker_visitScreen at 1. cbv zeta.
      fold after. rewrite (proj2 (existsb_eqb_In screenId after) Hin).
      cbn [negb]. destruct r; reflexivity.
Qed.

Lemma recordQuizScore_scores (stringify : ProgressData -> string)
    (accepts : Page.Policy)
    (h : Host) (quizId : string) (score : Z)
    (t : ProgressTracker) (p : Page.t) (q : string) :
  quizScores
    (data (fst (ProgressTracker_recordQuizScore stringify accepts h quizId score t p)))
    q
  = if String.eqb q quizId && negb (String.eqb quizId "__proto__")
    then Some (lift1 (fun old => Z.max old score)
                 (scoreOrZero (data t) quizId))
    else quizScores (data t) q.
Proof.
  unfold ProgressTracker_recordQuizScore. cbv zeta.
  match goal with
  | |- context [ProgressTracker_save stringify accepts h ?t' p] =>
      destruct (ProgressTracker_save_data stringify accepts h t' p) as [_ [E _]]
  end.
  cbv zeta in E. rewrite E. reflexivity.
Qed.

Lemma inherited_proto (quizId : string) :
  inherited quizId = false -> String.eqb quizId "__proto__" = false.
Proof.
  intros Hi. destruct (String.eqb_spec quizId "__proto__") as [-> | _];
    [discriminate | reflexivity].
Qed.

Lemma scoreOrZero_ordinary (d : ProgressData) (quizId : string) :
  inherited quizId = false -> exists z, scoreOrZero d quizId = Int z.
Proof.
  intros Hi. unfold scoreOrZero. rewrite Hi.
  destruct (quizScores d quizId) as [[v | ] | ]; eexists; reflexivity.
Qed.

Lemma recordQuizScore_best (stringify : ProgressData -> string)
    (accepts : Page.Policy)
    (h : Host) (quizId : string) (score z : Z)
    (t : ProgressTracker) (p : Page.t) :
  inherited quizId = false ->
  scoreOrZero (data t) quizId = Int z ->
  scoreOrZero
    (data (fst (ProgressTracker_recordQuizScore stringify accepts h quizId score t p)))
    quizId
  = Int (Z.max z score).
Proof.
  intros Hi Hz. unfold scoreOrZero at 1.
  rewrite recordQuizScore_scores, String.eqb_refl, (inherited_proto _ Hi), Hz.
  reflexivity.
Qed.

(** [recordQuizScore] keeps the best score of a quiz whose identifier is
    no member of [Object.prototype]: after the scores of the quiz have
    been recorded one after the other, the score kept is the largest of
    them and of the score kept before, where no score counts as 0 (so a
    negative first score is kept as 0), and the scores of the other
    quizzes are as before. *)
Theorem ProgressTracker_best_score (stringify : ProgressData -> string)
    (accepts : Page.Policy)
    (quizId : string) (scores : list (Host * Z))
    (t : ProgressTracker) (p : Page.t) :
  inherited quizId = false ->
  let r := ProgressTracker_recordScores stringify accepts quizId scores t p in
  exists before : Z,
    scoreOrZero (data t) quizId = Int before /\
    scoreOrZero (data (fst r)) quizId
    = Int (fold_left Z.max (map snd scores) before) /\
    (forall q, q <> quizId ->
       quizScores (data (fst r)) q = quizScores (data t) q).
Proof.
  intros Hi. revert t p.
  induction scores as [ | [h score] rest IH]; intros t p.
  - destruct (scoreOrZero_ordinary (data t) quizId Hi) as [z Hz].
    exists z. cbn. split; [exact Hz | split; [exact Hz | reflexivity]].
  - destruct (scoreOrZero_ordinary (data t) quizId Hi) as [z Hz].
    exists z. split; [exact Hz | ].
    cbn [ProgressTracker_recordScores map snd fold_left].
    pose proof (recordQuizScore_best stringify accepts h quizId score z t p Hi Hz)
      as Eb.
    pose proof (recordQuizScore_scores stringify accepts h quizId score t p) as Es.
    destruct (ProgressTracker_recordQuizScore stringify accepts h quizId score t p)
      as [t1 p1].
    cbn [fst] in Eb, Es.
    destruct (IH t1 p1) as [z1 [Hz1 [IH1 IH2]]]. cbv zeta in IH1, IH2.
    rewrite Eb in Hz1. injection Hz1 as <-.
    split; [exact IH1 | ].
    intros q Hq. rewrite (IH2 q Hq), Es.
    destruct (String.eqb_spec q quizId); [contradiction | reflexivity].
Qed.

Lemma ProgressTracker_best_score_witness :
  let h := mkHost 0 1729000000123 in
  let t := mkProgressTracker "maya" 4 "calendar-progress-maya" getDefaultData in
  let p := Page.mk (fun _ => None) [] "" false false in
  let r := ProgressTracker_recordScores (fun _ => "{}") (fun _ _ _ => true) "quiz-1"
             [(h, 3); (h, 5); (h, 4)] t p in
  inherited "quiz-1" = false /\
  scoreOrZero (data (fst r)) "quiz-1" = Int 5.
Proof.
  intros h t p r.
  assert (Hi : inherited "quiz-1" = false) by reflexivity.
  split; [exact Hi | ].
  destruct (ProgressTracker_best_score (fun _ => "{}") (fun _ _ _ => true) "quiz-1"
              [(h, 3); (h, 5); (h, 4)] t p Hi) as [z [Hz [Hb _]]].
  cbv zeta in Hb. fold r in Hb. rewrite Hb.
  injection Hz as <-. reflexivity.
Defined.

(** A quiz named like a member of [Object.prototype] ('constructor',
    'toString', ...) loses its first score: the member found under the
    name is an object, [Math.max] makes [NaN] of it and [NaN] is stored;
    the next score is then recorded against 0.  Under '__proto__' nothing
    is stored at all. *)
Theorem ProgressTracker_prototype_name (stringify : ProgressData -> string)
    (accepts : Page.Policy)
    (h h2 : Host) (quizId : string) (score score2 : Z)
    (t : ProgressTracker) (p : Page.t) :
  inherited quizId = true ->
  quizScores (data t) quizId = None ->
  let r := ProgressTracker_recordQuizScore stringify accepts h quizId score t p in
  let r2 :=
    ProgressTracker_recordQuizScore stringify accepts h2 quizId score2
      (fst r) (snd r) in
  (quizId <> "__proto__" ->
   quizScores (data (fst r)) quizId = Some NaN /\
   quizScores (data (fst r2)) quizId = Some (Int (Z.max 0 score2))) /\
  (quizId = "__proto__" ->
   quizScores (data (fst r)) quizId = None /\
   quizScores (data (fst r2)) quizId = None).
Proof.
  intros Hi Hn r r2.
  pose proof (recordQuizScore_scores stringify accepts h quizId score t p quizId)
    as E1. fold r in E1.
  pose proof (recordQuizScore_scores stringify accepts h2 quizId score2
                (fst r) (snd r) quizId) as E2. fold r2 in E2.
  rewrite String.eqb_refl in E1, E2. cbn [andb] in E1, E2.
  split.
  - intros Hp.
    destruct (String.eqb_spec quizId "__proto__"); [contradiction | ].
    cbn [negb] in E1, E2.
    assert (Es : scoreOrZero (data t) quizId = NaN)
      by (unfold scoreOrZero; rewrite Hn, Hi; reflexivity).
    rewrite Es in E1. cbn [lift1] in E1.
    split; [exact E1 | ].
    rewrite E2. unfold scoreOrZero. rewrite E1. reflexivity.
  - intros Hp.
    destruct (String.eqb_spec quizId "__proto__"); [ | contradiction].
    cbn [negb] in E1, E2. rewrite E1 in E2. rewrite E1, E2.
    split; exact Hn.
Qed.

Lemma ProgressTracker_prototype_name_witness :
  let h := mkHost 0 1729000000123 in
  let t := mkProgressTracker "maya" 4 "calendar-progress-maya" getDefaultData in
  let p := Page.mk (fun _ => None) [] "" false false in
  let r := ProgressTracker_recordQuizScore (fun _ => "{}") (fun _ _ _ => true) h "constructor" 5
             t p in
  inherited "constructor" = true /\
  quizScores (data t) "constructor" = None /\
  quizScores (data (fst r)) "constructor" = Some NaN.
Proof.
  intros h t p r.
  assert (Hi : inherited "constructor" = true) by reflexivity.
  assert (Hn : quizScores (data t) "constructor" = None) by reflexivity.
  split; [exact Hi | split; [exact Hn | ]].
  destruct (ProgressTracker_prototype_name (fun _ => "{}") (fun _ _ _ => true) h h "constructor"
              5 5 t p Hi Hn) as [H _].
  exact (proj1 (H ltac:(discriminate))).
Defined.

(** Completion is recorded once: with the clock in range, [markComplete]
    on a tracker that is not complete stores the time of the call and
    [getProgress] then says complete; from then on [markComplete], at any
    later time, changes neither the data nor localStorage. *)
Theorem ProgressTracker_markComplete_once (stringify : ProgressData -> string)
    (accepts : Page.Policy)
    (h h2 : Host) (t : ProgressTracker) (p : Page.t) :
  clockOk h ->
  Page.truthy (completedAt (data t)) = false ->
  exists t' p',
    ProgressTracker_markComplete stringify accepts h t p = Some (t', p') /\
    completedAt (data t') = toISOString (Date.current h) /\
    isComplete (ProgressTracker_getProgress t') = true /\
    screensVisited (data t') = screensVisited (data t) /\
    ProgressTracker_markComplete stringify accepts h2 t' p' = Some (t', p').
Proof.
  intros Hc Hn.
  destruct (toISOString_current h Hc) as [iso [Hi Ht]].
  set (t1 := withData t
               (mkProgressData (screensVisited (data t)) (quizScores (data t))
                  (lastVisit (data t)) (Some iso) (totalVisits (data t)))).
  assert (Em : ProgressTracker_markComplete stringify accepts h t p
               = Some (ProgressTracker_save stringify accepts h t1 p)).
  { unfold ProgressTracker_markComplete. cbv zeta. rewrite Hn, Hi.
    reflexivity. }
  destruct (ProgressTracker_save_data stringify accepts h t1 p) as [E1 [_ [E3 _]]].
  cbv zeta in E1, E3.
  destruct (ProgressTracker_save stringify accepts h t1 p) as [t' p'] eqn:Er.
  cbn [fst] in E1, E3.
  exists t', p'.
  split; [exact Em | split; [rewrite Hi; exact E3 | split; [ | split ]]].
  - unfold ProgressTracker_getProgress. cbn [isComplete]. rewrite E3.
    exact Ht.
  - exact E1.
  - unfold ProgressTracker_markComplete. cbv zeta. rewrite E3.
    cbn [t1 withData data completedAt]. rewrite Ht. reflexivity.
Qed.

Lemma ProgressTracker_markComplete_once_witness :
  let h := mkHost 0 1729000000123 in
  let t := mkProgressTracker "maya" 4 "calendar-progress-maya" getDefaultData in
  let p := Page.mk (fun _ => None) [] "" false false in
  clockOk h /\
  Page.truthy (completedAt (data t)) = false /\
  exists t' p',
    ProgressTracker_markComplete (fun _ => "{}") (fun _ _ _ => true) h t p = Some (t', p') /\
    completedAt (data t') = Some "2024-10-15T13:46:40.123Z".
Proof.
  intros h t p.
  assert (Hc : clockOk h) by (unfold clockOk, Date.maxTimeValue; cbn; lia).
  assert (Hn : Page.truthy (completedAt (data t)) = false) by reflexivity.
  split; [exact Hc | split; [exact Hn | ]].
  destruct (ProgressTracker_markComplete_once (fun _ => "{}") (fun _ _ _ => true) h h t p Hc Hn)
    as [t' [p' [E1 [E2 _]]]].
  exists t', p'. split; [exact E1 | ].
  rewrite E2. vm_compute. reflexivity.
Defined.

(** The percentage of [getProgress] is never below 0 nor above 100; it is
    0 when [totalScreens] is not positive, and otherwise it is the share
    of the screens visited, cut at 100: it is 100 exactly when at least
    [totalScreens] screens were visited. *)
Theorem ProgressTracker_percentage (t : ProgressTracker) :
  let g := ProgressTracker_getProgress t in
  let visited := Z.of_nat (List.length (screensVisited (data t))) in
  progressScreensVisited g = visited /\
  (0 <= percentage g <= 100)%R /\
  (totalScreens t <= 0 -> percentage g = 0%R) /\
  (0 < totalScreens t ->
   (percentage g = 100%R <-> totalScreens t <= visited) /\
   (visited <= totalScreens t ->
    percentage g = (IZR visited / IZR (totalScreens t) * 100)%R)).
Proof.
  intros g visited. unfold g, ProgressTracker_getProgress. cbv zeta.
  cbn [percentage progressScreensVisited]. fold visited.
  assert (Hv : (0 <= IZR visited)%R) by (apply IZR_le; unfold visited; lia).
  destruct (Z.ltb_spec 0 (totalScreens t)) as [Hpos | Hneg].
  - assert (Ht : (0 < IZR (totalScreens t))%R) by (apply IZR_lt; exact Hpos).
    assert (Hq : (0 <= IZR visited / IZR (totalScreens t) * 100)%R).
    { apply Rmult_le_pos; [ | lra ].
      apply Rmult_le_pos; [exact Hv | ].
      left. apply Rinv_0_lt_compat. exact Ht. }
    assert (Hiff : (100 <= IZR visited / IZR (totalScreens t) * 100)%R
                   <-> totalScreens t <= visited).
    { split.
      - intros H. apply le_IZR.
        apply (Rmult_le_reg_r (/ IZR (totalScreens t)));
          [apply Rinv_0_lt_compat; exact Ht | ].
        rewrite Rinv_r by lra. unfold Rdiv in H. lra.
      - intros H. apply IZR_le in H.
        assert (1 <= IZR visited / IZR (totalScreens t))%R.
        { apply (Rmult_le_reg_r (IZR (totalScreens t))); [exact Ht | ].
          unfold Rdiv. rewrite Rmult_assoc, Rinv_l by lra. lra. }
        lra. }
    split; [reflexivity | split; [ | split; [lia | ] ] ].
    + unfold Rmin. destruct (Rle_dec _ _); lra.
    + intros _. split.
      * unfold Rmin. destruct (Rle_dec _ _) as [Hle | Hgt].
        -- split; [intros _; apply Hiff; exact Hle | reflexivity].
        -- split; [intros E; apply Hiff; lra | ].
           intros H. apply Hiff in H. lra.
      * intros Hle. unfold Rmin. destruct (Rle_dec _ _) as [H | H];
          [ | reflexivity ].
        apply Hiff in H. assert (visited = totalScreens t) by lia.
        replace visited with (totalScreens t) by lia.
        unfold Rdiv. rewrite Rinv_r by lra. lra.
  - split; [reflexivity | split; [ | split; [ | lia ] ] ].
    + unfold Rmin. destruct (Rle_dec _ _); lra.
    + intros _. unfold Rmin. destruct (Rle_dec _ _); lra.
Qed.

(** [reset()] with the clock in range: no screen, no score, no completion
    and no visit are left and the percentage is 0, but [lastVisit] is not
    [null] as in the default data: it is the time of the reset.  Where
    localStorage accepts the write, the data is stored under the key of
    the tracker; where [setItem] throws, [save] catches it and the page is
    as before, while the data of the tracker is reset all the same.  No
    other key is written. *)
Theorem ProgressTracker_reset_result (stringify : ProgressData -> string)
    (accepts : Page.Policy)
    (h : Host) (t : ProgressTracker) (p : Page.t) :
  clockOk h ->
  let r := ProgressTracker_reset stringify accepts h t p in
  let g := ProgressTracker_getProgress (fst r) in
  let accepted :=
    accepts (Page.localStorage p) (key t) (stringify (data (fst r))) in
  screensVisited (data (fst r)) = [] /\
  (forall q, quizScores (data (fst r)) q = None) /\
  completedAt (data (fst r)) = None /\
  totalVisits (data (fst r)) = 0 /\
  lastVisit (data (fst r)) = toISOString (Date.current h) /\
  lastVisit (data (fst r)) <> None /\
  percentage g = 0%R /\ isComplete g = false /\
  (accepted = true ->
   Page.getItem (Page.localStorage (snd r)) (key t)
   = Some (stringify (data (fst r)))) /\
  (accepted = false -> snd r = p) /\
  (forall k, k <> key t ->
     Page.getItem (Page.localStorage (snd r)) k
     = Page.getItem (Page.localStorage p) k).
Proof.
  intros Hc r g accepted.
  destruct (toISOString_current h Hc) as [iso [Hi _]].
  destruct (ProgressTracker_save_data stringify accepts h
              (withData t getDefaultData) p) as [E1 [E2 [E3 [E4 _]]]].
  destruct (ProgressTracker_save_stamp stringify accepts h
              (withData t getDefaultData) p iso Hi) as [E5 [E6 E7]].
  destruct (ProgressTracker_save_frame stringify accepts h
              (withData t getDefaultData) p) as [E8 _].
  cbv zeta in E1, E2, E3, E4, E5, E6, E7, E8.
  fold (ProgressTracker_reset stringify accepts h t p)
    in E1, E2, E3, E4, E5, E6, E7, E8.
  fold r in E1, E2, E3, E4, E5, E6, E7, E8.
  cbn [withData data key getDefaultData screensVisited quizScores completedAt
       totalVisits] in E1, E2, E3, E4, E6, E7, E8.
  split; [exact E1 | split; [intros q; rewrite E2; reflexivity | ]].
  split; [exact E3 | split; [exact E4 | ]].
  split; [rewrite Hi; exact E5 | split; [rewrite E5; discriminate | ]].
  split; [ | split; [ | split; [exact E6 | split; [exact E7 | exact E8]]]].
  - destruct (ProgressTracker_percentage (fst r)) as [_ [Hr [Hz Hp]]].
    cbv zeta in Hr, Hz, Hp. fold g in Hr, Hz, Hp.
    destruct (Z_lt_le_dec 0 (totalScreens (fst r))) as [Hpos | Hneg];
      [ | apply Hz; exact Hneg ].
    destruct (Hp Hpos) as [_ Hv]. rewrite Hv; rewrite E1; cbn [List.length];
      [ | lia ].
    change (Z.of_nat 0) with 0. unfold Rdiv. lra.
  - unfold g, ProgressTracker_getProgress. cbn [isComplete]. rewrite E3.
    reflexivity.
Qed.

Lemma ProgressTracker_reset_result_witness :
  let h := mkHost 0 1729000000123 in
  let t := mkProgressTracker "maya" 4 "calendar-progress-maya"
             (mkProgressData ["intro"; "quiz"] (fun _ => Some (Int 3)) None
                (Some "2024-01-01T00:00:00.000Z") 7) in
  let p := Page.mk (fun _ => None) [] "" false false in
  let full : Page.Policy := fun _ _ _ => false in
  let r := ProgressTracker_reset (fun _ => "{}") full h t p in
  clockOk h /\
  lastVisit (data (fst r)) = Some "2024-10-15T13:46:40.123Z" /\
  screensVisited (data (fst r)) = [] /\
  Page.getItem (Page.localStorage (snd r)) "calendar-progress-maya" = None.
Proof.
  intros h t p full r.
  assert (Hc : clockOk h) by (unfold clockOk, Date.maxTimeValue; cbn; lia).
  split; [exact Hc | ].
  destruct (ProgressTracker_reset_result (fun _ => "{}") full h t p Hc)
    as [E1 [_ [_ [_ [E5 [_ [_ [_ [_ [E7 _]]]]]]]]]].
  fold r in E1, E5, E7.
  split; [rewrite E5; vm_compute; reflexivity | split; [exact E1 | ]].
  rewrite (E7 eq_refl). reflexivity.
Defined.

Lemma ProgressTracker_visitScreen_once_aux
    (stringify : ProgressData -> string)
    (accepts : Page.Policy)
    (h : Host) (screenId : string) (t : ProgressTracker) (p : Page.t) :
  let r := ProgressTracker_visitScreen stringify accepts h screenId t p in
  (NoDup (screensVisited (data t)) -> NoDup (screensVisited (data (fst r)))) /\
  quizScores (data (fst r)) = quizScores (data t) /\
  totalVisits (data (fst r)) = totalVisits (data t) /\
  key (fst r) = key t /\ totalScreens (fst r) = totalScreens t.
Proof.
  cbv zeta.
  pose proof (visitScreen_screens stringify accepts h screenId t p) as E.
  unfold ProgressTracker_visitScreen in *. cbv zeta in *.
  destruct (existsb (String.eqb screenId) (screensVisited (data t))) eqn:Hex;
    cbn [negb] in *.
  - repeat split; auto.
  - match goal with
    | |- context [ProgressTracker_save stringify accepts h ?t1 p] =>
        destruct (ProgressTracker_save_data stringify accepts h t1 p)
          as [_ [E2 [_ [E4 [E5 [E6 _]]]]]]
    end.
    cbv zeta in E2, E4, E5, E6.
    split; [ | repeat split; assumption ].
    intros Hn. rewrite E. apply NoDup_snoc; [exact Hn | ].
    intros H. apply existsb_eqb_In in H. congruence.
Qed.

Lemma dataOk_call (stringify : ProgressData -> string)
    (accepts : Page.Policy)
    (h : Host) (c : ProgressCall) (t t' : ProgressTracker) (p p' : Page.t) :
  dataOk (data t) ->
  ProgressTracker_call stringify accepts h c t p = Some (t', p') ->
  dataOk (data t') /\ key t' = key t /\ totalScreens t' = totalScreens t.
Proof.
  intros [Hn [Hs Hv]] Hc. destruct c; cbn [ProgressTracker_call] in Hc.
  - injection Hc as Hc. apply (f_equal fst) in Hc. cbn [fst] in Hc.
    rename Hc into Et.
    destruct (ProgressTracker_visitScreen_once_aux stringify accepts h screenId t p)
      as [Hnd [E2 [E3 [E4 E5]]]].
    rewrite Et in *. repeat split; auto.
    + intros q v. rewrite E2. apply Hs.
    + rewrite E3. exact Hv.
  - injection Hc as Hc. apply (f_equal fst) in Hc. cbn [fst] in Hc.
    rename Hc into Et.
    pose proof (recordQuizScore_scores stringify accepts h quizId score t p) as Eq.
    rewrite Et in Eq.
    unfold ProgressTracker_recordQuizScore in Et. cbv zeta in Et.
    match type of Et with
    | fst (ProgressTracker_save stringify accepts h ?t1 p) = _ =>
        destruct (ProgressTracker_save_data stringify accepts h t1 p)
          as [E1 [_ [_ [E4 [E5 [E6 _]]]]]]
    end.
    cbv zeta in E1, E4, E5, E6. rewrite Et in *.
    cbn [withData data key totalScreens screensVisited totalVisits]
      in E1, E4, E5, E6.
    repeat split; auto.
    + rewrite E1. exact Hn.
    + intros q v. rewrite Eq.
      destruct (String.eqb q quizId && negb (String.eqb quizId "__proto__")).
      * unfold scoreOrZero.
        destruct (quizScores (data t) quizId) as [[v0 | ] | ] eqn:E0;
          [pose proof (Hs _ _ E0) | | destruct (inherited quizId)];
          cbn [lift1]; intros [= <-]; lia.
      * apply Hs.
    + rewrite E4. exact Hv.
  - unfold ProgressTracker_markComplete in Hc. cbv zeta in Hc.
    destruct (negb (Page.truthy (completedAt (data t)))).
    + destruct (toISOString (Date.current h)) as [iso | ]; [ | discriminate].
      injection Hc as Hc. apply (f_equal fst) in Hc. cbn [fst] in Hc.
      match type of Hc with
      | fst (ProgressTracker_save stringify accepts h ?t1 p) = _ =>
          destruct (ProgressTracker_save_data stringify accepts h t1 p)
            as [E1 [E2 [_ [E4 [E5 [E6 _]]]]]]
      end.
      cbv zeta in E1, E2, E4, E5, E6. rewrite Hc in *.
      cbn [fst withData data key totalScreens screensVisited quizScores
           totalVisits] in E1, E2, E4, E5, E6.
      repeat split; auto.
      * rewrite E1. exact Hn.
      * intros q v. rewrite E2. apply Hs.
      * rewrite E4. exact Hv.
    + injection Hc as <- _. repeat split; auto.
  - injection Hc as Hc. apply (f_equal fst) in Hc. cbn [fst] in Hc.
    rename Hc into Et.
    unfold ProgressTracker_incrementVisits in Et. cbv zeta in Et.
    match type of Et with
    | fst (ProgressTracker_save stringify accepts h ?t1 p) = _ =>
        destruct (ProgressTracker_save_data stringify accepts h t1 p)
          as [E1 [E2 [_ [E4 [E5 [E6 _]]]]]]
    end.
    cbv zeta in E1, E2, E4, E5, E6. rewrite Et in *.
    cbn [withData data key totalScreens screensVisited quizScores totalVisits]
      in E1, E2, E4, E5, E6.
    repeat split; auto.
    + rewrite E1. exact Hn.
    + intros q v. rewrite E2. apply Hs.
    + rewrite E4. lia.
  - injection Hc as Hc. apply (f_equal fst) in Hc. cbn [fst] in Hc.
    rename Hc into Et.
    unfold ProgressTracker_reset in Et.
    destruct (ProgressTracker_save_data stringify accepts h (withData t getDefaultData) p)
      as [E1 [E2 [_ [E4 [E5 [E6 _]]]]]].
    cbv zeta in E1, E2, E4, E5, E6. rewrite Et in *.
    cbn [withData data key totalScreens screensVisited quizScores totalVisits
         getDefaultData] in E1, E2, E4, E5, E6.
    repeat split; auto.
    + rewrite E1. constructor.
    + intros q v. rewrite E2. discriminate.
    + rewrite E4. lia.
Qed.

(** The page after a call is the page before, or the page [save] leaves
    from it for a tracker of the same key. *)
Lemma ProgressTracker_call_shape (stringify : ProgressData -> string)
    (accepts : Page.Policy)
    (h : Host) (c : ProgressCall) (t t' : ProgressTracker) (p p' : Page.t) :
  ProgressTracker_call stringify accepts h c t p = Some (t', p') ->
  p' = p \/
  exists t1, key t1 = key t /\
             p' = snd (ProgressTracker_save stringify accepts h t1 p).
Proof.
  intros Hc. destruct c; cbn [ProgressTracker_call] in Hc.
  - unfold ProgressTracker_visitScreen in Hc. cbv zeta in Hc.
    destruct (negb _).
    + injection Hc as Hc. apply (f_equal snd) in Hc. cbn [snd] in Hc.
      right. eexists. split; [ | symmetry; exact Hc]. reflexivity.
    + injection Hc as _ <-. left. reflexivity.
  - injection Hc as Hc. apply (f_equal snd) in Hc. cbn [snd] in Hc.
    right. eexists. split; [ | symmetry; exact Hc]. reflexivity.
  - unfold ProgressTracker_markComplete in Hc. cbv zeta in Hc.
    destruct (negb _).
    + destruct (toISOString (Date.current h)); [ | discriminate].
      injection Hc as Hc. apply (f_equal snd) in Hc. cbn [snd] in Hc.
      right. eexists. split; [ | symmetry; exact Hc]. reflexivity.
    + injection Hc as _ <-. left. reflexivity.
  - injection Hc as Hc. apply (f_equal snd) in Hc. cbn [snd] in Hc.
    right. eexists. split; [ | symmetry; exact Hc]. reflexivity.
  - injection Hc as Hc. apply (f_equal snd) in Hc. cbn [snd] in Hc.
    right. eexists. split; [ | symmetry; exact Hc]. reflexivity.
Qed.

(** A call writes under the key of the tracker only, and nothing at all
    where localStorage takes no write. *)
Lemma ProgressTracker_call_page (stringify : ProgressData -> string)
    (accepts : Page.Policy)
    (h : Host) (c : ProgressCall) (t t' : ProgressTracker) (p p' : Page.t) :
  ProgressTracker_call stringify accepts h c t p = Some (t', p') ->
  (forall k, k <> key t ->
     Page.getItem (Page.localStorage p') k
     = Page.getItem (Page.localStorage p) k) /\
  ((forall s k v, accepts s k v = false) -> p' = p).
Proof.
  intros Hc.
  destruct (ProgressTracker_call_shape _ _ _ _ _ _ _ _ Hc)
    as [-> | [t1 [Ek ->]]]; [split; reflexivity | ].
  split.
  - intros k Hk.
    destruct (ProgressTracker_save_frame stringify accepts h t1 p) as [E _].
    apply E. rewrite Ek. exact Hk.
  - intros Hno. unfold ProgressTracker_save, Page.trySetItem.
    destruct (toISOString (Date.current h)); [ | reflexivity].
    cbv zeta. rewrite Hno. reflexivity.
Qed.

(** With the clock in range a call does not fail, and where localStorage
    takes every write it either saves, so that localStorage holds the data
    it leaves, or changes nothing, which only happens on data that is not
    the default data. *)
Lemma ProgressTracker_call_saves (stringify : ProgressData -> string)
    (accepts : Page.Policy)
    (h : Host) (c : ProgressCall) (t : ProgressTracker) (p : Page.t) :
  clockOk h ->
  exists t' p',
    ProgressTracker_call stringify accepts h c t p = Some (t', p') /\
    ((forall s k v, accepts s k v = true) ->
     Page.getItem (Page.localStorage p') (key t')
     = Some (stringify (data t'))
     \/ (t', p') = (t, p) /\
        (screensVisited (data t) <> [] \/ completedAt (data t) <> None)).
Proof.
  intros Hc. destruct (toISOString_current h Hc) as [iso [Hi Ht]].
  assert (Hsave : forall t1,
             (forall s k v, accepts s k v = true) ->
             Page.getItem
               (Page.localStorage
                  (snd (ProgressTracker_save stringify accepts h t1 p)))
               (key (fst (ProgressTracker_save stringify accepts h t1 p)))
             = Some (stringify
                       (data (fst (ProgressTracker_save stringify accepts
                                     h t1 p))))).
  { intros t1 Hyes.
    destruct (ProgressTracker_save_stamp stringify accepts h t1 p iso Hi)
      as [_ [E _]].
    destruct (ProgressTracker_save_data stringify accepts h t1 p)
      as [_ [_ [_ [_ [Ek _]]]]].
    cbv zeta in E, Ek. rewrite Ek. apply E. apply Hyes. }
  destruct c; cbn [ProgressTracker_call].
  - unfold ProgressTracker_visitScreen. cbv zeta.
    destruct (existsb (String.eqb screenId) (screensVisited (data t))) eqn:Hex;
      cbn [negb].
    + exists t, p. split; [reflexivity | intros _; right].
      split; [reflexivity | left].
      intros E. rewrite E in Hex. discriminate.
    + eexists. eexists.
      split; [apply f_equal, surjective_pairing | intros Hyes; left].
      apply Hsave. exact Hyes.
  - eexists. eexists.
    split; [apply f_equal, surjective_pairing | intros Hyes; left].
    apply Hsave. exact Hyes.
  - unfold ProgressTracker_markComplete. cbv zeta.
    destruct (Page.truthy (completedAt (data t))) eqn:Hco; cbn [negb].
    + exists t, p. split; [reflexivity | intros _; right].
      split; [reflexivity | right].
      intros E. rewrite E in Hco. discriminate.
    + rewrite Hi. eexists. eexists.
      split; [apply f_equal, surjective_pairing | intros Hyes; left].
      apply Hsave. exact Hyes.
  - eexists. eexists.
    split; [apply f_equal, surjective_pairing | intros Hyes; left].
    apply Hsave. exact Hyes.
  - eexists. eexists.
    split; [apply f_equal, surjective_pairing | intros Hyes; left].
    apply Hsave. exact Hyes.
Qed.

Lemma ProgressTracker_calls_ok (stringify : ProgressData -> string)
    (accepts : Page.Policy)
    (cs : list (Host * ProgressCall)) (t : ProgressTracker) (p : Page.t) :
  Forall (fun hc => clockOk (fst hc)) cs ->
  dataOk (data t) ->
  exists t' p',
    ProgressTracker_calls stringify accepts cs t p = Some (t', p') /\
    dataOk (data t') /\ key t' = key t /\ totalScreens t' = totalScreens t /\
    (forall k, k <> key t ->
       Page.getItem (Page.localStorage p') k
       = Page.getItem (Page.localStorage p) k) /\
    ((forall s k v, accepts s k v = false) -> p' = p) /\
    ((forall s k v, accepts s k v = true) ->
     Page.getItem (Page.localStorage p) (key t) = Some (stringify (data t))
     \/ (data t = getDefaultData /\ cs <> []) ->
     Page.getItem (Page.localStorage p') (key t')
     = Some (stringify (data t'))).
Proof.
  intros Hcs. revert t p.
  induction Hcs as [ | [h c] cs Hc _ IH]; intros t p Hok.
  - exists t, p.
    split; [reflexivity | split; [exact Hok | ]].
    split; [reflexivity | split; [reflexivity | ]].
    split; [reflexivity | split; [reflexivity | ]].
    intros _ [H | [_ H]]; [exact H | contradiction].
  - cbn [fst] in Hc. cbn [ProgressTracker_calls].
    destruct (ProgressTracker_call_saves stringify accepts h c t p Hc)
      as [t1 [p1 [E1 Hs]]].
    rewrite E1.
    destruct (dataOk_call stringify accepts h c t t1 p p1 Hok E1)
      as [Hok1 [Ek Et]].
    destruct (ProgressTracker_call_page _ _ _ _ _ _ _ _ E1) as [Hf1 Hb1].
    destruct (IH t1 p1 Hok1)
      as [t' [p' [E' [Hok' [Ek' [Et' [Hf [Hb Hst]]]]]]]].
    exists t', p'. split; [exact E' | split; [exact Hok' | ]].
    split; [congruence | split; [congruence | ]].
    split; [ | split ].
    + intros k Hk. rewrite Hf by (rewrite Ek; exact Hk). apply Hf1. exact Hk.
    + intros Hno. rewrite (Hb Hno). apply Hb1. exact Hno.
    + intros Hyes Hinit. apply (Hst Hyes). left.
      destruct (Hs Hyes) as [Hs1 | [Epair Hnd]]; [exact Hs1 | ].
      injection Epair as -> ->.
      destruct Hinit as [H | [Hd _]]; [exact H | ].
      rewrite Hd in Hnd. cbn in Hnd.
      destruct Hnd as [Hx | Hx]; contradiction.
Qed.

(** The tracker under any use: from the default data, after any list of
    calls of [visitScreen], [recordQuizScore], [markComplete],
    [incrementVisits] and [reset] made with the clock in range, no call has
    failed, [screensVisited] holds no screen twice, no score is negative,
    [totalVisits] is not negative, and the key and [totalScreens] are as
    at the start, whether localStorage takes the writes or [setItem]
    throws and [save] catches it.  No key of localStorage but the
    tracker's is written.  Where localStorage takes every write, it holds
    under the key, once a call was made, the serialization of the data as
    it is now; where it takes none, the page is as at the start. *)
Theorem ProgressTracker_sessions (stringify : ProgressData -> string)
    (accepts : Page.Policy)
    (cs : list (Host * ProgressCall)) (t : ProgressTracker) (p : Page.t) :
  data t = getDefaultData ->
  Forall (fun hc => clockOk (fst hc)) cs ->
  exists t' p',
    ProgressTracker_calls stringify accepts cs t p = Some (t', p') /\
    NoDup (screensVisited (data t')) /\
    (forall q v, quizScores (data t') q = Some (Int v) -> 0 <= v) /\
    0 <= totalVisits (data t') /\
    key t' = key t /\ totalScreens t' = totalScreens t /\
    (forall k, k <> key t ->
       Page.getItem (Page.localStorage p') k
       = Page.getItem (Page.localStorage p) k) /\
    ((forall s k v, accepts s k v = true) -> cs <> [] ->
     Page.getItem (Page.localStorage p') (key t')
     = Some (stringify (data t'))) /\
    ((forall s k v, accepts s k v = false) -> p' = p).
Proof.
  intros Hd Hcs.
  assert (Hok : dataOk (data t)).
  { rewrite Hd. repeat split; cbn; try lia; [constructor | discriminate]. }
  destruct (ProgressTracker_calls_ok stringify accepts cs t p Hcs Hok)
    as [t' [p' [E [[Hn [Hs Hv]] [Ek [Et [Hf [Hb Hst]]]]]]]].
  exists t', p'.
  split; [exact E | split; [exact Hn | split; [exact Hs | ]]].
  split; [exact Hv | split; [exact Ek | split; [exact Et | ]]].
  split; [exact Hf | split; [ | exact Hb]].
  intros Hyes Hne. apply (Hst Hyes). right. split; [exact Hd | exact Hne].
Qed.

Lemma ProgressTracker_sessions_witness :
  let h := mkHost 0 1729000000123 in
  let t := mkProgressTracker "maya" 4 "calendar-progress-maya" getDefaultData in
  let p := Page.mk (fun _ => None) [] "" false false in
  let cs := [(h, VisitScreen "intro"); (h, RecordQuizScore "q1" (-2));
             (h, VisitScreen "intro"); (h, MarkComplete);
             (h, IncrementVisits)] in
  let stringify := fun d => string_of_Z (totalVisits d) in
  let accepts : Page.Policy := fun _ _ _ => true in
  data t = getDefaultData /\
  Forall (fun hc => clockOk (fst hc)) cs /\
  exists t' p',
    ProgressTracker_calls stringify accepts cs t p = Some (t', p') /\
    screensVisited (data t') = ["intro"] /\
    quizScores (data t') "q1" = Some (Int 0) /\
    Page.getItem (Page.localStorage p') "calendar-progress-maya" = Some "1".
Proof.
  intros h t p cs stringify accepts.
  assert (Hd : data t = getDefaultData) by reflexivity.
  assert (Hc : clockOk h) by (unfold clockOk, Date.maxTimeValue; cbn; lia).
  assert (Hcs : Forall (fun hc => clockOk (fst hc)) cs)
    by (repeat constructor; exact Hc).
  split; [exact Hd | split; [exact Hcs | ]].
  destruct (ProgressTracker_sessions stringify accepts cs t p Hd Hcs)
    as [t' [p' [E _]]].
  exists t', p'. split; [exact E | ].
  vm_compute in E. injection E as <- <-.
  split; [reflexivity | split; reflexivity].
Defined.
